(** * twister2: specification processing and test selection

    A shallow embedding of [twister2/specification_processor.py] and
    [twister2/filter/filter_plugin.py], and the properties of the
    per-platform resolution, the eligibility predicates, the merge of
    filter expressions and the selection hook. *)

From Stdlib Require Import ZArith QArith String List Lia.
From Stdlib Require Import Floats.SpecFloat.
From stdpp Require Import base gmap strings list fin_maps.

Local Open Scope string_scope.
Local Open Scope list_scope.
Local Open Scope Z_scope.

(** ** The Python run-time pieces the module relies on *)

Module Py.

(** The exceptions that the modelled code raises or lets through. *)
Inductive Exception : Type :=
| TwisterConfigurationException (msg : string)
| KeyError
| ValueError
| AssertionError
| TypeError
| OverflowError.

Inductive result (A : Type) : Type :=
| Ok (a : A)
| Raise (e : Exception).
Arguments Ok {A} a.
Arguments Raise {A} e.

Definition rbind {A B} (r : result A) (k : A -> result B) : result B :=
  match r with
  | Ok a => k a
  | Raise e => Raise e
  end.

(** State threaded through calls that log or mutate an object. *)
Definition State (St A : Type) : Type := St -> A * St.

Definition ret {St A} (a : A) : State St A := fun s => (a, s).

Definition bind {St A B} (m : State St A) (k : A -> State St B) : State St B :=
  fun s => let (a, s') := m s in k a s'.

(** The one-character string holding a double quote. *)
Definition dquote : string :=
  String (Ascii.Ascii false true false false false true false false) EmptyString.

(** [str.join]. *)
Definition join (sep : string) (args : list string) : string :=
  String.concat sep args.

(** Truth value of a [str], a [list] and a [set]: non-empty. *)
Definition truthy_str (s : string) : bool :=
  negb (String.eqb s "").

Definition truthy_list {A} (l : list A) : bool :=
  match l with
  | [] => false
  | _ :: _ => true
  end.

Definition truthy_set (X : gset string) : bool :=
  negb (bool_decide (X = ∅)).

(** [x in X] for a set of strings. *)
Definition contains (X : gset string) (x : string) : bool :=
  bool_decide (x ∈ X).

(** [set(l)]. *)
Definition set_of (l : list string) : gset string :=
  list_to_set l.

(** [any] over an already built list. *)
Definition any (l : list bool) : bool :=
  existsb (fun b => b) l.

(** A [for] loop whose body may raise: the first exception ends it. *)
Fixpoint for_in {St A : Type} (xs : list A) (body : A -> State St (result unit))
    : State St (result unit) :=
  match xs with
  | [] => ret (Ok tt)
  | x :: rest =>
      fun s =>
        match body x s with
        | (Ok _, s) => for_in rest body s
        | (Raise e, s) => (Raise e, s)
        end
  end.

End Py.

Import Py.

Declare Scope state_scope.
Delimit Scope state_scope with state.
Notation "'let*' x ':=' m 'in' k" := (bind m (fun x => k))
  (at level 10, x name, m at level 100, k at level 200) : state_scope.
Notation "m ';;' k" := (bind m (fun _ => k))
  (at level 100, k at level 200, right associativity) : state_scope.

(** ** Logging *)

Module Logging.

Inductive Level : Type := DEBUG | INFO | ERROR.

Record LogRecord : Type := mkLogRecord {
  logger_name : string;
  level : Level;
  message : string
}.

(** The records emitted so far, oldest first. *)
Definition Log : Type := list LogRecord.

Definition emit (name : string) (lvl : Level) (msg : string) : State Log unit :=
  fun log => (tt, log ++ [mkLogRecord name lvl msg]).

End Logging.

Import Logging.

(** ** Platform and test specification, as far as the module reads them *)

(** Python numbers: [int] is unbounded, [float] is IEEE 754 binary64. *)
Inductive number : Type :=
| PyInt (z : Z)
| PyFloat (f : spec_float).

Record Testing : Type := mkTesting {
  timeout_multiplier : number
}.

Record PlatformSpecification : Type := mkPlatform {
  identifier : string;
  arch : string;
  type : string;
  ram : Z;
  flash : Z;
  toolchain : list string;
  only_tags : list string;
  ignore_tags : list string;
  testing : Testing
}.

Record YamlTestSpecification : Type := mkTestSpec {
  original_name : string;
  timeout : number;
  tags : gset string;
  arch_allow : gset string;
  arch_exclude : gset string;
  platform_allow : gset string;
  platform_exclude : gset string;
  platform_type : gset string;
  toolchain_allow : gset string;
  toolchain_exclude : gset string;
  min_ram : Z;
  min_flash : Z;
  harness : string
}.

(** ** The eligibility predicates *)

Module Eligibility.

Local Open Scope state_scope.

(** The logger named [testcases] only writes to a file. *)
Definition _log_test_skip (test_spec : YamlTestSpecification)
    (platform : PlatformSpecification) (reason : string) : State Log unit :=
  emit "testcases" INFO
    ("Skipped test " +:+ original_name test_spec +:+ " for platform "
      +:+ identifier platform +:+ " - " +:+ reason).

Definition should_skip_for_toolchain (test_spec : YamlTestSpecification)
    (platform : PlatformSpecification) : State Log bool :=
  if negb (truthy_list (toolchain platform)) then ret false
  else if truthy_set (toolchain_allow test_spec)
       && negb (truthy_set (toolchain_allow test_spec ∩ set_of (toolchain platform)))
  then _log_test_skip test_spec platform
         "platform.toolchain not in testcase.toolchain_allow" ;; ret true
  else if truthy_set (toolchain_exclude test_spec)
       && truthy_set (toolchain_exclude test_spec ∩ set_of (toolchain platform))
  then _log_test_skip test_spec platform
         "platform.toolchain in testcase.toolchain_exclude" ;; ret true
  else ret false.

Definition should_skip_for_tag (test_spec : YamlTestSpecification)
    (platform : PlatformSpecification) : State Log bool :=
  if truthy_list (only_tags platform)
     && negb (truthy_set (set_of (only_tags platform) ∩ tags test_spec))
  then _log_test_skip test_spec platform
         "testcase.tag not in platform.only_tags" ;; ret true
  else if truthy_list (ignore_tags platform)
       && truthy_set (set_of (ignore_tags platform) ∩ tags test_spec)
  then _log_test_skip test_spec platform
         "testcase.tag in platform.ignore_tags" ;; ret true
  else ret false.

Definition should_skip_for_arch (test_spec : YamlTestSpecification)
    (platform : PlatformSpecification) : State Log bool :=
  if truthy_set (arch_allow test_spec)
     && negb (contains (arch_allow test_spec) (arch platform))
  then _log_test_skip test_spec platform
         "platform.arch not in testcase.arch_allow" ;; ret true
  else if truthy_set (arch_exclude test_spec)
       && contains (arch_exclude test_spec) (arch platform)
  then _log_test_skip test_spec platform
         "platform.arch in testcase.arch_exclude" ;; ret true
  else ret false.

Definition should_skip_for_platform (test_spec : YamlTestSpecification)
    (platform : PlatformSpecification) : State Log bool :=
  if truthy_set (platform_allow test_spec)
     && negb (contains (platform_allow test_spec) (identifier platform))
  then _log_test_skip test_spec platform
         "platform.identifier not in testcase.platform_allow" ;; ret true
  else if truthy_set (platform_exclude test_spec)
       && contains (platform_exclude test_spec) (identifier platform)
  then _log_test_skip test_spec platform
         "platform.identifier in testcase.platform_exclude" ;; ret true
  else ret false.

Definition should_skip_for_platform_type (test_spec : YamlTestSpecification)
    (platform : PlatformSpecification) : State Log bool :=
  if truthy_set (platform_type test_spec)
     && negb (contains (platform_type test_spec) (type platform))
  then _log_test_skip test_spec platform
         "platform.type not in testcase.platform_type" ;; ret true
  else ret false.

Definition should_skip_for_min_ram (test_spec : YamlTestSpecification)
    (platform : PlatformSpecification) : State Log bool :=
  if min_ram test_spec >? ram platform
  then _log_test_skip test_spec platform
         "platform.ram is less than testcase.min_ram" ;; ret true
  else ret false.

Definition should_skip_for_min_flash (test_spec : YamlTestSpecification)
    (platform : PlatformSpecification) : State Log bool :=
  if min_flash test_spec >? flash platform
  then _log_test_skip test_spec platform
         "platform.flash is less than testcase.min_flash" ;; ret true
  else ret false.

Definition should_skip_for_pytest_harness (test_spec : YamlTestSpecification)
    (platform : PlatformSpecification) : State Log bool :=
  if String.eqb (harness test_spec) "pytest"
  then _log_test_skip test_spec platform
         ("test harness " +:+ dquote +:+ "pytest" +:+ dquote
            +:+ " is natively supported by pytest") ;; ret true
  else ret false.

(** The list display is built first, element by element and in this
    order; [any] then runs over the finished list of booleans. *)
Definition should_be_skip (test_spec : YamlTestSpecification)
    (platform : PlatformSpecification) : State Log bool :=
  let* b_arch := should_skip_for_arch test_spec platform in
  let* b_min_flash := should_skip_for_min_flash test_spec platform in
  let* b_min_ram := should_skip_for_min_ram test_spec platform in
  let* b_platform := should_skip_for_platform test_spec platform in
  let* b_platform_type := should_skip_for_platform_type test_spec platform in
  let* b_pytest_harness := should_skip_for_pytest_harness test_spec platform in
  let* b_tag := should_skip_for_tag test_spec platform in
  let* b_toolchain := should_skip_for_toolchain test_spec platform in
  if any [b_arch; b_min_flash; b_min_ram; b_platform; b_platform_type;
          b_pytest_harness; b_tag; b_toolchain]
  then ret true
  else ret false.

(** *** Vocabulary for the properties below *)

(** A predicate only appends to the log: its verdict and the records it
    writes do not depend on what was logged before. *)
Definition appends_only (p : State Log bool) : Prop :=
  forall log, p log = ((p []).1, log ++ (p []).2).

(** A predicate writes one record when it returns true, none otherwise. *)
Definition one_reason_iff_true (p : State Log bool) : Prop :=
  length (p []).2 = if (p []).1 then 1%nat else 0%nat.

(** The eight predicates in the order of the list display. *)
Definition predicates (test_spec : YamlTestSpecification)
    (platform : PlatformSpecification) : list (State Log bool) :=
  [ should_skip_for_arch test_spec platform;
    should_skip_for_min_flash test_spec platform;
    should_skip_for_min_ram test_spec platform;
    should_skip_for_platform test_spec platform;
    should_skip_for_platform_type test_spec platform;
    should_skip_for_pytest_harness test_spec platform;
    should_skip_for_tag test_spec platform;
    should_skip_for_toolchain test_spec platform ].

(** The verdicts of the predicates, and the records they write. *)
Definition verdicts (test_spec : YamlTestSpecification)
    (platform : PlatformSpecification) : list bool :=
  map (fun p : State Log bool => (p []).1) (predicates test_spec platform).

Definition reasons (test_spec : YamlTestSpecification)
    (platform : PlatformSpecification) : list LogRecord :=
  concat (map (fun p : State Log bool => (p []).2) (predicates test_spec platform)).

(** The record [_log_test_skip] writes for [reason]. *)
Definition skip_record (test_spec : YamlTestSpecification)
    (platform : PlatformSpecification) (reason : string) : LogRecord :=
  mkLogRecord "testcases" INFO
    ("Skipped test " +:+ original_name test_spec +:+ " for platform "
      +:+ identifier platform +:+ " - " +:+ reason).

(** The reasons the predicates give, in the order of [predicates]. *)
Definition skip_reasons : list string :=
  [ "platform.arch not in testcase.arch_allow";
    "platform.arch in testcase.arch_exclude";
    "platform.flash is less than testcase.min_flash";
    "platform.ram is less than testcase.min_ram";
    "platform.identifier not in testcase.platform_allow";
    "platform.identifier in testcase.platform_exclude";
    "platform.type not in testcase.platform_type";
    "test harness " +:+ dquote +:+ "pytest" +:+ dquote
      +:+ " is natively supported by pytest";
    "testcase.tag not in platform.only_tags";
    "testcase.tag in platform.ignore_tags";
    "platform.toolchain not in testcase.toolchain_allow";
    "platform.toolchain in testcase.toolchain_exclude" ].

(** [r] is a skip record of the pair, with one of these reasons. *)
Definition known_skip_record (test_spec : YamlTestSpecification)
    (platform : PlatformSpecification) (r : LogRecord) : Prop :=
  exists reason, reason ∈ skip_reasons /\ r = skip_record test_spec platform reason.

End Eligibility.

(** ** Numbers: [int * float] and [math.ceil] *)

Module PyNum.

(** binary64 *)
Definition prec : Z := 53.
Definition emax : Z := 1024.

(** [float(z)]: rounded to nearest even; an [int] beyond the range of
    a double raises [OverflowError]. *)
Definition float_of_int (z : Z) : result spec_float :=
  match binary_normalize prec emax z 0 false with
  | S754_infinity _ => Raise OverflowError
  | f => Ok f
  end.

Definition float_mul (x y : spec_float) : spec_float :=
  SFmul prec emax x y.

(** [x * y]: exact on two ints, the double product otherwise. *)
Definition mul (x y : number) : result number :=
  match x, y with
  | PyInt a, PyInt b => Ok (PyInt (a * b))
  | PyInt a, PyFloat g =>
      rbind (float_of_int a) (fun f => Ok (PyFloat (float_mul f g)))
  | PyFloat f, PyInt b =>
      rbind (float_of_int b) (fun g => Ok (PyFloat (float_mul f g)))
  | PyFloat f, PyFloat g => Ok (PyFloat (float_mul f g))
  end.

(** The integer [n] with [m * 2^e <= n < m * 2^e + 1], for a signed
    mantissa [m]. *)
Definition ceil_scaled (m e : Z) : Z :=
  if 0 <=? e then m * 2 ^ e else - ((- m) / 2 ^ (- e)).

(** [math.ceil] of a float: NaN and the infinities have no integer. *)
Definition ceil_float (f : spec_float) : result Z :=
  match f with
  | S754_zero _ => Ok 0
  | S754_infinity _ => Raise OverflowError
  | S754_nan => Raise ValueError
  | S754_finite s m e => Ok (ceil_scaled (cond_Zopp s (Zpos m)) e)
  end.

(** [math.ceil(x)]: an [int] is its own ceiling. *)
Definition ceil (x : number) : result Z :=
  match x with
  | PyInt z => Ok z
  | PyFloat f => ceil_float f
  end.

(** The rational a finite double stands for. *)
Definition Q_of_float (f : spec_float) : option Q :=
  match f with
  | S754_zero _ => Some (0 # 1)
  | S754_finite s m e =>
      Some (if 0 <=? e
            then (cond_Zopp s (Zpos m) * 2 ^ e) # 1
            else cond_Zopp s (Zpos m) # Z.to_pos (2 ^ (- e)))
  | S754_infinity _ | S754_nan => None
  end.

Definition Q_of_number (x : number) : option Q :=
  match x with
  | PyInt z => Some (z # 1)
  | PyFloat f => Q_of_float f
  end.

(** [n] is the least integer that is not below [q]. *)
Definition is_ceiling_of (q : Q) (n : Z) : Prop :=
  (q <= n # 1)%Q /\ ((n - 1) # 1 < q)%Q.

End PyNum.

(** ** Paths *)

Module PyPath.

(** A path by its [parts]; an absolute one starts with the part ["/"],
    and the path of the empty string has no part at all. *)
Definition Path : Type := list string.

Definition is_absolute (p : Path) : bool :=
  match p with
  | "/" :: _ => true
  | _ => false
  end.

(** [Path.relative_to(self, other)]: the leading parts of [self] are
    compared with those of [other]; [ValueError] unless they agree.
    Against a path without parts only a relative path agrees. *)
Definition relative_to (self other : Path) : result Path :=
  match other with
  | [] => if is_absolute self then Raise ValueError else Ok self
  | _ :: _ =>
      if bool_decide (take (length other) self = other)
      then Ok (drop (length other) self)
      else Raise ValueError
  end.

(** [str(path)]. *)
Definition str (p : Path) : string :=
  match p with
  | [] => "."
  | "/" :: rest => "/" +:+ join "/" rest
  | _ => join "/" p
  end.

End PyPath.

Import PyPath.

(** ** Dictionaries *)

Module PyDict.

(** A [dict] with string keys, by its items in insertion order; a key
    occurs once. *)
Abbreviation t V := (list (string * V)).

Section Operations.

Context {V : Type}.

(** [d.get(key)] *)
Fixpoint get (d : t V) (key : string) : option V :=
  match d with
  | [] => None
  | (k, v) :: rest => if String.eqb k key then Some v else get rest key
  end.

(** [d[key] = value]: a key that is present keeps its place, a new one
    goes last. *)
Fixpoint set (key : string) (value : V) (d : t V) : t V :=
  match d with
  | [] => [(key, value)]
  | (k, v) :: rest =>
      if String.eqb k key then (k, value) :: rest else (k, v) :: set key value rest
  end.

(** [d.update(other)] with [other] a list of pairs: the assignments in
    the order of the list. *)
Definition update (d : t V) (other : list (string * V)) : t V :=
  fold_left (fun d kv => set kv.1 kv.2 d) other d.

(** [d.keys()] and [d.values()] *)
Definition keys (d : t V) : list string := map fst d.

Definition values (d : t V) : list V := map snd d.

End Operations.

End PyDict.

#[global] Instance pydict_lookup {V : Type} : Lookup string V (PyDict.t V) :=
  fun key d => PyDict.get d key.

#[global] Instance pydict_insert {V : Type} : Insert string V (PyDict.t V) :=
  PyDict.set.

(** ** Values held by a specification dictionary *)

#[local] Set Warnings "-register-all".
Inductive Value : Type :=
| VNone
| VBool (b : bool)
| VNum (n : number)
| VStr (s : string)
| VList (l : list Value)
| VPath (p : Path).

#[local] Set Warnings "+register-all".

(** A Python [dict] with string keys. *)
Abbreviation dict := (PyDict.t Value).

(** ** The dict objects of a loaded declaration *)

(** A dict object is known by its identity: the scenarios of a
    declaration refer to their dicts, and two names may refer to one
    object (a YAML alias). *)
Abbreviation loc := positive.

Module Heap.

(** The content of every dict object; an object that is not listed is
    empty. *)
Abbreviation t := (gmap loc dict).

Definition deref (h : t) (l : loc) : dict := default [] (h !! l).

(** [obj[key] = value], where [obj] is the object [l]. *)
Definition setitem (h : t) (l : loc) (key : string) (value : Value) : t :=
  <[l := <[key := value]> (deref h l)]> h.

End Heap.

(** ** Folding the [common] block into every scenario *)

Module Merge.

(** [assert all(isinstance(arg, str) for arg in args)], giving the
    strings. *)
Fixpoint assert_all_str (args : list Value) : result (list string) :=
  match args with
  | [] => Ok []
  | VStr s :: rest => rbind (assert_all_str rest) (fun l => Ok (s :: l))
  | _ :: _ => Raise AssertionError
  end.

Definition _join_filters (args : list Value) : result string :=
  rbind (assert_all_str args) (fun args =>
    match args with
    | [arg] => Ok arg
    | _ => Ok (join " and "
                 (map (fun arg => "(" +:+ arg +:+ ")")
                      (List.filter truthy_str args)))
    end).

Definition _join_strings (args : list Value) : result string :=
  rbind (assert_all_str args) (fun args =>
    Ok (join " " (List.filter truthy_str args))).

(** The body of the loop over [common.items()]: it reads and writes the
    scenario's dict object [test_spec_dict]. *)
Definition merge_common_item (test_spec_dict : loc) (item : string * Value)
    : State Heap.t (result unit) :=
  fun h =>
    let (key, common_value) := item in
    match Heap.deref h test_spec_dict !! key with
    | Some own =>
        if String.eqb key "filter"
        then match _join_filters [own; common_value] with
             | Ok s => (Ok tt, Heap.setitem h test_spec_dict key (VStr s))
             | Raise e => (Raise e, h)
             end
        else match common_value with
             | VStr _ =>
                 match _join_strings [own; common_value] with
                 | Ok s => (Ok tt, Heap.setitem h test_spec_dict key (VStr s))
                 | Raise e => (Raise e, h)
                 end
             | VList cl =>
                 match own with
                 | VList l =>
                     (Ok tt, Heap.setitem h test_spec_dict key (VList (l ++ cl)))
                 | _ => (Raise TypeError, h)
                 end
             | _ => (Ok tt, h)
             end
    | None => (Ok tt, Heap.setitem h test_spec_dict key common_value)
    end.

(** The loaded declaration: [raw_spec.get('common')] and
    [raw_spec.get('tests')]. The common block and the scenarios are dict
    objects; [tests] gives the scenario names in the order of the file. *)
Record RawSpec : Type := mkRawSpec {
  raw_common : option loc;
  raw_tests : option (PyDict.t loc)
}.

(** [validate_test_specification_data] is a function of
    [twister2/yaml_test_specification.py] and is taken as given: it reads
    the declaration, and returns or raises. *)
Definition Validator : Type := RawSpec -> Heap.t -> result unit.

(** [common.items()] with [common = raw_spec.get('common', {})]. The
    items are those at the start of the loop over them: a pass of that
    loop writes under its own key only, so the later items are not
    affected even when the scenario's dict is the common block itself. *)
Definition common_items (common : option loc) (h : Heap.t) : dict :=
  match common with
  | Some c => Heap.deref h c
  | None => []
  end.

(** The loop over [raw_spec['tests'].items()], with [tests] built so
    far. *)
Fixpoint scenarios_loop (common : option loc) (items : list (string * loc))
    (tests : PyDict.t loc) : State Heap.t (result (PyDict.t loc)) :=
  match items with
  | [] => ret (Ok tests)
  | (test_name, test_spec_dict) :: rest =>
      fun h =>
        match for_in (common_items common h) (merge_common_item test_spec_dict) h with
        | (Ok _, h) =>
            scenarios_loop common rest (<[test_name := test_spec_dict]> tests) h
        | (Raise e, h) => (Raise e, h)
        end
  end.

Definition extract_tests (validate_test_specification_data : Validator)
    (raw_spec : RawSpec) : State Heap.t (result (PyDict.t loc)) :=
  fun h =>
    match validate_test_specification_data raw_spec h with
    | Raise e => (Raise e, h)
    | Ok _ =>
        let common := raw_common raw_spec in
        match raw_tests raw_spec with
        | None => (Raise KeyError, h)
        | Some items => scenarios_loop common items [] h
        end
    end.

(** *** Vocabulary for the properties below *)

(** What one pass of the loop body leaves under [key], from the
    scenario's own entry (if any) and the common value. *)
Definition merge_entry (key : string) (own : option Value)
    (common_value : Value) : result Value :=
  match own with
  | None => Ok common_value
  | Some own =>
      if String.eqb key "filter"
      then rbind (_join_filters [own; common_value]) (fun s => Ok (VStr s))
      else match common_value with
           | VStr _ =>
               rbind (_join_strings [own; common_value]) (fun s => Ok (VStr s))
           | VList cl =>
               match own with
               | VList l => Ok (VList (l ++ cl))
               | _ => Raise TypeError
               end
           | _ => Ok own
           end
  end.

(** The scenario's value [own] and the common value cannot be combined
    under [key]: a common list against a value that is no list, or a
    [filter] that is not a string on either side. *)
Definition cannot_combine (key : string) (own common_value : Value) : Prop :=
  (key <> "filter" /\ (exists cl, common_value = VList cl)
   /\ (forall l, own <> VList l))
  \/ (key = "filter"
      /\ ((forall s, common_value <> VStr s) \/ (forall s, own <> VStr s))).

(** No dict object is shared: the common block and the scenarios'
    dicts are pairwise different objects. *)
Definition unshared (common : loc) (items : PyDict.t loc) : Prop :=
  NoDup (common :: PyDict.values items).

End Merge.

(** ** The specification processors *)

Definition module_logger : string := "twister2.specification_processor".

Definition TEST_SPEC_FILE_NAME : string := "testspec.yaml".

Definition no_specification_msg (scenario : string) (spec_file_path : Path) : string :=
  "There is no specification for " +:+ scenario +:+ " in file " +:+ str spec_file_path.

(** [YamlTestSpecification] is a dataclass of
    [twister2/yaml_test_specification.py]; the constructor call with the
    dictionary's entries as keyword arguments is taken as given. It reads
    the dictionary and builds a fresh object. *)
Definition Constructor : Type := dict -> result YamlTestSpecification.

(** [msg] mentions [s]: [s] occurs in it. *)
Definition mentions (msg s : string) : Prop :=
  exists before after : string, msg = before +:+ s +:+ after.

Module SpecificationProcessor.

Definition create_spec_from_dict (YamlTestSpecification_of_dict : Constructor)
    (test_spec_dict : dict) (platform : PlatformSpecification)
    : result YamlTestSpecification :=
  rbind (YamlTestSpecification_of_dict test_spec_dict) (fun test_spec =>
  rbind (PyNum.mul (timeout test_spec) (timeout_multiplier (testing platform)))
    (fun product =>
  rbind (PyNum.ceil product) (fun n =>
    Ok {| original_name := original_name test_spec;
          timeout := PyInt n;
          tags := tags test_spec;
          arch_allow := arch_allow test_spec;
          arch_exclude := arch_exclude test_spec;
          platform_allow := platform_allow test_spec;
          platform_exclude := platform_exclude test_spec;
          platform_type := platform_type test_spec;
          toolchain_allow := toolchain_allow test_spec;
          toolchain_exclude := toolchain_exclude test_spec;
          min_ram := min_ram test_spec;
          min_flash := min_flash test_spec;
          harness := harness test_spec |}))).

End SpecificationProcessor.

Module YamlSpecificationProcessor.

(** The attributes set by [__init__]. [tests] maps a scenario to its
    dict object and [heap] holds the content of these objects;
    [prepare_spec_dict] hands the object itself out, so a write to it is
    seen under every scenario name that refers to it. [zephyr_base] is
    a [str] in the source, given here by the parts of its path. *)
Record t : Type := mk {
  spec_file_path : Path;
  zephyr_base : Path;
  test_directory_path : Path;
  tests : PyDict.t loc;
  heap : Heap.t
}.

(** [test_spec_dict[key] = value], for the object [test_spec_dict] *)
Definition setitem (self : t) (test_spec_dict : loc) (key : string)
    (value : Value) : t :=
  {| spec_file_path := spec_file_path self;
     zephyr_base := zephyr_base self;
     test_directory_path := test_directory_path self;
     tests := tests self;
     heap := Heap.setitem (heap self) test_spec_dict key value |}.

(** The dict object [self.tests[scenario]], by its content. *)
Definition getitem (self : t) (scenario : string) : dict :=
  match tests self !! scenario with
  | Some test_spec_dict => Heap.deref (heap self) test_spec_dict
  | None => []
  end.

(** The call returns the object [test_spec_dict]; the callers only read
    it, and the result here is its content at the return. *)
Definition prepare_spec_dict (platform : PlatformSpecification)
    (scenario : string) : State (t * Log) (result dict) :=
  fun '(self, log) =>
    match tests self !! scenario with
    | None =>
        let msg := no_specification_msg scenario (spec_file_path self) in
        (Raise (TwisterConfigurationException msg),
         (self, log ++ [mkLogRecord module_logger ERROR msg]))
    | Some test_spec_dict =>
        let self := setitem self test_spec_dict "name"
                      (VStr (scenario +:+ "[" +:+ identifier platform +:+ "]")) in
        let self := setitem self test_spec_dict "original_name" (VStr scenario) in
        let self := setitem self test_spec_dict "platform"
                      (VStr (identifier platform)) in
        let self := setitem self test_spec_dict "source_dir"
                      (VPath (test_directory_path self)) in
        match relative_to (test_directory_path self) (zephyr_base self) with
        | Ok rel =>
            let self := setitem self test_spec_dict "rel_to_base_path" (VPath rel) in
            (Ok (Heap.deref (heap self) test_spec_dict), (self, log))
        | Raise ValueError =>
            (* Test not in zephyr tree *)
            let self := setitem self test_spec_dict "rel_to_base_path"
                          (VStr "out_of_tree") in
            (Ok (Heap.deref (heap self) test_spec_dict), (self, log))
        | Raise e => (Raise e, (self, log))
        end
    end.

Definition process (YamlTestSpecification_of_dict : Constructor)
    (platform : PlatformSpecification) (scenario : string)
    : State (t * Log) (result (option YamlTestSpecification)) :=
  fun st =>
    match prepare_spec_dict platform scenario st with
    | (Raise e, st) => (Raise e, st)
    | (Ok test_spec_dict, (self, log)) =>
        match SpecificationProcessor.create_spec_from_dict
                YamlTestSpecification_of_dict test_spec_dict platform with
        | Raise e => (Raise e, (self, log))
        | Ok test_spec =>
            let (skip, log) := Eligibility.should_be_skip test_spec platform log in
            if negb skip
            then (Ok (Some test_spec),
                  (self, log ++ [mkLogRecord module_logger DEBUG
                                   ("Generated test " +:+ scenario +:+ " for platform "
                                      +:+ identifier platform)]))
            else (Ok None, (self, log))
        end
    end.

(** *** Vocabulary for the properties below *)

Definition set_heap (self : t) (heap' : Heap.t) : t :=
  {| spec_file_path := spec_file_path self;
     zephyr_base := zephyr_base self;
     test_directory_path := test_directory_path self;
     tests := tests self;
     heap := heap' |}.

(** [self.tests] by value: every scenario name with the content of its
    dict. *)
Definition contents (self : t) : PyDict.t dict :=
  map (fun '(scenario, test_spec_dict) =>
         (scenario, Heap.deref (heap self) test_spec_dict))
      (tests self).

(** The value stored under [rel_to_base_path]. *)
Definition rel_to_base_path_value (self : t) : Value :=
  match relative_to (test_directory_path self) (zephyr_base self) with
  | Ok rel => VPath rel
  | Raise _ => VStr "out_of_tree"
  end.

(** The scenario's dictionary [d] after the five assignments. *)
Definition written (self : t) (platform : PlatformSpecification)
    (scenario : string) (d : dict) : dict :=
  <["rel_to_base_path" := rel_to_base_path_value self]>
    (<["source_dir" := VPath (test_directory_path self)]>
       (<["platform" := VStr (identifier platform)]>
          (<["original_name" := VStr scenario]>
             (<["name" := VStr (scenario +:+ "[" +:+ identifier platform +:+ "]")]>
                d)))).

End YamlSpecificationProcessor.

(** A collected pytest item, as far as the processor touches it. *)
Record Item : Type := mkItem {
  item_name : string;
  item_originalname : string;
  item_markers : list string
}.

Definition add_marker (item : Item) (marker : string) : Item :=
  {| item_name := item_name item;
     item_originalname := item_originalname item;
     item_markers := item_markers item ++ [marker] |}.

Module RegularSpecificationProcessor.

Record t : Type := mk {
  item : Item;
  rootpath : Path;
  test_directory_path : Path;
  spec_file_path : Path;
  tests : PyDict.t loc;
  heap : Heap.t
}.

Definition setitem (self : t) (test_spec_dict : loc) (key : string)
    (value : Value) : t :=
  {| item := item self;
     rootpath := rootpath self;
     test_directory_path := test_directory_path self;
     spec_file_path := spec_file_path self;
     tests := tests self;
     heap := Heap.setitem (heap self) test_spec_dict key value |}.

Definition getitem (self : t) (scenario : string) : dict :=
  match tests self !! scenario with
  | Some test_spec_dict => Heap.deref (heap self) test_spec_dict
  | None => []
  end.

Definition set_item (self : t) (item' : Item) : t :=
  {| item := item';
     rootpath := rootpath self;
     test_directory_path := test_directory_path self;
     spec_file_path := spec_file_path self;
     tests := tests self;
     heap := heap self |}.

Definition prepare_spec_dict (platform : PlatformSpecification)
    (scenario : string) : State (t * Log) (result dict) :=
  fun '(self, log) =>
    match tests self !! scenario with
    | None =>
        let msg := no_specification_msg scenario (spec_file_path self) in
        (Raise (TwisterConfigurationException msg),
         (self, log ++ [mkLogRecord module_logger ERROR msg]))
    | Some test_spec_dict =>
        let self := setitem self test_spec_dict "name"
                      (VStr (item_name (item self))) in
        let self := setitem self test_spec_dict "original_name"
                      (VStr (item_originalname (item self))) in
        let self := setitem self test_spec_dict "source_dir"
                      (VPath (test_directory_path self)) in
        let self := setitem self test_spec_dict "platform"
                      (VStr (identifier platform)) in
        let self := setitem self test_spec_dict "build_name" (VStr scenario) in
        match relative_to (test_directory_path self) (rootpath self) with
        | Ok rel =>
            let self := setitem self test_spec_dict "rel_to_base_path" (VPath rel) in
            (Ok (Heap.deref (heap self) test_spec_dict), (self, log))
        | Raise e => (Raise e, (self, log))
        end
    end.

(** [add_markers_from_specification] comes from
    [twister2/yaml_test_function.py] and is taken as given: it returns
    the item with the markers of the specification added. *)
Definition process (YamlTestSpecification_of_dict : Constructor)
    (add_markers_from_specification : Item -> YamlTestSpecification -> Item)
    (platform : PlatformSpecification) (scenario : string)
    : State (t * Log) (result YamlTestSpecification) :=
  fun st =>
    match prepare_spec_dict platform scenario st with
    | (Raise e, st) => (Raise e, st)
    | (Ok test_spec_dict, (self, log)) =>
        match SpecificationProcessor.create_spec_from_dict
                YamlTestSpecification_of_dict test_spec_dict platform with
        | Raise e => (Raise e, (self, log))
        | Ok test_spec =>
            let self := set_item self
                          (add_markers_from_specification (item self) test_spec) in
            let (skip, log) := Eligibility.should_be_skip test_spec platform log in
            if skip
            then (Ok test_spec,
                  (set_item self
                     (add_marker (item self) "skip('Does not match requirements')"),
                   log))
            else (Ok test_spec, (self, log))
        end
    end.

(** *** Vocabulary for the properties below *)

Definition set_heap (self : t) (heap' : Heap.t) : t :=
  {| item := item self;
     rootpath := rootpath self;
     test_directory_path := test_directory_path self;
     spec_file_path := spec_file_path self;
     tests := tests self;
     heap := heap' |}.

(** The scenario's dictionary [d] after the five assignments that come
    before the relative path is computed. *)
Definition written_before_relative_to (self : t) (platform : PlatformSpecification)
    (scenario : string) (d : dict) : dict :=
  <["build_name" := VStr scenario]>
    (<["platform" := VStr (identifier platform)]>
       (<["source_dir" := VPath (test_directory_path self)]>
          (<["original_name" := VStr (item_originalname (item self))]>
             (<["name" := VStr (item_name (item self))]> d)))).

(** The scenario's dictionary [d] when the call is over: with the
    relative path when there is one. *)
Definition written (self : t) (platform : PlatformSpecification)
    (scenario : string) (d : dict) : dict :=
  match relative_to (test_directory_path self) (rootpath self) with
  | Ok rel =>
      <["rel_to_base_path" := VPath rel]>
        (written_before_relative_to self platform scenario d)
  | Raise _ => written_before_relative_to self platform scenario d
  end.

End RegularSpecificationProcessor.

(** ** The selection hook of the filter plugin *)

Module FilterPlugin.

Section Hook.

Context {T : Type}.

(** A registered filter, by its [filter] method: true means exclude. *)
Definition FilterInterface : Type := T -> bool.

Inductive control : Type := Continue | Break.

(** [for x in xs: body], where the body may [break]. *)
Fixpoint for_each {A S : Type} (body : A -> S -> S * control)
    (xs : list A) (s : S) : S :=
  match xs with
  | [] => s
  | x :: rest =>
      match body x s with
      | (s', Break) => s'
      | (s', Continue) => for_each body rest s'
      end
  end.

(** What the hook leaves behind: the content of [items] and the
    calls made to [config.hook.pytest_deselected]. *)
Record Outcome : Type := mkOutcome {
  items_after : list T;
  pytest_deselected_calls : list (list T)
}.

(** The body of the loop over the filters: both branches leave the
    loop. The state is [(selected_items, deselected_items)]. *)
Definition consult (item : T) (filter_ : FilterInterface)
    (s : list T * list T) : (list T * list T) * control :=
  let (selected_items, deselected_items) := s in
  if filter_ item
  then ((selected_items, deselected_items ++ [item]), Break)
  else ((selected_items ++ [item], deselected_items), Break).

Definition pytest_collection_modifyitems (_filters : list FilterInterface)
    (items : list T) : Outcome :=
  let (selected_items, deselected_items) :=
    for_each
      (fun item s => (for_each (consult item) _filters s, Continue))
      items ([], []) in
  {| items_after := selected_items;
     pytest_deselected_calls :=
       if truthy_list deselected_items then [deselected_items] else [] |}.

(** The hook as the documentation words it: the filters are tried in
    registration order, the first one that returns true deselects the
    item, and an item that no filter matches is kept. *)
Definition first_match_selected (_filters : list FilterInterface)
    (items : list T) : list T :=
  List.filter (fun item => negb (existsb (fun filter_ => filter_ item) _filters)) items.

Definition first_match_deselected (_filters : list FilterInterface)
    (items : list T) : list T :=
  List.filter (fun item => existsb (fun filter_ => filter_ item) _filters) items.

End Hook.

End FilterPlugin.

(** ** The filters registered with the plugin *)

Module FilterRegistry.

Section Registry.

(** Filter objects are compared as Python compares them in
    [filter_ not in self._filters]; [filter_method] is their [filter]
    method. *)
Context {T F : Type} `{EqDecision F}.

Variable filter_method : F -> @FilterPlugin.FilterInterface T.

(** [__init__] registers the slow-test filter. *)
Definition __init__ (slow_test_filter : F) : list F :=
  [slow_test_filter].

Definition add_filter (filter_ : F) (_filters : list F) : list F :=
  if bool_decide (filter_ ∈ _filters) then _filters else _filters ++ [filter_].

(** The hook, run on the registered filter objects. *)
Definition collection_modifyitems (_filters : list F) (items : list T)
    : FilterPlugin.Outcome :=
  FilterPlugin.pytest_collection_modifyitems (map filter_method _filters) items.

End Registry.

End FilterRegistry.

(** ** The status line of a subtest report *)

Module SubtestStatus.

(** A test report, as far as the hook looks at it: [is_SubTestReport] is
    the [isinstance] test, [has_wasxfail] the [hasattr] test. *)
Record Report : Type := mkReport {
  when : string;
  is_SubTestReport : bool;
  has_wasxfail : bool;
  outcome : string;
  passed : bool;
  skipped : bool
}.

(** [None] is the hook declining; otherwise category, short letter and
    verbose word. [verbose] is [config.option.verbose]. *)
Definition pytest_report_teststatus (report : Report) (verbose : Z)
    : option (string * string * string) :=
  if negb (String.eqb (when report) "call") || negb (is_SubTestReport report)
  then None
  else if has_wasxfail report then None
  else
    let outcome := outcome report in
    if passed report then
      if verbose =? 1
      then Some ("subtests " +:+ outcome, "", "")
      else Some ("subtests " +:+ outcome, ",", "SUBPASS")
    else if skipped report then Some (outcome, "-", "SUBSKIP")
    else if String.eqb outcome "failed" then Some (outcome, "u", "SUBFAIL")
    else None.

End SubtestStatus.

(** ** Sample inputs *)

Module Samples.

(** 1.5 as a double: 6755399441055744 * 2^-52. *)
Definition one_and_a_half : spec_float :=
  S754_finite false 6755399441055744 (-52).

Definition qemu_arm : PlatformSpecification :=
  {| identifier := "qemu_cortex_m3"; arch := "arm"; type := "qemu";
     ram := 32; flash := 32;
     toolchain := ["zephyr"]; only_tags := []; ignore_tags := [];
     testing := {| timeout_multiplier := PyFloat one_and_a_half |} |}.

(** A scenario with no constraint at all. *)
Definition unconstrained : YamlTestSpecification :=
  {| original_name := "kernel.common"; timeout := PyInt 5; tags := ∅;
     arch_allow := ∅; arch_exclude := ∅;
     platform_allow := ∅; platform_exclude := ∅; platform_type := ∅;
     toolchain_allow := ∅; toolchain_exclude := ∅;
     min_ram := 32; min_flash := 32; harness := "" |}.

(** A scenario that needs more RAM and more flash than [qemu_arm] has. *)
Definition memory_hungry : YamlTestSpecification :=
  {| original_name := "kernel.common"; timeout := PyInt 5; tags := ∅;
     arch_allow := ∅; arch_exclude := ∅;
     platform_allow := ∅; platform_exclude := ∅; platform_type := ∅;
     toolchain_allow := ∅; toolchain_exclude := ∅;
     min_ram := 64; min_flash := 64; harness := "" |}.

(** 0.1 as a double: 7205759403792794 * 2^-56, a little above one tenth. *)
Definition one_tenth : spec_float :=
S754_finite false 7205759403792794 (-56).

(** A constructor that ignores the dictionary and yields [unconstrained],
    whose declared timeout is 5. *)
Definition always_unconstrained : Constructor := fun _ => Ok unconstrained.

(** A declaration whose common block carries the filter ["A"], with one
    scenario that has its own filter ["B"] and one that has none. *)
Definition filtered_declaration : Merge.RawSpec :=
  {| Merge.raw_common := Some 1%positive;
     Merge.raw_tests :=
       Some [("with_filter", 2%positive); ("without_filter", 3%positive)] |}.

(** Its dict objects as loaded: 1 is the common block, 2 and 3 are the
    scenarios. *)
Definition filtered_heap : Heap.t :=
  {[ 1%positive := [("filter", VStr "A")];
     2%positive := [("filter", VStr "B")];
     3%positive := [] ]}.

(** The same objects after [extract_tests]. *)
Definition filtered_heap_merged : Heap.t :=
  {[ 1%positive := [("filter", VStr "A")];
     2%positive := [("filter", VStr "(B) and (A)")];
     3%positive := [("filter", VStr "A")] ]}.

(** The same common block, with two scenario names for one dict (a YAML
    alias). *)
Definition aliased_declaration : Merge.RawSpec :=
  {| Merge.raw_common := Some 1%positive;
     Merge.raw_tests := Some [("first", 2%positive); ("second", 2%positive)] |}.

(** A validation that accepts every declaration. *)
Definition accept_all : Merge.Validator := fun _ _ => Ok tt.

Definition native_posix : PlatformSpecification :=
  {| identifier := "native_posix"; arch := "posix"; type := "native";
     ram := 128; flash := 128;
     toolchain := ["host"]; only_tags := []; ignore_tags := [];
     testing := {| timeout_multiplier := PyInt 1 |} |}.

(** A processor for [/zephyr/tests/kernel/testcase.yaml] with one
    scenario. *)
Definition kernel_processor : YamlSpecificationProcessor.t :=
  {| YamlSpecificationProcessor.spec_file_path :=
       ["/"; "zephyr"; "tests"; "kernel"; "testcase.yaml"];
     YamlSpecificationProcessor.zephyr_base := ["/"; "zephyr"];
     YamlSpecificationProcessor.test_directory_path :=
       ["/"; "zephyr"; "tests"; "kernel"];
     YamlSpecificationProcessor.tests := [("kernel.common", 1%positive)];
     YamlSpecificationProcessor.heap :=
       {[ 1%positive := [("timeout", VNum (PyInt 5))] ]} |}.

(** A processor for a collected item whose directory [/work/tests] lies
    outside pytest's root path [/project]. *)
Definition outside_root_processor : RegularSpecificationProcessor.t :=
  {| RegularSpecificationProcessor.item :=
       {| item_name := "test_build[qemu_cortex_m3]";
          item_originalname := "test_build";
          item_markers := [] |};
     RegularSpecificationProcessor.rootpath := ["/"; "project"];
     RegularSpecificationProcessor.test_directory_path := ["/"; "work"; "tests"];
     RegularSpecificationProcessor.spec_file_path :=
       ["/"; "work"; "tests"; "testspec.yaml"];
     RegularSpecificationProcessor.tests := [("build.a", 1%positive)];
     RegularSpecificationProcessor.heap :=
       {[ 1%positive := [("timeout", VNum (PyInt 5))] ]} |}.

(** A scenario whose only peculiarity is the harness ["pytest"]. *)
Definition pytest_harness_scenario : YamlTestSpecification :=
  {| original_name := "sample.pytest"; timeout := PyInt 5; tags := ∅;
     arch_allow := ∅; arch_exclude := ∅;
     platform_allow := ∅; platform_exclude := ∅; platform_type := ∅;
     toolchain_allow := ∅; toolchain_exclude := ∅;
     min_ram := 0; min_flash := 0; harness := "pytest" |}.

(** A scenario for x86 boards only, which also excludes arm. *)
Definition x86_only : YamlTestSpecification :=
  {| original_name := "arch.x86"; timeout := PyInt 5; tags := ∅;
     arch_allow := {[ "x86" ]}; arch_exclude := {[ "arm" ]};
     platform_allow := ∅; platform_exclude := ∅; platform_type := ∅;
     toolchain_allow := ∅; toolchain_exclude := ∅;
     min_ram := 0; min_flash := 0; harness := "" |}.

(** A scenario that excludes arm and allows every arch. *)
Definition arm_excluded : YamlTestSpecification :=
  {| original_name := "arch.no_arm"; timeout := PyInt 5; tags := ∅;
     arch_allow := ∅; arch_exclude := {[ "arm" ]};
     platform_allow := ∅; platform_exclude := ∅; platform_type := ∅;
     toolchain_allow := ∅; toolchain_exclude := ∅;
     min_ram := 0; min_flash := 0; harness := "" |}.

(** A declaration whose common block has tags, extra arguments, a
    timeout and a harness; the scenario has its own tags, extra arguments
    and timeout, and no harness. *)
Definition tagged_common : dict :=
  [("tags", VList [VStr "x"]);
   ("extra_args", VStr "-DCOMMON=1");
   ("timeout", VNum (PyInt 60));
   ("harness", VStr "console")].

Definition tagged_scenario : dict :=
  [("tags", VList [VStr "y"]);
   ("extra_args", VStr "-DOWN=1");
   ("timeout", VNum (PyInt 5));
   ("min_ram", VNum (PyInt 16))].

Definition tagged_declaration : Merge.RawSpec :=
  {| Merge.raw_common := Some 1%positive;
     Merge.raw_tests := Some [("sample.one", 2%positive)] |}.

(** Its dict objects as loaded (1 is the common block, 2 the scenario),
    and after [extract_tests]. *)
Definition tagged_heap : Heap.t :=
  {[ 1%positive := tagged_common; 2%positive := tagged_scenario ]}.

Definition tagged_heap_merged : Heap.t :=
  {[ 1%positive := tagged_common;
     2%positive :=
       [("tags", VList [VStr "y"; VStr "x"]);
        ("extra_args", VStr "-DOWN=1 -DCOMMON=1");
        ("timeout", VNum (PyInt 5));
        ("min_ram", VNum (PyInt 16));
        ("harness", VStr "console")] ]}.

(** A declaration whose common block has a list of tags where the
    scenario has a single string. *)
Definition mistyped_declaration : Merge.RawSpec :=
  {| Merge.raw_common := Some 1%positive;
     Merge.raw_tests := Some [("sample.one", 2%positive)] |}.

(** Its dict objects: 1 is the common block, 2 the scenario. *)
Definition mistyped_heap : Heap.t :=
  {[ 1%positive := [("tags", VList [VStr "x"])];
     2%positive := [("tags", VStr "y")] ]}.



(** A processor whose two scenario names refer to one dict. *)
Definition shared_processor : YamlSpecificationProcessor.t :=
  {| YamlSpecificationProcessor.spec_file_path :=
       ["/"; "zephyr"; "tests"; "kernel"; "testcase.yaml"];
     YamlSpecificationProcessor.zephyr_base := ["/"; "zephyr"];
     YamlSpecificationProcessor.test_directory_path :=
       ["/"; "zephyr"; "tests"; "kernel"];
     YamlSpecificationProcessor.tests :=
       [("kernel.first", 1%positive); ("kernel.second", 1%positive)];
     YamlSpecificationProcessor.heap :=
       {[ 1%positive := [("timeout", VNum (PyInt 5))] ]} |}.

(** A processor for a collected item whose directory lies under pytest's
    root path. *)
Definition inside_root_processor : RegularSpecificationProcessor.t :=
  {| RegularSpecificationProcessor.item :=
       {| item_name := "test_build[qemu_cortex_m3]";
          item_originalname := "test_build";
          item_markers := [] |};
     RegularSpecificationProcessor.rootpath := ["/"; "project"];
     RegularSpecificationProcessor.test_directory_path :=
       ["/"; "project"; "tests"; "build"];
     RegularSpecificationProcessor.spec_file_path :=
       ["/"; "project"; "tests"; "build"; "testspec.yaml"];
     RegularSpecificationProcessor.tests := [("build.a", 1%positive)];
     RegularSpecificationProcessor.heap :=
       {[ 1%positive := [("timeout", VNum (PyInt 5))] ]} |}.

(** What the sample processors hold under their scenario. *)
Definition declared_timeout : dict := [("timeout", VNum (PyInt 5))].

(** What [inside_root_processor] holds under [build.a] once the dictionary
    is prepared for [qemu_arm]. *)
Definition inside_root_prepared : dict :=
  <["rel_to_base_path" := VPath ["tests"; "build"]]>
    (RegularSpecificationProcessor.written_before_relative_to
       inside_root_processor qemu_arm "build.a" declared_timeout).

(** [qemu_arm] with less memory: the same identifier. *)
Definition qemu_arm_low_memory : PlatformSpecification :=
  {| identifier := "qemu_cortex_m3"; arch := "arm"; type := "qemu";
     ram := 16; flash := 16;
     toolchain := ["zephyr"]; only_tags := []; ignore_tags := [];
     testing := {| timeout_multiplier := PyFloat one_and_a_half |} |}.

(** [unconstrained] and [memory_hungry] with the timeout 5 scaled by the
    multiplier 1.5 of [qemu_arm]. *)
Definition unconstrained_resolved : YamlTestSpecification :=
  {| original_name := "kernel.common"; timeout := PyInt 8; tags := ∅;
     arch_allow := ∅; arch_exclude := ∅;
     platform_allow := ∅; platform_exclude := ∅; platform_type := ∅;
     toolchain_allow := ∅; toolchain_exclude := ∅;
     min_ram := 32; min_flash := 32; harness := "" |}.

Definition memory_hungry_resolved : YamlTestSpecification :=
  {| original_name := "kernel.common"; timeout := PyInt 8; tags := ∅;
     arch_allow := ∅; arch_exclude := ∅;
     platform_allow := ∅; platform_exclude := ∅; platform_type := ∅;
     toolchain_allow := ∅; toolchain_exclude := ∅;
     min_ram := 64; min_flash := 64; harness := "" |}.

(** Constructors that yield a fixed specification whatever the
    dictionary. *)
Definition always_memory_hungry : Constructor := fun _ => Ok memory_hungry.

(** A marker helper that records the scenario's original name. *)
Definition mark_original_name (item : Item) (test_spec : YamlTestSpecification)
    : Item :=
  add_marker item (original_name test_spec).

(** A scenario whose declared timeout is 2^53 + 1, and a platform whose
    multiplier is the double 1.0. *)
Definition long_timeout : YamlTestSpecification :=
  {| original_name := "kernel.long"; timeout := PyInt 9007199254740993; tags := ∅;
     arch_allow := ∅; arch_exclude := ∅;
     platform_allow := ∅; platform_exclude := ∅; platform_type := ∅;
     toolchain_allow := ∅; toolchain_exclude := ∅;
     min_ram := 0; min_flash := 0; harness := "" |}.

Definition always_long_timeout : Constructor := fun _ => Ok long_timeout.

Definition unit_multiplier_platform : PlatformSpecification :=
  {| identifier := "native_posix"; arch := "posix"; type := "native";
     ram := 128; flash := 128;
     toolchain := ["host"]; only_tags := []; ignore_tags := [];
     testing :=
       {| timeout_multiplier := PyFloat (S754_finite false 4503599627370496 (-52)) |} |}.

(** A platform whose timeout multiplier is NaN. *)
Definition nan_multiplier_platform : PlatformSpecification :=
  {| identifier := "broken"; arch := "arm"; type := "qemu";
     ram := 32; flash := 32;
     toolchain := []; only_tags := []; ignore_tags := [];
     testing := {| timeout_multiplier := PyFloat S754_nan |} |}.

(** A filter over test names that excludes the names starting with
    ["slow"]. *)
Definition drop_slow : @FilterPlugin.FilterInterface string :=
  fun name => String.prefix "slow" name.

(** Filter objects by number: 0 behaves as [drop_slow], every other as
    [drop_all]. *)
Definition numbered_filter (n : nat) : @FilterPlugin.FilterInterface string :=
  match n with
  | O => drop_slow
  | S _ => fun _ => true
  end.

(** The report of a passed subtest in the call phase. *)
Definition passed_subtest : SubtestStatus.Report :=
  {| SubtestStatus.when := "call";
     SubtestStatus.is_SubTestReport := true;
     SubtestStatus.has_wasxfail := false;
     SubtestStatus.outcome := "passed";
     SubtestStatus.passed := true;
     SubtestStatus.skipped := false |}.

(** Two filters over test names: the first never excludes, the second
    always does. *)
Definition keep_all : @FilterPlugin.FilterInterface string := fun _ => false.
Definition drop_all : @FilterPlugin.FilterInterface string := fun _ => true.

End Samples.

(** * Properties *)

(** ** Eligibility *)

Section EligibilityFacts.

Import Eligibility.

Variable test_spec : YamlTestSpecification.
Variable platform : PlatformSpecification.

Ltac predicate_cases :=
  repeat match goal with
         | |- context [if ?c then _ else _] =>
             lazymatch c with
             | context [if _ then _ else _] => fail
             | _ => destruct c; cbn
             end
         end.

Ltac solve_appends_only f :=
  intros log; unfold f, _log_test_skip, emit, bind, ret;
  predicate_cases; cbn; rewrite ?app_nil_r; reflexivity.

Ltac solve_one_reason f :=
  unfold one_reason_iff_true, f, _log_test_skip, emit, bind, ret;
  predicate_cases; reflexivity.

Lemma arch_appends_only : appends_only (should_skip_for_arch test_spec platform).
Proof. solve_appends_only should_skip_for_arch. Qed.

Lemma min_flash_appends_only : appends_only (should_skip_for_min_flash test_spec platform).
Proof. solve_appends_only should_skip_for_min_flash. Qed.

Lemma min_ram_appends_only : appends_only (should_skip_for_min_ram test_spec platform).
Proof. solve_appends_only should_skip_for_min_ram. Qed.

Lemma platform_appends_only : appends_only (should_skip_for_platform test_spec platform).
Proof. solve_appends_only should_skip_for_platform. Qed.

Lemma platform_type_appends_only :
  appends_only (should_skip_for_platform_type test_spec platform).
Proof. solve_appends_only should_skip_for_platform_type. Qed.

Lemma pytest_harness_appends_only :
  appends_only (should_skip_for_pytest_harness test_spec platform).
Proof. solve_appends_only should_skip_for_pytest_harness. Qed.

Lemma tag_appends_only : appends_only (should_skip_for_tag test_spec platform).
Proof. solve_appends_only should_skip_for_tag. Qed.

Lemma toolchain_appends_only : appends_only (should_skip_for_toolchain test_spec platform).
Proof. solve_appends_only should_skip_for_toolchain. Qed.

Lemma arch_one_reason : one_reason_iff_true (should_skip_for_arch test_spec platform).
Proof. solve_one_reason should_skip_for_arch. Qed.

Lemma min_flash_one_reason :
  one_reason_iff_true (should_skip_for_min_flash test_spec platform).
Proof. solve_one_reason should_skip_for_min_flash. Qed.

Lemma min_ram_one_reason : one_reason_iff_true (should_skip_for_min_ram test_spec platform).
Proof. solve_one_reason should_skip_for_min_ram. Qed.

Lemma platform_one_reason : one_reason_iff_true (should_skip_for_platform test_spec platform).
Proof. solve_one_reason should_skip_for_platform. Qed.

Lemma platform_type_one_reason :
  one_reason_iff_true (should_skip_for_platform_type test_spec platform).
Proof. solve_one_reason should_skip_for_platform_type. Qed.

Lemma pytest_harness_one_reason :
  one_reason_iff_true (should_skip_for_pytest_harness test_spec platform).
Proof. solve_one_reason should_skip_for_pytest_harness. Qed.

Lemma tag_one_reason : one_reason_iff_true (should_skip_for_tag test_spec platform).
Proof. solve_one_reason should_skip_for_tag. Qed.

Lemma toolchain_one_reason :
  one_reason_iff_true (should_skip_for_toolchain test_spec platform).
Proof. solve_one_reason should_skip_for_toolchain. Qed.

(** [should_be_skip] runs every predicate: the verdict is [any] over
    the eight verdicts, the log grows by the records of all of them. *)
Lemma should_be_skip_unfold log :
  should_be_skip test_spec platform log =
    (any (verdicts test_spec platform), log ++ reasons test_spec platform).
Proof.
  unfold should_be_skip, bind.
  rewrite (arch_appends_only log).
  rewrite (min_flash_appends_only (log ++ _)).
  rewrite (min_ram_appends_only (_ ++ _)).
  rewrite (platform_appends_only (_ ++ _)).
  rewrite (platform_type_appends_only (_ ++ _)).
  rewrite (pytest_harness_appends_only (_ ++ _)).
  rewrite (tag_appends_only (_ ++ _)).
  rewrite (toolchain_appends_only (_ ++ _)).
  unfold ret, verdicts, reasons, predicates. cbn [map concat].
  rewrite app_nil_r, <- !(assoc_L (++)).
  destruct (any _); reflexivity.
Qed.

Lemma truthy_set_true (X : gset string) : truthy_set X = true <-> X ≠ ∅.
Proof.
  unfold truthy_set. rewrite negb_true_iff, bool_decide_eq_false. reflexivity.
Qed.

Lemma contains_true (X : gset string) (x : string) : contains X x = true <-> x ∈ X.
Proof. unfold contains. apply bool_decide_eq_true. Qed.

Lemma arch_verdict log :
  (should_skip_for_arch test_spec platform log).1 =
    (truthy_set (arch_allow test_spec)
       && negb (contains (arch_allow test_spec) (arch platform)))
    || contains (arch_exclude test_spec) (arch platform).
Proof.
  unfold should_skip_for_arch, _log_test_skip, emit, bind, ret.
  destruct (truthy_set (arch_allow test_spec)
            && negb (contains (arch_allow test_spec) (arch platform))); [reflexivity|].
  cbn [orb].
  destruct (contains (arch_exclude test_spec) (arch platform)) eqn:Hin.
  - apply contains_true in Hin.
    assert (truthy_set (arch_exclude test_spec) = true) as ->
      by (apply truthy_set_true; intros E; rewrite E in Hin; inversion Hin).
    reflexivity.
  - rewrite andb_false_r. reflexivity.
Qed.

Lemma platform_verdict log :
  (should_skip_for_platform test_spec platform log).1 =
    (truthy_set (platform_allow test_spec)
       && negb (contains (platform_allow test_spec) (identifier platform)))
    || contains (platform_exclude test_spec) (identifier platform).
Proof.
  unfold should_skip_for_platform, _log_test_skip, emit, bind, ret.
  destruct (truthy_set (platform_allow test_spec)
            && negb (contains (platform_allow test_spec) (identifier platform)));
    [reflexivity|].
  cbn [orb].
  destruct (contains (platform_exclude test_spec) (identifier platform)) eqn:Hin.
  - apply contains_true in Hin.
    assert (truthy_set (platform_exclude test_spec) = true) as ->
      by (apply truthy_set_true; intros E; rewrite E in Hin; inversion Hin).
    reflexivity.
  - rewrite andb_false_r. reflexivity.
Qed.

Lemma platform_type_verdict log :
  (should_skip_for_platform_type test_spec platform log).1 =
    truthy_set (platform_type test_spec)
    && negb (contains (platform_type test_spec) (type platform)).
Proof.
  unfold should_skip_for_platform_type, _log_test_skip, emit, bind, ret.
  destruct (_ && _); reflexivity.
Qed.

Lemma min_ram_verdict log :
  (should_skip_for_min_ram test_spec platform log).1 =
    (min_ram test_spec >? ram platform).
Proof.
  unfold should_skip_for_min_ram, _log_test_skip, emit, bind, ret.
  destruct (_ >? _); reflexivity.
Qed.

Lemma min_flash_verdict log :
  (should_skip_for_min_flash test_spec platform log).1 =
    (min_flash test_spec >? flash platform).
Proof.
  unfold should_skip_for_min_flash, _log_test_skip, emit, bind, ret.
  destruct (_ >? _); reflexivity.
Qed.

Lemma toolchain_verdict log :
  (should_skip_for_toolchain test_spec platform log).1 =
    truthy_list (toolchain platform)
    && ((truthy_set (toolchain_allow test_spec)
           && negb (truthy_set (toolchain_allow test_spec ∩ set_of (toolchain platform))))
        || truthy_set (toolchain_exclude test_spec ∩ set_of (toolchain platform))).
Proof.
  unfold should_skip_for_toolchain, _log_test_skip, emit, bind, ret.
  destruct (truthy_list (toolchain platform)); [|reflexivity].
  cbn [negb andb].
  destruct (truthy_set (toolchain_allow test_spec) && _); [reflexivity|].
  cbn [orb].
  destruct (truthy_set (toolchain_exclude test_spec ∩ _)) eqn:Hex.
  - apply truthy_set_true in Hex.
    assert (truthy_set (toolchain_exclude test_spec) = true) as ->.
    { apply truthy_set_true. intros E. apply Hex. rewrite E.
      apply intersection_empty_l_L. }
    reflexivity.
  - rewrite andb_false_r. reflexivity.
Qed.

Lemma truthy_list_of_set (l : list string) (X : gset string) :
  truthy_set (set_of l ∩ X) = true -> truthy_list l = true.
Proof.
  destruct l; [|reflexivity].
  intros H. apply truthy_set_true in H. exfalso. apply H.
  unfold set_of. cbn. apply intersection_empty_l_L.
Qed.

Lemma tag_verdict log :
  (should_skip_for_tag test_spec platform log).1 =
    (truthy_list (only_tags platform)
       && negb (truthy_set (set_of (only_tags platform) ∩ tags test_spec)))
    || truthy_set (set_of (ignore_tags platform) ∩ tags test_spec).
Proof.
  unfold should_skip_for_tag, _log_test_skip, emit, bind, ret.
  destruct (truthy_list (only_tags platform) && _); [reflexivity|].
  cbn [orb].
  destruct (truthy_set (set_of (ignore_tags platform) ∩ _)) eqn:Hig.
  - rewrite (truthy_list_of_set _ _ Hig). reflexivity.
  - rewrite andb_false_r. reflexivity.
Qed.

Lemma verdict_any_log (p : State Log bool) log :
  appends_only p -> (p log).1 = (p []).1.
Proof. intros H. rewrite (H log). reflexivity. Qed.

(** C1: the verdict of [should_be_skip] is the disjunction of the eight
    predicates (architecture, platform identity, platform type, minimum
    RAM, minimum flash, toolchain, tags, harness). The architecture
    predicate holds exactly when [arch_allow] is non-empty and lacks the
    platform's arch, or [arch_exclude] has it; with both sets empty it is
    false. An empty allow-set never restricts: with it empty, only the
    matching exclude-set (if there is one) can make the predicate true. *)
Theorem should_be_skip_is_or_of_predicates (log : Log) :
  let skip (p : YamlTestSpecification -> PlatformSpecification -> State Log bool) :=
    (p test_spec platform log).1 in
  skip should_be_skip =
    skip should_skip_for_arch || skip should_skip_for_platform
    || skip should_skip_for_platform_type || skip should_skip_for_min_ram
    || skip should_skip_for_min_flash || skip should_skip_for_toolchain
    || skip should_skip_for_tag || skip should_skip_for_pytest_harness
  /\ (skip should_skip_for_arch = true <->
        (arch_allow test_spec ≠ ∅ /\ arch platform ∉ arch_allow test_spec)
        \/ arch platform ∈ arch_exclude test_spec)
  /\ (arch_allow test_spec = ∅ -> arch_exclude test_spec = ∅ ->
        skip should_skip_for_arch = false)
  /\ (arch_allow test_spec = ∅ ->
        (skip should_skip_for_arch = true <->
           arch platform ∈ arch_exclude test_spec))
  /\ (platform_allow test_spec = ∅ ->
        (skip should_skip_for_platform = true <->
           identifier platform ∈ platform_exclude test_spec))
  /\ (platform_type test_spec = ∅ -> skip should_skip_for_platform_type = false)
  /\ (toolchain_allow test_spec = ∅ ->
        (skip should_skip_for_toolchain = true <->
           toolchain platform ≠ []
           /\ toolchain_exclude test_spec ∩ set_of (toolchain platform) ≠ ∅))
  /\ (only_tags platform = [] ->
        (skip should_skip_for_tag = true <->
           set_of (ignore_tags platform) ∩ tags test_spec ≠ ∅)).
Proof.
  intros skip. subst skip. cbn beta.
  assert (Harch : (should_skip_for_arch test_spec platform log).1 = true <->
            (arch_allow test_spec ≠ ∅ /\ arch platform ∉ arch_allow test_spec)
            \/ arch platform ∈ arch_exclude test_spec).
  { rewrite arch_verdict, orb_true_iff, andb_true_iff, negb_true_iff.
    rewrite truthy_set_true, contains_true.
    unfold contains. rewrite bool_decide_eq_false. reflexivity. }
  assert (Hempty : forall X : gset string, X = ∅ -> truthy_set X = false).
  { intros X ->. reflexivity. }
  split; [|split; [exact Harch|split; [|split; [|split; [|split; [|split]]]]]].
  - rewrite should_be_skip_unfold. unfold verdicts, predicates, any.
    cbn [map existsb fst].
    rewrite (verdict_any_log _ log arch_appends_only).
    rewrite (verdict_any_log _ log platform_appends_only).
    rewrite (verdict_any_log _ log platform_type_appends_only).
    rewrite (verdict_any_log _ log min_ram_appends_only).
    rewrite (verdict_any_log _ log min_flash_appends_only).
    rewrite (verdict_any_log _ log toolchain_appends_only).
    rewrite (verdict_any_log _ log tag_appends_only).
    rewrite (verdict_any_log _ log pytest_harness_appends_only).
    destruct (should_skip_for_arch test_spec platform []).1,
      (should_skip_for_min_flash test_spec platform []).1,
      (should_skip_for_min_ram test_spec platform []).1,
      (should_skip_for_platform test_spec platform []).1,
      (should_skip_for_platform_type test_spec platform []).1,
      (should_skip_for_pytest_harness test_spec platform []).1,
      (should_skip_for_tag test_spec platform []).1,
      (should_skip_for_toolchain test_spec platform []).1; reflexivity.
  - intros Hallow Hexclude. apply not_true_is_false. rewrite Harch.
    rewrite Hallow, Hexclude. intros [[Hne _]|Hin]; [congruence | inversion Hin].
  - intros Hallow. rewrite Harch. split.
    + intros [[Hne _]|Hin]; [congruence | exact Hin].
    + auto.
  - intros Hallow. rewrite platform_verdict, (Hempty _ Hallow). cbn.
    apply contains_true.
  - intros Hallow. rewrite platform_type_verdict, (Hempty _ Hallow). reflexivity.
  - intros Hallow. rewrite toolchain_verdict, (Hempty _ Hallow). cbn.
    rewrite andb_true_iff, truthy_set_true.
    assert (truthy_list (toolchain platform) = true <-> toolchain platform ≠ []) as ->.
    { destruct (toolchain platform); cbn; split; congruence. }
    reflexivity.
  - intros Honly. rewrite tag_verdict, Honly. cbn. apply truthy_set_true.
Qed.

(** C9: the minimum-RAM predicate skips exactly when the declared
    [min_ram] is strictly greater than the platform's RAM, the
    minimum-flash predicate exactly when [min_flash] is strictly greater
    than the platform's flash; a platform that has exactly the declared
    minimum is not skipped. *)
Theorem min_ram_min_flash_strictly_greater (log : Log) :
  ((should_skip_for_min_ram test_spec platform log).1 = true <->
     min_ram test_spec > ram platform)
  /\ ((should_skip_for_min_flash test_spec platform log).1 = true <->
        min_flash test_spec > flash platform)
  /\ (min_ram test_spec = ram platform ->
        (should_skip_for_min_ram test_spec platform log).1 = false)
  /\ (min_flash test_spec = flash platform ->
        (should_skip_for_min_flash test_spec platform log).1 = false).
Proof.
  rewrite min_ram_verdict, min_flash_verdict.
  split; [|split; [|split]].
  - rewrite Z.gtb_gt. reflexivity.
  - rewrite Z.gtb_gt. reflexivity.
  - intros ->. apply not_true_is_false. rewrite Z.gtb_gt. lia.
  - intros ->. apply not_true_is_false. rewrite Z.gtb_gt. lia.
Qed.

Lemma predicates_one_reason :
  Forall one_reason_iff_true (predicates test_spec platform).
Proof.
  unfold predicates.
  apply List.Forall_cons; [exact arch_one_reason|].
  apply List.Forall_cons; [exact min_flash_one_reason|].
  apply List.Forall_cons; [exact min_ram_one_reason|].
  apply List.Forall_cons; [exact platform_one_reason|].
  apply List.Forall_cons; [exact platform_type_one_reason|].
  apply List.Forall_cons; [exact pytest_harness_one_reason|].
  apply List.Forall_cons; [exact tag_one_reason|].
  apply List.Forall_cons; [exact toolchain_one_reason|].
  apply List.Forall_nil.
Qed.

Lemma reasons_count_verdicts (ps : list (State Log bool)) :
  Forall one_reason_iff_true ps ->
  length (concat (map (fun p : State Log bool => (p []).2) ps)) =
    count_occ bool_dec (map (fun p : State Log bool => (p []).1) ps) true.
Proof.
  induction 1 as [|p ps Hp _ IH]; [reflexivity|].
  cbn [map concat count_occ]. rewrite length_app, IH, Hp.
  destruct (p []).1; reflexivity.
Qed.

Lemma any_true_count (bs : list bool) :
  any bs = true <-> (1 <= count_occ bool_dec bs true)%nat.
Proof.
  unfold any. induction bs as [|[] bs IH]; cbn.
  - split; [discriminate | lia].
  - split; [lia | reflexivity].
  - exact IH.
Qed.

(** C6 (as the code has it): [should_be_skip] evaluates all eight
    predicates, in the order of its list display, whatever the earlier
    ones returned. Each predicate writes one skip record when it returns
    true and none otherwise, so the number of records logged for a pair
    is the number of predicates that returned true, and the pair is
    skipped exactly when at least one record was logged. *)
Theorem should_be_skip_evaluates_every_predicate (log : Log) :
  should_be_skip test_spec platform log =
    (any (verdicts test_spec platform), log ++ reasons test_spec platform)
  /\ Forall one_reason_iff_true (predicates test_spec platform)
  /\ length (reasons test_spec platform) =
       count_occ bool_dec (verdicts test_spec platform) true
  /\ ((should_be_skip test_spec platform log).1 = true <->
        (1 <= length (reasons test_spec platform))%nat).
Proof.
  pose proof predicates_one_reason as Hone.
  pose proof (reasons_count_verdicts _ Hone) as Hcount.
  split; [|split; [|split]].
  - apply should_be_skip_unfold.
  - exact Hone.
  - exact Hcount.
  - rewrite should_be_skip_unfold. cbn [fst].
    unfold reasons, verdicts in *. rewrite Hcount. apply any_true_count.
Qed.

End EligibilityFacts.

(** C6, refuted as stated: for [memory_hungry] on [qemu_arm] the pair is
    skipped, and two skip records are logged, not one: the minimum-RAM
    predicate is still evaluated after the minimum-flash predicate has
    returned true. *)
Lemma should_be_skip_logs_two_reasons :
  let r := Eligibility.should_be_skip Samples.memory_hungry Samples.qemu_arm [] in
  ~ (r.1 = true -> length r.2 = 1%nat)
  /\ map message r.2 =
       [ "Skipped test kernel.common for platform qemu_cortex_m3 - "
           +:+ "platform.flash is less than testcase.min_flash";
         "Skipped test kernel.common for platform qemu_cortex_m3 - "
           +:+ "platform.ram is less than testcase.min_ram" ].
Proof.
  split.
  - intros H. specialize (H eq_refl). vm_compute in H. discriminate.
  - vm_compute. reflexivity.
Qed.

(** ** The selection hook *)

Section FilterPluginFacts.

Import FilterPlugin.

Context {T : Type}.

Implicit Types (items : list T) (item : T).

(** The loop over the filters stops after the first filter, whatever it
    answered. *)
Lemma filters_loop_first_only (f : FilterInterface) (rest : list FilterInterface)
    item (s : list T * list T) :
  for_each (consult item) (f :: rest) s = for_each (consult item) [f] s.
Proof.
  cbn. unfold consult. destruct s as [sel desel]. destruct (f item); reflexivity.
Qed.

Lemma items_loop_ext (body body' : T -> list T * list T -> (list T * list T) * control)
    items s :
  (forall item s, body item s = body' item s) ->
  for_each body items s = for_each body' items s.
Proof.
  intros Hext. revert s. induction items as [|item items IH]; intros s; cbn.
  - reflexivity.
  - rewrite Hext. destruct (body' item s) as [s' []]; [apply IH | reflexivity].
Qed.

(** Filters after the first are never consulted. *)
Lemma only_first_filter_consulted (f : FilterInterface) (rest : list FilterInterface)
    items :
  pytest_collection_modifyitems (f :: rest) items =
  pytest_collection_modifyitems [f] items.
Proof.
  unfold pytest_collection_modifyitems.
  rewrite (items_loop_ext _
             (fun item s => (for_each (consult item) [f] s, Continue))).
  - reflexivity.
  - intros item s. rewrite filters_loop_first_only. reflexivity.
Qed.

Lemma items_loop_no_filter items (s : list T * list T) :
  for_each (fun item s => (for_each (consult item) [] s, Continue)) items s = s.
Proof.
  revert s. induction items as [|item items IH]; intros s; cbn.
  - reflexivity.
  - apply IH.
Qed.

(** C10: with no registered filter the hook empties the collection: no
    item is kept, and [pytest_deselected] is not called. *)
Theorem no_filter_drops_every_item items :
  pytest_collection_modifyitems [] items =
    {| items_after := []; pytest_deselected_calls := [] |}.
Proof.
  unfold pytest_collection_modifyitems.
  rewrite items_loop_no_filter. reflexivity.
Qed.

End FilterPluginFacts.

(** C3, at the input where the code departs from it: with the filters
    [keep_all; drop_all] the second filter matches the item, yet the hook
    keeps it and reports nothing as deselected, because the loop over the
    filters is left after the first filter. Trying the filters until one
    matches would deselect the item. *)
Lemma second_filter_is_never_consulted :
  FilterPlugin.pytest_collection_modifyitems
    [Samples.keep_all; Samples.drop_all] ["test_a"] =
    {| FilterPlugin.items_after := ["test_a"];
       FilterPlugin.pytest_deselected_calls := [] |}
  /\ FilterPlugin.first_match_selected
       [Samples.keep_all; Samples.drop_all] ["test_a"] = []
  /\ FilterPlugin.first_match_deselected
       [Samples.keep_all; Samples.drop_all] ["test_a"] = ["test_a"].
Proof. repeat split. Qed.

(** ** The resolved timeout *)

Section TimeoutFacts.

Import PyNum SpecificationProcessor.

Lemma ceil_scaled_is_ceiling (m e : Z) :
  is_ceiling_of
    (if 0 <=? e then (m * 2 ^ e) # 1 else m # Z.to_pos (2 ^ (- e)))
    (ceil_scaled m e).
Proof.
  unfold is_ceiling_of, ceil_scaled, Qle, Qlt.
  destruct (0 <=? e) eqn:He; cbn [Qnum Qden].
  - lia.
  - apply Z.leb_gt in He.
    assert (HD : 0 < 2 ^ (- e)) by (apply Z.pow_pos_nonneg; lia).
    rewrite Z2Pos.id by exact HD.
    set (D := 2 ^ (- e)) in *.
    pose proof (Z.div_mod (- m) D ltac:(lia)) as Hdm.
    pose proof (Z.mod_pos_bound (- m) D HD) as Hr.
    nia.
Qed.

Lemma ceil_float_is_ceiling (f : spec_float) (q : Q) :
  Q_of_float f = Some q ->
  exists n, ceil_float f = Ok n /\ is_ceiling_of q n.
Proof.
  destruct f as [s|s| |s m e]; cbn; intros Hq; try discriminate.
  - injection Hq as <-. exists 0. split; [reflexivity|].
    unfold is_ceiling_of, Qle, Qlt. cbn. lia.
  - injection Hq as <-. eexists. split; [reflexivity|].
    apply ceil_scaled_is_ceiling.
Qed.

Lemma is_ceiling_of_Qeq (q q' : Q) (n : Z) :
  (q == q')%Q -> is_ceiling_of q n -> is_ceiling_of q' n.
Proof. unfold is_ceiling_of. intros Heq [Hle Hlt]. rewrite <- Heq. split; assumption. Qed.

(** An infinite operand never gives a finite product. *)
Lemma float_mul_infinity_l (s : bool) (g : spec_float) :
  Q_of_float (SFmul 53 1024 (S754_infinity s) g) = None.
Proof. destruct g; reflexivity. Qed.

(** What the resolution stores for a product that came out as the
    double [product]. *)
Lemma resolved_from_double (C : Constructor) (d : dict)
    (platform : PlatformSpecification) (test_spec : YamlTestSpecification)
    (product : spec_float) (q : Q) :
  C d = Ok test_spec ->
  mul (timeout test_spec) (timeout_multiplier (testing platform))
    = Ok (PyFloat product) ->
  Q_of_float product = Some q ->
  exists (n : Z) (resolved : YamlTestSpecification),
    create_spec_from_dict C d platform = Ok resolved
    /\ timeout resolved = PyInt n
    /\ is_ceiling_of q n.
Proof.
  intros Hnew Hmul Hq.
  destruct (ceil_float_is_ceiling product q Hq) as (n & Hceil & Hn).
  exists n. eexists. unfold create_spec_from_dict.
  rewrite Hnew. cbn [rbind]. rewrite Hmul. cbn [rbind ceil]. rewrite Hceil.
  cbn [rbind]. split; [reflexivity|]. split; [reflexivity | exact Hn].
Qed.

(** C7 (as the code has it): the resolved timeout is [math.ceil] of the
    product that Python computes from the declared timeout and the
    platform's multiplier. For two ints that is the exact product. As
    soon as one of them is a float it is the binary64 product of the two
    as doubles (an int operand being converted first), and the resolved
    timeout is the least integer that is not below this double, so never
    a truncation of it. Where the double product carries no rounding
    error, the resolved timeout is the ceiling of the exact product. *)
Theorem resolved_timeout_is_ceiling
    (YamlTestSpecification_of_dict : Constructor) (test_spec_dict : dict)
    (platform : PlatformSpecification) (test_spec : YamlTestSpecification) :
  YamlTestSpecification_of_dict test_spec_dict = Ok test_spec ->
  let t := timeout test_spec in
  let m := timeout_multiplier (testing platform) in
  let resolution :=
    create_spec_from_dict YamlTestSpecification_of_dict test_spec_dict platform in
  (forall a b, t = PyInt a -> m = PyInt b ->
     exists resolved, resolution = Ok resolved /\ timeout resolved = PyInt (a * b))
  /\ (forall a g q, t = PyInt a -> m = PyFloat g ->
        Q_of_float (SFmul 53 1024 (binary_normalize 53 1024 a 0 false) g) = Some q ->
        exists n resolved,
          resolution = Ok resolved /\ timeout resolved = PyInt n /\ is_ceiling_of q n)
  /\ (forall f b q, t = PyFloat f -> m = PyInt b ->
        Q_of_float (SFmul 53 1024 f (binary_normalize 53 1024 b 0 false)) = Some q ->
        exists n resolved,
          resolution = Ok resolved /\ timeout resolved = PyInt n /\ is_ceiling_of q n)
  /\ (forall f g q, t = PyFloat f -> m = PyFloat g ->
        Q_of_float (SFmul 53 1024 f g) = Some q ->
        exists n resolved,
          resolution = Ok resolved /\ timeout resolved = PyInt n /\ is_ceiling_of q n)
  /\ (forall a g q qg, t = PyInt a -> m = PyFloat g ->
        Q_of_float (SFmul 53 1024 (binary_normalize 53 1024 a 0 false) g) = Some q ->
        Q_of_float g = Some qg ->
        (q == inject_Z a * qg)%Q ->
        exists n resolved,
          resolution = Ok resolved /\ timeout resolved = PyInt n
          /\ is_ceiling_of (inject_Z a * qg) n).
Proof.
  intros Hnew. cbv zeta.
  assert (Hint_float : forall a g q,
    timeout test_spec = PyInt a ->
    timeout_multiplier (testing platform) = PyFloat g ->
    Q_of_float (SFmul 53 1024 (binary_normalize 53 1024 a 0 false) g) = Some q ->
    exists n resolved,
      create_spec_from_dict YamlTestSpecification_of_dict test_spec_dict platform
        = Ok resolved
      /\ timeout resolved = PyInt n /\ is_ceiling_of q n).
  { intros a g q Ht Hm Hq.
    apply (resolved_from_double _ _ _ _
             (SFmul 53 1024 (binary_normalize 53 1024 a 0 false) g) q Hnew);
      [|exact Hq].
    rewrite Ht, Hm. cbn [mul]. unfold float_of_int.
    change (binary_normalize prec emax a 0 false)
      with (binary_normalize 53 1024 a 0 false).
    revert Hq.
    destruct (binary_normalize 53 1024 a 0 false) as [s|s| |s ma ea];
      try reflexivity.
    rewrite float_mul_infinity_l. discriminate. }
  split; [|split; [|split; [|split]]].
  - intros a b Ht Hm. eexists. unfold create_spec_from_dict.
    rewrite Hnew. cbn [rbind]. rewrite Ht, Hm. cbn [mul rbind ceil].
    split; reflexivity.
  - exact Hint_float.
  - intros f b q Ht Hm Hq.
    apply (resolved_from_double _ _ _ _
             (SFmul 53 1024 f (binary_normalize 53 1024 b 0 false)) q Hnew);
      [|exact Hq].
    rewrite Ht, Hm. cbn [mul]. unfold float_of_int.
    change (binary_normalize prec emax b 0 false)
      with (binary_normalize 53 1024 b 0 false).
    revert Hq.
    destruct (binary_normalize 53 1024 b 0 false) as [s|s| |s mb eb];
      try reflexivity.
    destruct f; discriminate.
  - intros f g q Ht Hm Hq.
    apply (resolved_from_double _ _ _ _ (SFmul 53 1024 f g) q Hnew); [|exact Hq].
    rewrite Ht, Hm. reflexivity.
  - intros a g q qg Ht Hm Hq _ Hexact.
    destruct (Hint_float a g q Ht Hm Hq) as (n & resolved & Hcreate & Htimeout & Hn).
    exists n, resolved. split; [exact Hcreate|]. split; [exact Htimeout|].
    exact (is_ceiling_of_Qeq _ _ _ Hexact Hn).
Qed.

End TimeoutFacts.

(** C7, refuted as stated: a declared timeout of 2^53 + 1 on a platform
    whose multiplier is the double 1.0 resolves to 2^53, which is below
    the product of the two numbers and so not its ceiling: the int is
    rounded when it is converted to a double. *)
Lemma resolved_timeout_below_the_product :
  timeout Samples.long_timeout = PyInt 9007199254740993
  /\ PyNum.Q_of_number (timeout_multiplier (testing Samples.unit_multiplier_platform))
     = Some (4503599627370496 # 4503599627370496)
  /\ (exists resolved,
        SpecificationProcessor.create_spec_from_dict Samples.always_long_timeout []
          Samples.unit_multiplier_platform = Ok resolved
        /\ timeout resolved = PyInt 9007199254740992)
  /\ ~ PyNum.is_ceiling_of
         ((9007199254740993 # 1) * (4503599627370496 # 4503599627370496))
         9007199254740992.
Proof.
  split; [reflexivity|]. split; [reflexivity|]. split.
  - eexists. split; [vm_compute; reflexivity | reflexivity].
  - intros [Hle _]. vm_compute in Hle. apply Hle. reflexivity.
Qed.

(** The product whose ceiling is taken is the rounded double product:
    10 times the double nearest to 0.1 rounds to exactly 1.0, whose ceiling
    is 1. *)
Example ceiling_of_the_double_product :
  rbind (PyNum.mul (PyInt 10) (PyFloat Samples.one_tenth)) PyNum.ceil = Ok 1.
Proof. reflexivity. Qed.

(** The example of C7: a declared timeout of 5 on a platform whose
    multiplier is 1.5 resolves to 8, the ceiling of 5 * 3/2. *)
Lemma timeout_5_times_1_5_resolves_to_8 :
  exists resolved : YamlTestSpecification,
    SpecificationProcessor.create_spec_from_dict
      Samples.always_unconstrained [] Samples.qemu_arm = Ok resolved
    /\ timeout resolved = PyInt 8
    /\ PyNum.is_ceiling_of (inject_Z 5 * (3 # 2)) 8.
Proof.
  destruct (resolved_timeout_is_ceiling Samples.always_unconstrained []
              Samples.qemu_arm Samples.unconstrained eq_refl)
    as (_ & _ & _ & _ & Hexact).
  destruct (Hexact 5 Samples.one_and_a_half
              (8444249301319680 # 1125899906842624)
              (6755399441055744 # 4503599627370496)
              eq_refl eq_refl eq_refl eq_refl ltac:(vm_compute; reflexivity))
    as (n & resolved & Hcreate & Htimeout & Hn).
  assert (Hn8 : n = 8).
  { destruct Hn as [Hle Hlt]. unfold Qle, Qlt in Hle, Hlt.
    cbn in Hle, Hlt. lia. }
  subst n. exists resolved. split; [exact Hcreate|]. split; [exact Htimeout|].
  apply (is_ceiling_of_Qeq
           (inject_Z 5 * (6755399441055744 # 4503599627370496)) _ 8);
    [vm_compute; reflexivity | exact Hn].
Defined.

(** ** Dictionaries and dict objects *)

Section DictFacts.

Context {V : Type}.

Implicit Types (d : PyDict.t V) (k key : string) (v : V).

Lemma dict_lookup_cons k key v d :
  ((key, v) :: d : PyDict.t V) !! k = if String.eqb key k then Some v else d !! k.
Proof. reflexivity. Qed.

Lemma dict_insert_cons k key v v' d :
  <[k := v]> ((key, v') :: d : PyDict.t V)
  = if String.eqb key k then (key, v) :: d else (key, v') :: <[k := v]> d.
Proof. reflexivity. Qed.

Lemma dict_lookup_insert_eq d k v : <[k := v]> d !! k = Some v.
Proof.
  induction d as [|[key v'] d IH].
  - change (([(k, v)] : PyDict.t V) !! k = Some v).
    rewrite dict_lookup_cons, String.eqb_refl. reflexivity.
  - rewrite dict_insert_cons. destruct (String.eqb key k) eqn:Hkey.
    + rewrite dict_lookup_cons, Hkey. reflexivity.
    + rewrite dict_lookup_cons, Hkey. exact IH.
Qed.

Lemma dict_lookup_insert_ne d k k' v : k <> k' -> <[k := v]> d !! k' = d !! k'.
Proof.
  intros Hne. induction d as [|[key v'] d IH].
  - change (([(k, v)] : PyDict.t V) !! k' = None).
    rewrite dict_lookup_cons. apply String.eqb_neq in Hne. rewrite Hne. reflexivity.
  - rewrite dict_insert_cons. destruct (String.eqb key k) eqn:Hkey.
    + apply String.eqb_eq in Hkey. subst key.
      rewrite !dict_lookup_cons. apply String.eqb_neq in Hne. rewrite Hne.
      reflexivity.
    + rewrite !dict_lookup_cons. destruct (String.eqb key k'); [reflexivity|exact IH].
Qed.

(** Assigning what is there already changes nothing. *)
Lemma dict_insert_id d k v : d !! k = Some v -> <[k := v]> d = d.
Proof.
  induction d as [|[key v'] d IH]; [discriminate|].
  rewrite dict_lookup_cons, dict_insert_cons.
  destruct (String.eqb key k); [intros [= ->]; reflexivity|].
  intros Hk. rewrite (IH Hk). reflexivity.
Qed.

Lemma dict_insert_insert_eq d k v v' : <[k := v]> (<[k := v']> d) = <[k := v]> d.
Proof.
  induction d as [|[key v0] d IH].
  - change (<[k := v]> ([(k, v')] : PyDict.t V) = [(k, v)]).
    rewrite dict_insert_cons, String.eqb_refl. reflexivity.
  - rewrite !dict_insert_cons. destruct (String.eqb key k) eqn:Hkey.
    + rewrite dict_insert_cons, Hkey. reflexivity.
    + rewrite dict_insert_cons, Hkey, IH. reflexivity.
Qed.

(** Two assignments under different keys can be swapped when the later
    key is in the dict already: it keeps its place. *)
Lemma dict_insert_comm d k k' v v' :
  k <> k' -> is_Some (d !! k) ->
  <[k := v]> (<[k' := v']> d) = <[k' := v']> (<[k := v]> d).
Proof.
  intros Hne. induction d as [|[key v0] d IH]; intros [x Hx]; [discriminate|].
  rewrite dict_lookup_cons in Hx. rewrite !dict_insert_cons.
  destruct (String.eqb key k) eqn:Hk, (String.eqb key k') eqn:Hk'.
  - apply String.eqb_eq in Hk, Hk'. congruence.
  - rewrite !dict_insert_cons, Hk, Hk'. reflexivity.
  - rewrite !dict_insert_cons, Hk, Hk'. reflexivity.
  - rewrite !dict_insert_cons, Hk, Hk'. rewrite IH by (exists x; exact Hx).
    reflexivity.
Qed.

Lemma dict_lookup_None d k : d !! k = None <-> k ∉ PyDict.keys d.
Proof.
  induction d as [|[key v] d IH].
  - split; [intros _; apply not_elem_of_nil | reflexivity].
  - rewrite dict_lookup_cons. cbn [PyDict.keys map fst]. rewrite not_elem_of_cons.
    destruct (String.eqb key k) eqn:Hkey.
    + apply String.eqb_eq in Hkey. split; [discriminate|]. intros [Hne _]. congruence.
    + apply String.eqb_neq in Hkey. rewrite IH. unfold PyDict.keys. split.
      * intros Hnot. split; [congruence | exact Hnot].
      * intros [_ Hnot]. exact Hnot.
Qed.

Lemma dict_lookup_Some_elem d k v : d !! k = Some v -> (k, v) ∈ d.
Proof.
  induction d as [|[key v'] d IH]; [discriminate|].
  rewrite dict_lookup_cons. destruct (String.eqb key k) eqn:Hkey.
  - apply String.eqb_eq in Hkey. intros [= ->]. subst. apply list_elem_of_here.
  - intros Hk. apply list_elem_of_further, IH, Hk.
Qed.

Lemma dict_lookup_Some_values d k v : d !! k = Some v -> v ∈ PyDict.values d.
Proof.
  intros Hk. apply dict_lookup_Some_elem in Hk.
  apply (list_elem_of_fmap_2 snd) in Hk. exact Hk.
Qed.

End DictFacts.

Section HeapFacts.

Implicit Types (h : Heap.t) (l : loc) (k : string) (v : Value).

Lemma deref_setitem_eq h l k v :
  Heap.deref (Heap.setitem h l k v) l = <[k := v]> (Heap.deref h l).
Proof.
  unfold Heap.setitem. unfold Heap.deref at 1.
  rewrite lookup_insert_eq. reflexivity.
Qed.

Lemma lookup_setitem_ne h l l' k v : l' <> l -> Heap.setitem h l k v !! l' = h !! l'.
Proof. intros Hne. unfold Heap.setitem. apply lookup_insert_ne. congruence. Qed.

Lemma deref_setitem_ne h l l' k v :
  l' <> l -> Heap.deref (Heap.setitem h l k v) l' = Heap.deref h l'.
Proof. intros Hne. unfold Heap.deref. rewrite lookup_setitem_ne by exact Hne. reflexivity. Qed.

Lemma deref_lookup_eq h h' l : h' !! l = h !! l -> Heap.deref h' l = Heap.deref h l.
Proof. unfold Heap.deref. intros ->. reflexivity. Qed.

(** A second assignment to the same object. *)
Lemma setitem_setitem h l k v k' v' :
  Heap.setitem (Heap.setitem h l k v) l k' v'
  = <[l := <[k' := v']> (<[k := v]> (Heap.deref h l))]> h.
Proof.
  unfold Heap.setitem at 1. rewrite deref_setitem_eq.
  unfold Heap.setitem. apply insert_insert_eq.
Qed.

Lemma insert_setitem h l (d : dict) k v :
  Heap.setitem (<[l := d]> h) l k v = <[l := <[k := v]> d]> h.
Proof.
  unfold Heap.setitem, Heap.deref. rewrite lookup_insert_eq. cbn [default from_option id].
  apply insert_insert_eq.
Qed.

(** Assigning to an object the value it has under the key already. *)
Lemma setitem_id h l k v : Heap.deref h l !! k = Some v -> Heap.setitem h l k v = h.
Proof.
  unfold Heap.setitem, Heap.deref. destruct (h !! l) as [d|] eqn:Hl; cbn.
  - intros Hk. rewrite (dict_insert_id _ _ _ Hk). apply insert_id. exact Hl.
  - discriminate.
Qed.

End HeapFacts.

(** ** Merging the common block *)

Section MergeFacts.

Import Merge.

Lemma append_assoc (s1 s2 s3 : string) :
  (s1 +:+ s2) +:+ s3 = s1 +:+ s2 +:+ s3.
Proof.
  induction s1 as [|c s1 IH]; [reflexivity|].
  change (String c ((s1 +:+ s2) +:+ s3) = String c (s1 +:+ s2 +:+ s3)).
  rewrite IH. reflexivity.
Qed.

Lemma truthy_str_true (s : string) : s <> "" -> truthy_str s = true.
Proof.
  intros Hs. unfold truthy_str. apply negb_true_iff. apply String.eqb_neq. exact Hs.
Qed.

Lemma join_filters_both (A B : string) :
  A <> "" -> B <> "" ->
  _join_filters [VStr B; VStr A] = Ok ("(" +:+ B +:+ ") and (" +:+ A +:+ ")").
Proof.
  intros HA HB. unfold _join_filters. cbn [assert_all_str rbind List.filter].
  rewrite (truthy_str_true _ HA), (truthy_str_true _ HB).
  cbn [map join String.concat]. rewrite !append_assoc. reflexivity.
Qed.

Lemma join_filters_right_empty (B : string) :
  B <> "" -> _join_filters [VStr B; VStr ""] = Ok ("(" +:+ B +:+ ")").
Proof. intros HB. cbn. rewrite (truthy_str_true _ HB). reflexivity. Qed.

Lemma join_filters_left_empty (A : string) :
  A <> "" -> _join_filters [VStr ""; VStr A] = Ok ("(" +:+ A +:+ ")").
Proof. intros HA. cbn. rewrite (truthy_str_true _ HA). reflexivity. Qed.

(** One pass of the loop body assigns the [merge_entry] of its key to
    the scenario's dict object, or raises and writes nothing. *)
Lemma merge_common_item_eq (l : loc) (key : string) (cv : Value) (h : Heap.t) :
  merge_common_item l (key, cv) h =
    match merge_entry key (Heap.deref h l !! key) cv with
    | Ok v => (Ok tt, Heap.setitem h l key v)
    | Raise e => (Raise e, h)
    end.
Proof.
  unfold merge_common_item, merge_entry.
  destruct (Heap.deref h l !! key) as [own|] eqn:Hown; [|reflexivity].
  destruct (String.eqb key "filter").
  - destruct (_join_filters [own; cv]); reflexivity.
  - destruct cv as [| b | n | s | cl | p];
      try (rewrite (setitem_id _ _ _ _ Hown); reflexivity).
    + destruct (_join_strings [own; VStr s]); reflexivity.
    + destruct own; reflexivity.
Qed.

(** The loop over the common items touches no other object. *)
Lemma merge_loop_frame (items : dict) (l : loc) (h h' : Heap.t) (r : result unit) :
  for_in items (merge_common_item l) h = (r, h') ->
  forall l', l' <> l -> h' !! l' = h !! l'.
Proof.
  revert h. induction items as [|[key cv] rest IH]; intros h.
  - intros [= <- <-]. reflexivity.
  - cbn [for_in]. rewrite merge_common_item_eq.
    destruct (merge_entry key (Heap.deref h l !! key) cv) as [v|e].
    + intros Hrest l' Hne. rewrite (IH _ Hrest l' Hne).
      apply lookup_setitem_ne. exact Hne.
    + intros [= <- <-]. reflexivity.
Qed.

(** After the loop over the common items, every key of the common block
    holds its [merge_entry]; the scenario's other keys are as they
    were. *)
Lemma merge_loop_entries (items : dict) (l : loc) (h h' : Heap.t) (u : unit) :
  NoDup (PyDict.keys items) ->
  for_in items (merge_common_item l) h = (Ok u, h') ->
  forall k,
    match items !! k with
    | None => Heap.deref h' l !! k = Heap.deref h l !! k
    | Some c =>
        exists v, merge_entry k (Heap.deref h l !! k) c = Ok v
                  /\ Heap.deref h' l !! k = Some v
    end.
Proof.
  revert h. induction items as [|[key cv] rest IH]; intros h Hkeys.
  - intros [= <- <-] k. reflexivity.
  - cbn [for_in]. rewrite merge_common_item_eq.
    destruct (merge_entry key (Heap.deref h l !! key) cv) as [v|e] eqn:Hentry;
      [|discriminate].
    intros Hrest k. cbn [PyDict.keys map fst] in Hkeys.
    apply NoDup_cons in Hkeys as [Hfresh Hkeys].
    specialize (IH _ Hkeys Hrest k). rewrite dict_lookup_cons.
    destruct (String.eqb key k) eqn:Hk.
    + apply String.eqb_eq in Hk. subst k. exists v. split; [exact Hentry|].
      apply dict_lookup_None in Hfresh. rewrite Hfresh in IH. rewrite IH.
      rewrite deref_setitem_eq. apply dict_lookup_insert_eq.
    + apply String.eqb_neq in Hk.
      rewrite deref_setitem_eq, (dict_lookup_insert_ne _ _ _ _ Hk) in IH.
      exact IH.
Qed.

(** The loop over the scenarios touches the scenarios' objects only. *)
Lemma scenarios_loop_frame (common : option loc) (items acc : PyDict.t loc)
    (h h' : Heap.t) (r : result (PyDict.t loc)) :
  scenarios_loop common items acc h = (r, h') ->
  forall l', l' ∉ PyDict.values items -> h' !! l' = h !! l'.
Proof.
  revert acc h. induction items as [|[name l] rest IH]; intros acc h.
  - intros [= <- <-]. reflexivity.
  - cbn [scenarios_loop].
    destruct (for_in (common_items common h) (merge_common_item l) h)
      as [[u|e] h1] eqn:Hinner.
    + intros Hrest l' Hnot. cbn [PyDict.values map snd] in Hnot.
      apply not_elem_of_cons in Hnot as [Hne Hnot].
      rewrite (IH _ _ Hrest l' Hnot). exact (merge_loop_frame _ _ _ _ _ Hinner l' Hne).
    + intros [= <- <-] l' Hnot. cbn [PyDict.values map snd] in Hnot.
      apply not_elem_of_cons in Hnot as [Hne Hnot].
      exact (merge_loop_frame _ _ _ _ _ Hinner l' Hne).
Qed.

Lemma dict_insert_fresh {V : Type} (d : PyDict.t V) (k : string) (v : V) :
  d !! k = None -> <[k := v]> d = d ++ [(k, v)].
Proof.
  induction d as [|[key v'] d IH]; [reflexivity|].
  rewrite dict_lookup_cons, dict_insert_cons.
  destruct (String.eqb key k); [discriminate|].
  intros Hk. rewrite (IH Hk). reflexivity.
Qed.

(** The scenarios come back under their names, in the order of the
    declaration, each with its own dict object. *)
Lemma scenarios_loop_tests (common : option loc) (items acc tests : PyDict.t loc)
    (h h' : Heap.t) :
  NoDup (PyDict.keys (acc ++ items)) ->
  scenarios_loop common items acc h = (Ok tests, h') ->
  tests = acc ++ items.
Proof.
  revert acc h. induction items as [|[name l] rest IH]; intros acc h Hnames.
  - intros [= <- <-]. rewrite app_nil_r. reflexivity.
  - cbn [scenarios_loop].
    destruct (for_in (common_items common h) (merge_common_item l) h)
      as [[u|e] h1]; [|discriminate].
    intros Hrest.
    assert (Hfresh : acc !! name = None).
    { apply dict_lookup_None. unfold PyDict.keys in Hnames |- *.
      rewrite map_app in Hnames. apply NoDup_app in Hnames as (_ & Hdisjoint & _).
      intros Hin. apply (Hdisjoint _ Hin). apply list_elem_of_here. }
    rewrite (dict_insert_fresh _ _ _ Hfresh) in Hrest.
    assert (Hnames' : NoDup (PyDict.keys ((acc ++ [(name, l)]) ++ rest)))
      by (rewrite <- app_assoc; exact Hnames).
    rewrite (IH _ _ Hnames' Hrest), <- app_assoc. reflexivity.
Qed.

(** With no dict shared, every scenario's dict ends up with the
    [merge_entry] of its own declared entry under each key of the common
    block, and keeps its other entries. *)
Lemma scenarios_loop_entries (c : loc) (items acc tests : PyDict.t loc)
    (h h' : Heap.t) :
  unshared c items ->
  NoDup (PyDict.keys (Heap.deref h c)) ->
  scenarios_loop (Some c) items acc h = (Ok tests, h') ->
  forall l, l ∈ PyDict.values items ->
  forall k,
    match Heap.deref h c !! k with
    | None => Heap.deref h' l !! k = Heap.deref h l !! k
    | Some cv =>
        exists v, merge_entry k (Heap.deref h l !! k) cv = Ok v
                  /\ Heap.deref h' l !! k = Some v
    end.
Proof.
  unfold unshared. revert acc h.
  induction items as [|[name l1] rest IH]; intros acc h Hunshared Hkeys.
  - intros _ l Hin. apply elem_of_nil in Hin. destruct Hin.
  - cbn [scenarios_loop common_items].
    destruct (for_in (Heap.deref h c) (merge_common_item l1) h)
      as [[u|e] h1] eqn:Hinner; [|discriminate].
    intros Hrest l Hin k. cbn [PyDict.values map snd] in Hunshared, Hin.
    apply NoDup_cons in Hunshared as [Hc Hobjects].
    apply not_elem_of_cons in Hc as [Hc1 Hc].
    apply NoDup_cons in Hobjects as [Hl1 Hobjects].
    assert (Hcommon : Heap.deref h1 c = Heap.deref h c)
      by (apply deref_lookup_eq, (merge_loop_frame _ _ _ _ _ Hinner); exact Hc1).
    destruct (decide (l = l1)) as [->|Hne].
    + rewrite (deref_lookup_eq _ _ _ (scenarios_loop_frame _ _ _ _ _ _ Hrest l1 Hl1)).
      exact (merge_loop_entries _ _ _ _ _ Hkeys Hinner k).
    + apply elem_of_cons in Hin as [Heq|Hin]; [congruence|].
      assert (Hunshared' : NoDup (c :: PyDict.values rest))
        by (apply NoDup_cons; split; assumption).
      pose proof (IH _ h1 Hunshared' ltac:(rewrite Hcommon; exact Hkeys) Hrest l Hin k)
        as Hentries.
      rewrite Hcommon in Hentries.
      rewrite (deref_lookup_eq h h1 l (merge_loop_frame _ _ _ _ _ Hinner l Hne))
        in Hentries.
      exact Hentries.
Qed.

(** What a successful [extract_tests] did. *)
Lemma extract_tests_ok (validate : Validator) (raw_spec : RawSpec) (h h' : Heap.t)
    (tests : PyDict.t loc) :
  extract_tests validate raw_spec h = (Ok tests, h') ->
  exists items,
    raw_tests raw_spec = Some items
    /\ scenarios_loop (raw_common raw_spec) items [] h = (Ok tests, h').
Proof.
  unfold extract_tests. destruct (validate raw_spec h); [|discriminate].
  destruct (raw_tests raw_spec) as [items|]; [|discriminate].
  intros Hloop. exists items. split; [reflexivity | exact Hloop].
Qed.

(** C2 (as the code has it): for non-empty filter expressions [A]
    (common) and [B] (scenario), combining them gives ["(B) and (A)"].
    Combining a non-empty expression with an empty one keeps only the
    non-empty side, and wraps it in parentheses; two empty expressions
    give the empty string. In a declaration where no dict is shared, the
    common filter reaches a scenario unchanged, without parentheses, when
    the scenario has no [filter] key at all; when it has one,
    [extract_tests] leaves the combination in the scenario's dict. *)
Theorem filter_combination (A B : string) :
  A <> "" -> B <> "" ->
  _join_filters [VStr B; VStr A] = Ok ("(" +:+ B +:+ ") and (" +:+ A +:+ ")")
  /\ _join_filters [VStr B; VStr ""] = Ok ("(" +:+ B +:+ ")")
  /\ _join_filters [VStr ""; VStr A] = Ok ("(" +:+ A +:+ ")")
  /\ _join_filters [VStr ""; VStr ""] = Ok ""
  /\ (forall (validate : Validator) (raw_spec : RawSpec) (h h' : Heap.t)
             (common : loc) (items tests : PyDict.t loc) (test_name : string)
             (l : loc),
        extract_tests validate raw_spec h = (Ok tests, h') ->
        raw_common raw_spec = Some common ->
        raw_tests raw_spec = Some items ->
        NoDup (PyDict.keys items) ->
        NoDup (PyDict.keys (Heap.deref h common)) ->
        unshared common items ->
        Heap.deref h common !! "filter" = Some (VStr A) ->
        items !! test_name = Some l ->
        tests !! test_name = Some l
        /\ (Heap.deref h l !! "filter" = None ->
              Heap.deref h' l !! "filter" = Some (VStr A))
        /\ (Heap.deref h l !! "filter" = Some (VStr B) ->
              Heap.deref h' l !! "filter" =
                Some (VStr ("(" +:+ B +:+ ") and (" +:+ A +:+ ")")))).
Proof.
  intros HA HB.
  split; [exact (join_filters_both A B HA HB)|].
  split; [exact (join_filters_right_empty B HB)|].
  split; [exact (join_filters_left_empty A HA)|].
  split; [reflexivity|].
  intros validate raw_spec h h' common items tests test_name l
    Hextract Hcommon Hitems Hnames Hkeys Hunshared Hfilter Hl.
  destruct (extract_tests_ok _ _ _ _ _ Hextract) as (items' & Hitems' & Hloop).
  rewrite Hitems in Hitems'. injection Hitems' as <-. rewrite Hcommon in Hloop.
  rewrite (scenarios_loop_tests _ items [] _ _ _ Hnames Hloop). split; [exact Hl|].
  pose proof (scenarios_loop_entries _ _ _ _ _ _ Hunshared Hkeys Hloop l
                (dict_lookup_Some_values _ _ _ Hl) "filter") as Hk.
  rewrite Hfilter in Hk. destruct Hk as (v & Hv & Hmerged).
  split.
  - intros Hnone. rewrite Hnone in Hv. cbn in Hv. injection Hv as <-. exact Hmerged.
  - intros Hsome. rewrite Hsome in Hv. unfold merge_entry in Hv.
    cbn [String.eqb Ascii.eqb Bool.eqb] in Hv.
    rewrite (join_filters_both A B HA HB) in Hv. cbn in Hv.
    injection Hv as <-. exact Hmerged.
Qed.

End MergeFacts.

(** C2, refuted as stated: combining ["B"] with the empty expression does
    not return ["B"] unchanged; the result is ["(B)"]. *)
Lemma join_filters_with_empty_adds_parentheses :
  Merge._join_filters [VStr "B"; VStr ""] = Ok "(B)"
  /\ Merge._join_filters [VStr "B"; VStr ""] <> Ok "B".
Proof. split; [reflexivity | discriminate]. Qed.

(** [filter_combination] on the filters ["A"] and ["B"], and on a
    declaration with a scenario that has its own filter and one that has
    none. *)
Lemma filter_combination_example :
  Merge._join_filters [VStr "B"; VStr "A"] = Ok "(B) and (A)"
  /\ Merge._join_filters [VStr "B"; VStr ""] = Ok "(B)"
  /\ Heap.deref Samples.filtered_heap_merged 3%positive !! "filter" = Some (VStr "A")
  /\ Heap.deref Samples.filtered_heap_merged 2%positive !! "filter"
     = Some (VStr "(B) and (A)").
Proof.
  destruct (filter_combination "A" "B" ltac:(discriminate) ltac:(discriminate))
    as (Hboth & Hright & _ & _ & Hextract).
  split; [exact Hboth|]. split; [exact Hright|].
  split.
  - destruct (Hextract Samples.accept_all Samples.filtered_declaration
                Samples.filtered_heap Samples.filtered_heap_merged 1%positive
                [("with_filter", 2%positive); ("without_filter", 3%positive)]
                [("with_filter", 2%positive); ("without_filter", 3%positive)]
                "without_filter" 3%positive
                ltac:(vm_compute; reflexivity) eq_refl eq_refl
                ltac:(compute_done) ltac:(compute_done) ltac:(compute_done)
                ltac:(vm_compute; reflexivity) ltac:(vm_compute; reflexivity))
      as (_ & Hnone & _).
    apply Hnone. vm_compute. reflexivity.
  - destruct (Hextract Samples.accept_all Samples.filtered_declaration
                Samples.filtered_heap Samples.filtered_heap_merged 1%positive
                [("with_filter", 2%positive); ("without_filter", 3%positive)]
                [("with_filter", 2%positive); ("without_filter", 3%positive)]
                "with_filter" 2%positive
                ltac:(vm_compute; reflexivity) eq_refl eq_refl
                ltac:(compute_done) ltac:(compute_done) ltac:(compute_done)
                ltac:(vm_compute; reflexivity) ltac:(vm_compute; reflexivity))
      as (_ & _ & Hsome).
    apply Hsome. vm_compute. reflexivity.
Defined.

(** Two scenario names for one dict: the common filter is folded into
    that dict once for each name. *)
Example shared_dict_is_merged_twice :
  let r := Merge.extract_tests Samples.accept_all Samples.aliased_declaration
             Samples.filtered_heap in
  r.1 = Ok [("first", 2%positive); ("second", 2%positive)]
  /\ Heap.deref r.2 2%positive !! "filter" = Some (VStr "((B) and (A)) and (A)").
Proof. vm_compute. split; reflexivity. Qed.

(** ** Resolving a scenario for a platform *)

Section ProcessorFacts.

Lemma insert_update (kvs : list (string * Value)) (d : dict) (k : string) (v : Value) :
  k ∉ PyDict.keys kvs -> is_Some (d !! k) ->
  <[k := v]> (PyDict.update d kvs) = PyDict.update (<[k := v]> d) kvs.
Proof.
  revert d. induction kvs as [|[k' v'] kvs IH]; intros d Hfresh Hk; [reflexivity|].
  cbn [PyDict.keys map fst] in Hfresh. apply not_elem_of_cons in Hfresh as [Hne Hfresh].
  change (<[k := v]> (PyDict.update (<[k' := v']> d) kvs)
          = PyDict.update (<[k' := v']> (<[k := v]> d)) kvs).
  rewrite (IH _ Hfresh).
  - rewrite (dict_insert_comm d k k' v v' Hne Hk). reflexivity.
  - rewrite dict_lookup_insert_ne by congruence. exact Hk.
Qed.

(** A second run of assignments under the same keys hides the first. *)
Lemma update_update (kvs kvs' : list (string * Value)) (d : dict) :
  PyDict.keys kvs = PyDict.keys kvs' -> NoDup (PyDict.keys kvs) ->
  PyDict.update (PyDict.update d kvs) kvs' = PyDict.update d kvs'.
Proof.
  revert kvs' d. induction kvs as [|[k v] kvs IH]; intros [|[k' v'] kvs'] d Hkeys Hnodup;
    try discriminate; [reflexivity|].
  cbn [PyDict.keys map fst] in Hkeys, Hnodup. injection Hkeys as <- Hkeys.
  apply NoDup_cons in Hnodup as [Hfresh Hnodup].
  change (PyDict.update (<[k := v']> (PyDict.update (<[k := v]> d) kvs)) kvs'
          = PyDict.update (<[k := v']> d) kvs').
  rewrite (insert_update kvs _ k v' Hfresh)
    by (rewrite dict_lookup_insert_eq; eexists; reflexivity).
  rewrite dict_insert_insert_eq. apply IH; assumption.
Qed.

Lemma deref_insert_eq (h : Heap.t) (l : loc) (d : dict) :
  Heap.deref (<[l := d]> h) l = d.
Proof. unfold Heap.deref. rewrite lookup_insert_eq. reflexivity. Qed.

Lemma relative_to_raises_ValueError (p base : Path) (e : Exception) :
  relative_to p base = Raise e -> e = ValueError.
Proof.
  unfold relative_to. destruct base as [|part base].
  - destruct (is_absolute p); [|discriminate]. intros [= <-]. reflexivity.
  - destruct (bool_decide _); [discriminate|]. intros [= <-]. reflexivity.
Qed.

Lemma mentions_middle (before s after : string) :
  mentions (before +:+ s +:+ after) s.
Proof. exists before, after. reflexivity. Qed.

Lemma no_specification_msg_mentions (scenario : string) (file : Path) :
  mentions (no_specification_msg scenario file) scenario
  /\ mentions (no_specification_msg scenario file) (str file).
Proof.
  unfold no_specification_msg. split.
  - apply mentions_middle.
  - exists ("There is no specification for " +:+ scenario +:+ " in file "), "".
    rewrite !append_assoc.
    assert (Hnil : forall s : string, s +:+ "" = s).
    { induction s as [|c s IH]; [reflexivity|].
      change (String c (s +:+ "") = String c s). rewrite IH. reflexivity. }
    rewrite Hnil. reflexivity.
Qed.

End ProcessorFacts.

Section YamlProcessorFacts.

Import YamlSpecificationProcessor.

Implicit Types (self : t) (platform : PlatformSpecification)
  (scenario : string) (log : Log) (d : dict) (l : loc).

Lemma prepare_spec_dict_missing self platform scenario log :
  tests self !! scenario = None ->
  prepare_spec_dict platform scenario (self, log) =
    (Raise (TwisterConfigurationException
              (no_specification_msg scenario (spec_file_path self))),
     (self, log ++ [mkLogRecord module_logger ERROR
                      (no_specification_msg scenario (spec_file_path self))])).
Proof. intros Hnone. unfold prepare_spec_dict. rewrite Hnone. reflexivity. Qed.

(** With the scenario declared, the call writes the five context
    entries into the scenario's dict object and returns that object. *)
Lemma prepare_spec_dict_present self platform scenario log l :
  tests self !! scenario = Some l ->
  prepare_spec_dict platform scenario (self, log) =
    (Ok (written self platform scenario (Heap.deref (heap self) l)),
     (set_heap self
        (<[l := written self platform scenario (Heap.deref (heap self) l)]> (heap self)),
      log)).
Proof.
  intros Hl. destruct self as [sfp zb tdp ts h]. cbn in Hl.
  unfold prepare_spec_dict, written, rel_to_base_path_value, set_heap, setitem.
  cbn [tests spec_file_path zephyr_base test_directory_path heap]. rewrite Hl.
  destruct (relative_to tdp zb) as [rel|e] eqn:Hrel.
  - unfold Heap.setitem. rewrite !deref_insert_eq, !insert_insert_eq. reflexivity.
  - rewrite (relative_to_raises_ValueError _ _ _ Hrel).
    unfold Heap.setitem. rewrite !deref_insert_eq, !insert_insert_eq. reflexivity.
Qed.

(** Writing the context entries for one platform hides what an earlier
    resolution wrote. *)
Lemma written_written self platform platform' scenario d :
  written self platform' scenario (written self platform scenario d) =
  written self platform' scenario d.
Proof.
  unfold written.
  exact (update_update
           [("name", VStr (scenario +:+ "[" +:+ identifier platform +:+ "]"));
            ("original_name", VStr scenario);
            ("platform", VStr (identifier platform));
            ("source_dir", VPath (test_directory_path self));
            ("rel_to_base_path", rel_to_base_path_value self)]
           [("name", VStr (scenario +:+ "[" +:+ identifier platform' +:+ "]"));
            ("original_name", VStr scenario);
            ("platform", VStr (identifier platform'));
            ("source_dir", VPath (test_directory_path self));
            ("rel_to_base_path", rel_to_base_path_value self)]
           d eq_refl ltac:(compute_done)).
Qed.

End YamlProcessorFacts.

Section RegularProcessorFacts.

Import RegularSpecificationProcessor.

Implicit Types (self : t) (platform : PlatformSpecification)
  (scenario : string) (log : Log) (d : dict) (l : loc).

Lemma regular_prepare_spec_dict_missing self platform scenario log :
  tests self !! scenario = None ->
  prepare_spec_dict platform scenario (self, log) =
    (Raise (TwisterConfigurationException
              (no_specification_msg scenario (spec_file_path self))),
     (self, log ++ [mkLogRecord module_logger ERROR
                      (no_specification_msg scenario (spec_file_path self))])).
Proof. intros Hnone. unfold prepare_spec_dict. rewrite Hnone. reflexivity. Qed.

(** The source directory lies under the root path: six entries are
    written and the scenario's dict object is returned. *)
Lemma regular_prepare_spec_dict_under_root self platform scenario log l rel :
  tests self !! scenario = Some l ->
  relative_to (test_directory_path self) (rootpath self) = Ok rel ->
  prepare_spec_dict platform scenario (self, log) =
    (Ok (<["rel_to_base_path" := VPath rel]>
           (written_before_relative_to self platform scenario
              (Heap.deref (heap self) l))),
     (set_heap self
        (<[l := <["rel_to_base_path" := VPath rel]>
                  (written_before_relative_to self platform scenario
                     (Heap.deref (heap self) l))]>
           (heap self)),
      log)).
Proof.
  intros Hl Hrel. destruct self as [it root tdp sfp ts h]. cbn in Hl, Hrel.
  unfold prepare_spec_dict, written_before_relative_to, set_heap, setitem.
  cbn [tests spec_file_path rootpath test_directory_path item heap].
  rewrite Hl, Hrel.
  unfold Heap.setitem. rewrite !deref_insert_eq, !insert_insert_eq. reflexivity.
Qed.

(** The source directory lies outside the root path: the error of
    [relative_to] leaves the call, after five entries were written. *)
Lemma regular_prepare_spec_dict_outside_root self platform scenario log l e :
  tests self !! scenario = Some l ->
  relative_to (test_directory_path self) (rootpath self) = Raise e ->
  prepare_spec_dict platform scenario (self, log) =
    (Raise e,
     (set_heap self
        (<[l := written_before_relative_to self platform scenario
                  (Heap.deref (heap self) l)]>
           (heap self)),
      log)).
Proof.
  intros Hl Hrel. destruct self as [it root tdp sfp ts h]. cbn in Hl, Hrel.
  unfold prepare_spec_dict, written_before_relative_to, set_heap, setitem.
  cbn [tests spec_file_path rootpath test_directory_path item heap].
  rewrite Hl, Hrel.
  unfold Heap.setitem. rewrite !deref_insert_eq, !insert_insert_eq. reflexivity.
Qed.

(** Both outcomes at once, by [written]. *)
Lemma regular_prepare_spec_dict_present self platform scenario log l :
  tests self !! scenario = Some l ->
  prepare_spec_dict platform scenario (self, log) =
    (match relative_to (test_directory_path self) (rootpath self) with
     | Ok _ => Ok (written self platform scenario (Heap.deref (heap self) l))
     | Raise e => Raise e
     end,
     (set_heap self
        (<[l := written self platform scenario (Heap.deref (heap self) l)]> (heap self)),
      log)).
Proof.
  intros Hl. unfold written.
  destruct (relative_to (test_directory_path self) (rootpath self)) as [rel|e] eqn:Hrel.
  - apply regular_prepare_spec_dict_under_root; assumption.
  - apply regular_prepare_spec_dict_outside_root; assumption.
Qed.

Lemma regular_written_written self platform platform' scenario d :
  written self platform' scenario (written self platform scenario d) =
  written self platform' scenario d.
Proof.
  unfold written, written_before_relative_to.
  destruct (relative_to (test_directory_path self) (rootpath self)) as [rel|e].
  - exact (update_update
             [("name", VStr (item_name (item self)));
              ("original_name", VStr (item_originalname (item self)));
              ("source_dir", VPath (test_directory_path self));
              ("platform", VStr (identifier platform));
              ("build_name", VStr scenario);
              ("rel_to_base_path", VPath rel)]
             [("name", VStr (item_name (item self)));
              ("original_name", VStr (item_originalname (item self)));
              ("source_dir", VPath (test_directory_path self));
              ("platform", VStr (identifier platform'));
              ("build_name", VStr scenario);
              ("rel_to_base_path", VPath rel)]
             d eq_refl ltac:(compute_done)).
  - exact (update_update
             [("name", VStr (item_name (item self)));
              ("original_name", VStr (item_originalname (item self)));
              ("source_dir", VPath (test_directory_path self));
              ("platform", VStr (identifier platform));
              ("build_name", VStr scenario)]
             [("name", VStr (item_name (item self)));
              ("original_name", VStr (item_originalname (item self)));
              ("source_dir", VPath (test_directory_path self));
              ("platform", VStr (identifier platform'));
              ("build_name", VStr scenario)]
             d eq_refl ltac:(compute_done)).
Qed.

End RegularProcessorFacts.

(** ** Errors of a resolution *)

(** C8: when the scenario is absent from the merged mapping, both
    processors raise [TwisterConfigurationException] from
    [prepare_spec_dict], and [process] lets it through to the caller; the
    message mentions the scenario and the specification file. When the
    scenario is present, [prepare_spec_dict] raises no configuration
    error. *)
Theorem missing_scenario_raises_configuration_error
    (yaml : YamlSpecificationProcessor.t) (regular : RegularSpecificationProcessor.t)
    (YamlTestSpecification_of_dict : Constructor)
    (add_markers_from_specification : Item -> YamlTestSpecification -> Item)
    (platform : PlatformSpecification) (scenario : string) (log : Log) :
  (YamlSpecificationProcessor.tests yaml !! scenario = None ->
     let msg :=
       no_specification_msg scenario (YamlSpecificationProcessor.spec_file_path yaml) in
     (YamlSpecificationProcessor.prepare_spec_dict platform scenario (yaml, log)).1
       = Raise (TwisterConfigurationException msg)
     /\ (YamlSpecificationProcessor.process YamlTestSpecification_of_dict
           platform scenario (yaml, log)).1
        = Raise (TwisterConfigurationException msg)
     /\ mentions msg scenario
     /\ mentions msg (str (YamlSpecificationProcessor.spec_file_path yaml)))
  /\ (RegularSpecificationProcessor.tests regular !! scenario = None ->
        let msg :=
          no_specification_msg scenario
            (RegularSpecificationProcessor.spec_file_path regular) in
        (RegularSpecificationProcessor.prepare_spec_dict platform scenario
           (regular, log)).1
          = Raise (TwisterConfigurationException msg)
        /\ (RegularSpecificationProcessor.process YamlTestSpecification_of_dict
              add_markers_from_specification platform scenario (regular, log)).1
           = Raise (TwisterConfigurationException msg)
        /\ mentions msg scenario
        /\ mentions msg (str (RegularSpecificationProcessor.spec_file_path regular)))
  /\ (is_Some (YamlSpecificationProcessor.tests yaml !! scenario) ->
        forall msg,
          (YamlSpecificationProcessor.prepare_spec_dict platform scenario
             (yaml, log)).1
            <> Raise (TwisterConfigurationException msg))
  /\ (is_Some (RegularSpecificationProcessor.tests regular !! scenario) ->
        forall msg,
          (RegularSpecificationProcessor.prepare_spec_dict platform scenario
             (regular, log)).1
            <> Raise (TwisterConfigurationException msg)).
Proof.
  split; [|split; [|split]].
  - intros Hnone msg.
    unfold YamlSpecificationProcessor.process.
    rewrite (prepare_spec_dict_missing _ platform _ log Hnone). cbn [fst].
    repeat split; apply no_specification_msg_mentions.
  - intros Hnone msg.
    unfold RegularSpecificationProcessor.process.
    rewrite (regular_prepare_spec_dict_missing _ platform _ log Hnone). cbn [fst].
    repeat split; apply no_specification_msg_mentions.
  - intros [l Hl] msg.
    rewrite (prepare_spec_dict_present _ platform _ log _ Hl). discriminate.
  - intros [l Hl] msg.
    destruct (relative_to (RegularSpecificationProcessor.test_directory_path regular)
                (RegularSpecificationProcessor.rootpath regular)) as [rel|e] eqn:Hrel.
    + rewrite (regular_prepare_spec_dict_under_root _ platform _ log _ _ Hl Hrel).
      discriminate.
    + rewrite (regular_prepare_spec_dict_outside_root _ platform _ log _ _ Hl Hrel).
      rewrite (relative_to_raises_ValueError _ _ _ Hrel). discriminate.
Qed.

(** [missing_scenario_raises_configuration_error] on the sample
    processors, with the message spelled out. *)
Lemma missing_scenario_example :
  (YamlSpecificationProcessor.process Samples.always_unconstrained Samples.qemu_arm
     "kernel.missing" (Samples.kernel_processor, [])).1
    = Raise (TwisterConfigurationException
               ("There is no specification for kernel.missing in file "
                  +:+ "/zephyr/tests/kernel/testcase.yaml"))
  /\ (RegularSpecificationProcessor.prepare_spec_dict Samples.qemu_arm
        "kernel.missing" (Samples.outside_root_processor, [])).1
     = Raise (TwisterConfigurationException
                ("There is no specification for kernel.missing in file "
                   +:+ "/work/tests/testspec.yaml"))
  /\ (forall msg,
        (YamlSpecificationProcessor.prepare_spec_dict Samples.qemu_arm
           "kernel.common" (Samples.kernel_processor, [])).1
          <> Raise (TwisterConfigurationException msg))
  /\ (forall msg,
        (RegularSpecificationProcessor.prepare_spec_dict Samples.qemu_arm
           "build.a" (Samples.outside_root_processor, [])).1
          <> Raise (TwisterConfigurationException msg)).
Proof.
  destruct (missing_scenario_raises_configuration_error
              Samples.kernel_processor Samples.outside_root_processor
              Samples.always_unconstrained (fun item _ => item)
              Samples.qemu_arm "kernel.missing" [])
    as (Hyaml & Hregular & _ & _).
  destruct (Hyaml ltac:(vm_compute; reflexivity)) as (_ & Hprocess & _).
  destruct (Hregular ltac:(vm_compute; reflexivity)) as (Hprepare & _).
  destruct (missing_scenario_raises_configuration_error
              Samples.kernel_processor Samples.outside_root_processor
              Samples.always_unconstrained (fun item _ => item)
              Samples.qemu_arm "kernel.common" [])
    as (_ & _ & Hpresent & _).
  destruct (missing_scenario_raises_configuration_error
              Samples.kernel_processor Samples.outside_root_processor
              Samples.always_unconstrained (fun item _ => item)
              Samples.qemu_arm "build.a" [])
    as (_ & _ & _ & Hpresent').
  split; [exact Hprocess|]. split; [exact Hprepare|].
  split.
  - apply Hpresent. eexists. vm_compute. reflexivity.
  - apply Hpresent'. eexists. vm_compute. reflexivity.
Defined.

(** The YAML-file processor does turn a failed relativization into the
    sentinel. *)
Lemma yaml_out_of_tree_sentinel
    (self : YamlSpecificationProcessor.t) (platform : PlatformSpecification)
    (scenario : string) (log : Log) (e : Exception) :
  is_Some (YamlSpecificationProcessor.tests self !! scenario) ->
  relative_to (YamlSpecificationProcessor.test_directory_path self)
    (YamlSpecificationProcessor.zephyr_base self) = Raise e ->
  exists d',
    (YamlSpecificationProcessor.prepare_spec_dict platform scenario (self, log)).1
      = Ok d'
    /\ d' !! "rel_to_base_path" = Some (VStr "out_of_tree").
Proof.
  intros [l Hl] Hrel. rewrite (prepare_spec_dict_present _ platform _ log _ Hl).
  eexists. split; [reflexivity|].
  unfold YamlSpecificationProcessor.written,
    YamlSpecificationProcessor.rel_to_base_path_value.
  rewrite Hrel. apply dict_lookup_insert_eq.
Qed.

(** C5, at the input where the code departs from it: the processor for
    collected items computes the relative path with no handler around it,
    so for a test directory outside the root path [prepare_spec_dict], and
    with it [process], ends in [ValueError]; no ["out_of_tree"] is stored:
    the dictionary has no [rel_to_base_path] entry afterwards. *)
Lemma regular_relative_to_error_propagates :
  let r := RegularSpecificationProcessor.prepare_spec_dict Samples.qemu_arm
             "build.a" (Samples.outside_root_processor, []) in
  r.1 = Raise ValueError
  /\ (RegularSpecificationProcessor.process Samples.always_unconstrained
        (fun item _ => item) Samples.qemu_arm "build.a"
        (Samples.outside_root_processor, [])).1 = Raise ValueError
  /\ RegularSpecificationProcessor.getitem r.2.1 "build.a" !! "rel_to_base_path"
     = None.
Proof. vm_compute. repeat split. Qed.

(** ** What a resolution leaves in the processor *)

Section ResolutionEffects.

Lemma yaml_process_keeps_processor (C : Constructor)
    (self : YamlSpecificationProcessor.t) (platform : PlatformSpecification)
    (scenario : string) (log : Log) :
  (YamlSpecificationProcessor.process C platform scenario (self, log)).2.1 =
  (YamlSpecificationProcessor.prepare_spec_dict platform scenario (self, log)).2.1.
Proof.
  unfold YamlSpecificationProcessor.process.
  destruct (YamlSpecificationProcessor.prepare_spec_dict platform scenario (self, log))
    as [[d|e] [self' log1]]; [|reflexivity].
  destruct (SpecificationProcessor.create_spec_from_dict _ _ _) as [ts|e];
    [|reflexivity].
  destruct (Eligibility.should_be_skip ts platform log1) as [[] log2]; reflexivity.
Qed.

Lemma regular_process_keeps_dicts (C : Constructor)
    (add_markers : Item -> YamlTestSpecification -> Item)
    (self : RegularSpecificationProcessor.t) (platform : PlatformSpecification)
    (scenario : string) (log : Log) :
  let after_process :=
    (RegularSpecificationProcessor.process C add_markers platform scenario
       (self, log)).2.1 in
  let after_prepare :=
    (RegularSpecificationProcessor.prepare_spec_dict platform scenario (self, log)).2.1 in
  RegularSpecificationProcessor.tests after_process
    = RegularSpecificationProcessor.tests after_prepare
  /\ RegularSpecificationProcessor.heap after_process
     = RegularSpecificationProcessor.heap after_prepare.
Proof.
  cbv zeta. unfold RegularSpecificationProcessor.process.
  destruct (RegularSpecificationProcessor.prepare_spec_dict platform scenario
              (self, log)) as [[d|e] [self' log1]]; [|split; reflexivity].
  destruct (SpecificationProcessor.create_spec_from_dict _ _ _) as [ts|e];
    [|split; reflexivity].
  destruct (Eligibility.should_be_skip ts platform log1) as [[] log2];
    split; reflexivity.
Qed.

End ResolutionEffects.

(** C4 (as the code has it): [prepare_spec_dict] is not free of side
    effects. It writes the context entries into the scenario's dict
    object and returns that object, so after the call the object holds
    [name], [original_name], [platform], [source_dir] and
    [rel_to_base_path] (and [build_name], in the processor for collected
    items, where [rel_to_base_path] is missing when the call ends in
    [ValueError]). Every scenario name that refers to this object sees
    the written dict; every other dict object is as it was, and so is the
    mapping from names to objects. An absent scenario leaves the
    processor as it was, and [process] changes the dicts no further.
    Since every context entry is written again on each call, resolving
    the scenario for a second platform gives the same result, and leaves
    the same processor, as it would without the first resolution. *)
Theorem prepare_spec_dict_writes_into_stored_dict
    (yaml : YamlSpecificationProcessor.t) (regular : RegularSpecificationProcessor.t)
    (YamlTestSpecification_of_dict : Constructor)
    (add_markers_from_specification : Item -> YamlTestSpecification -> Item)
    (platform platform' : PlatformSpecification) (scenario : string)
    (log log' : Log) :
  let after_yaml :=
    (YamlSpecificationProcessor.prepare_spec_dict platform scenario (yaml, log)).2.1 in
  let after_regular :=
    (RegularSpecificationProcessor.prepare_spec_dict platform scenario
       (regular, log)).2.1 in
  ((forall l, YamlSpecificationProcessor.tests yaml !! scenario = Some l ->
      let stored := Heap.deref (YamlSpecificationProcessor.heap after_yaml) l in
      (YamlSpecificationProcessor.prepare_spec_dict platform scenario (yaml, log)).1
        = Ok stored
      /\ stored = YamlSpecificationProcessor.written yaml platform scenario
                    (Heap.deref (YamlSpecificationProcessor.heap yaml) l)
      /\ stored !! "name"
         = Some (VStr (scenario +:+ "[" +:+ identifier platform +:+ "]"))
      /\ stored !! "original_name" = Some (VStr scenario)
      /\ stored !! "platform" = Some (VStr (identifier platform))
      /\ stored !! "source_dir"
         = Some (VPath (YamlSpecificationProcessor.test_directory_path yaml))
      /\ is_Some (stored !! "rel_to_base_path")
      /\ (forall other, YamlSpecificationProcessor.tests yaml !! other = Some l ->
            YamlSpecificationProcessor.getitem after_yaml other = stored)
      /\ (forall l', l' <> l ->
            YamlSpecificationProcessor.heap after_yaml !! l'
            = YamlSpecificationProcessor.heap yaml !! l'))
   /\ YamlSpecificationProcessor.tests after_yaml = YamlSpecificationProcessor.tests yaml
   /\ (YamlSpecificationProcessor.tests yaml !! scenario = None -> after_yaml = yaml)
   /\ (YamlSpecificationProcessor.process YamlTestSpecification_of_dict
         platform scenario (yaml, log)).2.1 = after_yaml
   /\ YamlSpecificationProcessor.prepare_spec_dict platform' scenario (after_yaml, log')
      = YamlSpecificationProcessor.prepare_spec_dict platform' scenario (yaml, log'))
  /\ ((forall l, RegularSpecificationProcessor.tests regular !! scenario = Some l ->
         let stored := Heap.deref (RegularSpecificationProcessor.heap after_regular) l in
         (RegularSpecificationProcessor.prepare_spec_dict platform scenario
            (regular, log)).1
           = match relative_to
                     (RegularSpecificationProcessor.test_directory_path regular)
                     (RegularSpecificationProcessor.rootpath regular) with
             | Ok _ => Ok stored
             | Raise _ => Raise ValueError
             end
         /\ stored = RegularSpecificationProcessor.written regular platform scenario
                       (Heap.deref (RegularSpecificationProcessor.heap regular) l)
         /\ stored !! "name"
            = Some (VStr (item_name (RegularSpecificationProcessor.item regular)))
         /\ stored !! "original_name"
            = Some (VStr (item_originalname (RegularSpecificationProcessor.item regular)))
         /\ stored !! "source_dir"
            = Some (VPath (RegularSpecificationProcessor.test_directory_path regular))
         /\ stored !! "platform" = Some (VStr (identifier platform))
         /\ stored !! "build_name" = Some (VStr scenario)
         /\ (forall other,
               RegularSpecificationProcessor.tests regular !! other = Some l ->
               RegularSpecificationProcessor.getitem after_regular other = stored)
         /\ (forall l', l' <> l ->
               RegularSpecificationProcessor.heap after_regular !! l'
               = RegularSpecificationProcessor.heap regular !! l'))
      /\ RegularSpecificationProcessor.tests after_regular
         = RegularSpecificationProcessor.tests regular
      /\ (RegularSpecificationProcessor.tests regular !! scenario = None ->
            after_regular = regular)
      /\ (let after_process :=
            (RegularSpecificationProcessor.process YamlTestSpecification_of_dict
               add_markers_from_specification platform scenario (regular, log)).2.1 in
          RegularSpecificationProcessor.tests after_process
            = RegularSpecificationProcessor.tests after_regular
          /\ RegularSpecificationProcessor.heap after_process
             = RegularSpecificationProcessor.heap after_regular)
      /\ RegularSpecificationProcessor.prepare_spec_dict platform' scenario
           (after_regular, log')
         = RegularSpecificationProcessor.prepare_spec_dict platform' scenario
             (regular, log')).
Proof.
  cbv zeta. split.
  - (* the processor of a YAML file *)
    rewrite yaml_process_keeps_processor.
    destruct (YamlSpecificationProcessor.tests yaml !! scenario) as [l0|] eqn:Hl.
    + rewrite (prepare_spec_dict_present _ platform _ log _ Hl). cbn [fst snd].
      split; [|split; [|split; [|split]]].
      * intros l [= <-].
        unfold YamlSpecificationProcessor.set_heap at 1 2 3 4 5 6 7.
        cbn [YamlSpecificationProcessor.heap]. rewrite deref_insert_eq.
        split; [reflexivity|]. split; [reflexivity|].
        unfold YamlSpecificationProcessor.written.
        rewrite !(dict_lookup_insert_ne _ "rel_to_base_path") by discriminate.
        rewrite !(dict_lookup_insert_ne _ "source_dir" "name") by discriminate.
        rewrite !(dict_lookup_insert_ne _ "source_dir" "original_name") by discriminate.
        rewrite !(dict_lookup_insert_ne _ "source_dir" "platform") by discriminate.
        rewrite !(dict_lookup_insert_ne _ "platform" "name") by discriminate.
        rewrite !(dict_lookup_insert_ne _ "platform" "original_name") by discriminate.
        rewrite !(dict_lookup_insert_ne _ "original_name" "name") by discriminate.
        rewrite !dict_lookup_insert_eq.
        split; [reflexivity|]. split; [reflexivity|]. split; [reflexivity|].
        split; [reflexivity|]. split; [eexists; reflexivity|]. split.
        -- intros other Hother. unfold YamlSpecificationProcessor.getitem.
           cbn [YamlSpecificationProcessor.set_heap YamlSpecificationProcessor.tests
                  YamlSpecificationProcessor.heap].
           rewrite Hother, deref_insert_eq. reflexivity.
        -- intros l' Hne. cbn [YamlSpecificationProcessor.set_heap
                                 YamlSpecificationProcessor.heap].
           apply lookup_insert_ne. congruence.
      * reflexivity.
      * discriminate.
      * reflexivity.
      * rewrite (prepare_spec_dict_present _ platform' _ log' _ Hl).
        rewrite (prepare_spec_dict_present _ platform' _ log' l0) by exact Hl.
        destruct yaml as [sfp zb tdp ts h].
        unfold YamlSpecificationProcessor.set_heap.
        cbn [YamlSpecificationProcessor.spec_file_path
               YamlSpecificationProcessor.zephyr_base
               YamlSpecificationProcessor.test_directory_path
               YamlSpecificationProcessor.tests YamlSpecificationProcessor.heap].
        rewrite deref_insert_eq, insert_insert_eq.
        change (YamlSpecificationProcessor.written
                  {| YamlSpecificationProcessor.spec_file_path := sfp;
                     YamlSpecificationProcessor.zephyr_base := zb;
                     YamlSpecificationProcessor.test_directory_path := tdp;
                     YamlSpecificationProcessor.tests := ts;
                     YamlSpecificationProcessor.heap := ?h' |} ?p ?s ?d)
          with (YamlSpecificationProcessor.written
                  {| YamlSpecificationProcessor.spec_file_path := sfp;
                     YamlSpecificationProcessor.zephyr_base := zb;
                     YamlSpecificationProcessor.test_directory_path := tdp;
                     YamlSpecificationProcessor.tests := ts;
                     YamlSpecificationProcessor.heap := h |} p s d).
        rewrite written_written. reflexivity.
    + rewrite (prepare_spec_dict_missing _ platform _ log Hl). cbn [fst snd].
      split; [|split; [|split; [|split]]]; try reflexivity; discriminate.
  - (* the processor of a collected item *)
    split; [|split; [|split; [|split]]].
    + intros l Hl.
      rewrite (regular_prepare_spec_dict_present _ platform _ log _ Hl). cbn [fst snd].
      cbn [RegularSpecificationProcessor.set_heap RegularSpecificationProcessor.heap].
      rewrite deref_insert_eq. split.
      { destruct (relative_to _ _) as [rel|e] eqn:Hrel; [reflexivity|].
        rewrite (relative_to_raises_ValueError _ _ _ Hrel). reflexivity. }
      split; [reflexivity|].
      assert (Hbefore : forall k,
        k <> "rel_to_base_path" ->
        RegularSpecificationProcessor.written regular platform scenario
          (Heap.deref (RegularSpecificationProcessor.heap regular) l) !! k
        = RegularSpecificationProcessor.written_before_relative_to regular platform
            scenario (Heap.deref (RegularSpecificationProcessor.heap regular) l) !! k).
      { intros k Hk. unfold RegularSpecificationProcessor.written.
        destruct (relative_to _ _); [|reflexivity].
        apply dict_lookup_insert_ne. congruence. }
      rewrite !Hbefore by discriminate.
      unfold RegularSpecificationProcessor.written_before_relative_to.
      rewrite !(dict_lookup_insert_ne _ "build_name" "name") by discriminate.
      rewrite !(dict_lookup_insert_ne _ "build_name" "original_name") by discriminate.
      rewrite !(dict_lookup_insert_ne _ "build_name" "source_dir") by discriminate.
      rewrite !(dict_lookup_insert_ne _ "build_name" "platform") by discriminate.
      rewrite !(dict_lookup_insert_ne _ "platform" "name") by discriminate.
      rewrite !(dict_lookup_insert_ne _ "platform" "original_name") by discriminate.
      rewrite !(dict_lookup_insert_ne _ "platform" "source_dir") by discriminate.
      rewrite !(dict_lookup_insert_ne _ "source_dir" "name") by discriminate.
      rewrite !(dict_lookup_insert_ne _ "source_dir" "original_name") by discriminate.
      rewrite !(dict_lookup_insert_ne _ "original_name" "name") by discriminate.
      rewrite !dict_lookup_insert_eq.
      split; [reflexivity|]. split; [reflexivity|]. split; [reflexivity|].
      split; [reflexivity|]. split; [reflexivity|]. split.
      * intros other Hother. unfold RegularSpecificationProcessor.getitem.
        cbn [RegularSpecificationProcessor.set_heap RegularSpecificationProcessor.tests
               RegularSpecificationProcessor.heap].
        rewrite Hother, deref_insert_eq. reflexivity.
      * intros l' Hne. apply lookup_insert_ne. congruence.
    + destruct (RegularSpecificationProcessor.tests regular !! scenario) as [l|] eqn:Hl.
      * rewrite (regular_prepare_spec_dict_present _ platform _ log _ Hl). reflexivity.
      * rewrite (regular_prepare_spec_dict_missing _ platform _ log Hl). reflexivity.
    + intros Hnone.
      rewrite (regular_prepare_spec_dict_missing _ platform _ log Hnone). reflexivity.
    + apply regular_process_keeps_dicts.
    + destruct (RegularSpecificationProcessor.tests regular !! scenario) as [l|] eqn:Hl.
      * rewrite (regular_prepare_spec_dict_present _ platform _ log _ Hl). cbn [fst snd].
        rewrite (regular_prepare_spec_dict_present _ platform' _ log' _ Hl).
        rewrite (regular_prepare_spec_dict_present _ platform' _ log' l) by exact Hl.
        destruct regular as [it root tdp sfp ts h].
        unfold RegularSpecificationProcessor.set_heap.
        cbn [RegularSpecificationProcessor.spec_file_path
               RegularSpecificationProcessor.rootpath
               RegularSpecificationProcessor.item
               RegularSpecificationProcessor.test_directory_path
               RegularSpecificationProcessor.tests RegularSpecificationProcessor.heap].
        rewrite deref_insert_eq, insert_insert_eq.
        change (RegularSpecificationProcessor.written
                  {| RegularSpecificationProcessor.item := it;
                     RegularSpecificationProcessor.rootpath := root;
                     RegularSpecificationProcessor.test_directory_path := tdp;
                     RegularSpecificationProcessor.spec_file_path := sfp;
                     RegularSpecificationProcessor.tests := ts;
                     RegularSpecificationProcessor.heap := ?h' |} ?p ?s ?d)
          with (RegularSpecificationProcessor.written
                  {| RegularSpecificationProcessor.item := it;
                     RegularSpecificationProcessor.rootpath := root;
                     RegularSpecificationProcessor.test_directory_path := tdp;
                     RegularSpecificationProcessor.spec_file_path := sfp;
                     RegularSpecificationProcessor.tests := ts;
                     RegularSpecificationProcessor.heap := h |} p s d).
        rewrite regular_written_written. reflexivity.
      * rewrite (regular_prepare_spec_dict_missing _ platform _ log Hl). reflexivity.
Qed.

(** C4, refuted as stated: after [prepare_spec_dict] for [qemu_arm] the
    stored mapping is not what it was: the scenario's dictionary, which
    had no [platform] entry, now has one, and that is the dictionary a
    resolution for a second platform starts from. *)
Lemma prepare_spec_dict_changes_self_tests :
  let after :=
    (YamlSpecificationProcessor.prepare_spec_dict Samples.qemu_arm "kernel.common"
       (Samples.kernel_processor, [])).2.1 in
  YamlSpecificationProcessor.contents after
    <> YamlSpecificationProcessor.contents Samples.kernel_processor
  /\ YamlSpecificationProcessor.getitem Samples.kernel_processor "kernel.common"
       !! "platform" = None
  /\ YamlSpecificationProcessor.getitem after "kernel.common" !! "platform"
     = Some (VStr "qemu_cortex_m3").
Proof.
  cbv zeta. split; [|split].
  - vm_compute. discriminate.
  - vm_compute. reflexivity.
  - vm_compute. reflexivity.
Qed.

(** [prepare_spec_dict_writes_into_stored_dict] on the sample processors:
    a resolution for [native_posix] after one for [qemu_arm], and a
    resolution under one of two names of a shared dict. *)
Lemma second_resolution_example :
  let after :=
    (YamlSpecificationProcessor.prepare_spec_dict Samples.qemu_arm "kernel.common"
       (Samples.kernel_processor, [])).2.1 in
  let after_shared :=
    (YamlSpecificationProcessor.prepare_spec_dict Samples.qemu_arm "kernel.first"
       (Samples.shared_processor, [])).2.1 in
  YamlSpecificationProcessor.getitem after "kernel.common" !! "platform"
    = Some (VStr "qemu_cortex_m3")
  /\ YamlSpecificationProcessor.getitem after_shared "kernel.second" !! "name"
     = Some (VStr "kernel.first[qemu_cortex_m3]")
  /\ YamlSpecificationProcessor.prepare_spec_dict Samples.native_posix
       "kernel.common" (after, [])
     = YamlSpecificationProcessor.prepare_spec_dict Samples.native_posix
         "kernel.common" (Samples.kernel_processor, [])
  /\ (YamlSpecificationProcessor.prepare_spec_dict Samples.qemu_arm "kernel.missing"
        (Samples.kernel_processor, [])).2.1 = Samples.kernel_processor.
Proof.
  cbv zeta.
  destruct (prepare_spec_dict_writes_into_stored_dict
              Samples.kernel_processor Samples.outside_root_processor
              Samples.always_unconstrained (fun item _ => item)
              Samples.qemu_arm Samples.native_posix "kernel.common" [] [])
    as ((Hstored & _ & _ & _ & Hsecond) & _).
  destruct (prepare_spec_dict_writes_into_stored_dict
              Samples.shared_processor Samples.outside_root_processor
              Samples.always_unconstrained (fun item _ => item)
              Samples.qemu_arm Samples.native_posix "kernel.first" [] [])
    as ((Hshared & _) & _).
  destruct (prepare_spec_dict_writes_into_stored_dict
              Samples.kernel_processor Samples.outside_root_processor
              Samples.always_unconstrained (fun item _ => item)
              Samples.qemu_arm Samples.native_posix "kernel.missing" [] [])
    as ((_ & _ & Hmissing & _) & _).
  split; [|split; [|split]].
  - destruct (Hstored 1%positive ltac:(vm_compute; reflexivity))
      as (_ & _ & _ & _ & Hplatform & _ & _ & Hnames & _).
    exact (eq_trans
             (f_equal (fun d : dict => d !! "platform")
                (Hnames "kernel.common" ltac:(vm_compute; reflexivity)))
             Hplatform).
  - destruct (Hshared 1%positive ltac:(vm_compute; reflexivity))
      as (_ & _ & Hname & _ & _ & _ & _ & Hnames & _).
    exact (eq_trans
             (f_equal (fun d : dict => d !! "name")
                (Hnames "kernel.second" ltac:(vm_compute; reflexivity)))
             Hname).
  - exact Hsecond.
  - apply Hmissing. vm_compute. reflexivity.
Defined.

(** [should_be_skip_is_or_of_predicates] on a scenario whose allow-sets
    and exclude-sets are all empty. *)
Lemma empty_allow_sets_example :
  (Eligibility.should_skip_for_arch Samples.unconstrained Samples.qemu_arm []).1 = false
  /\ (Eligibility.should_skip_for_platform_type
        Samples.unconstrained Samples.qemu_arm []).1 = false
  /\ ((Eligibility.should_skip_for_platform
         Samples.unconstrained Samples.qemu_arm []).1 = true <->
      identifier Samples.qemu_arm ∈ platform_exclude Samples.unconstrained).
Proof.
  destruct (should_be_skip_is_or_of_predicates Samples.unconstrained Samples.qemu_arm [])
    as (_ & _ & Hboth & _ & Hplatform & Htype & _).
  split; [apply Hboth; reflexivity|].
  split; [apply Htype; reflexivity|].
  apply Hplatform. reflexivity.
Defined.

(** [min_ram_min_flash_strictly_greater] on a platform that has exactly
    the declared minimum of RAM and flash. *)
Lemma exact_minimum_example :
  (Eligibility.should_skip_for_min_ram Samples.unconstrained Samples.qemu_arm []).1
    = false
  /\ (Eligibility.should_skip_for_min_flash Samples.unconstrained Samples.qemu_arm []).1
     = false.
Proof.
  destruct (min_ram_min_flash_strictly_greater Samples.unconstrained Samples.qemu_arm [])
    as (_ & _ & Hram & Hflash).
  split; [apply Hram; reflexivity | apply Hflash; reflexivity].
Defined.

(** * Further properties *)

(** ** The single predicates *)

Section PredicateFacts.

Import Eligibility.

Variable test_spec : YamlTestSpecification.
Variable platform : PlatformSpecification.

Lemma nonempty_intersection (X Y : gset string) :
  X ∩ Y ≠ ∅ <-> exists x, x ∈ X /\ x ∈ Y.
Proof.
  split.
  - intros Hne. destruct (set_choose_L _ Hne) as [x Hx].
    apply elem_of_intersection in Hx. exists x. exact Hx.
  - intros (x & HX & HY) Hempty.
    assert (Hx : x ∈ X ∩ Y) by (apply elem_of_intersection; split; assumption).
    rewrite Hempty in Hx. inversion Hx.
Qed.

Lemma empty_intersection (X Y : gset string) :
  X ∩ Y = ∅ <-> forall x, x ∈ X -> x ∉ Y.
Proof.
  split.
  - intros Hempty x HX HY.
    assert (Hx : x ∈ X ∩ Y) by (apply elem_of_intersection; split; assumption).
    rewrite Hempty in Hx. inversion Hx.
  - intros Hdisjoint. destruct (decide (X ∩ Y = ∅)) as [|Hne]; [assumption|].
    apply nonempty_intersection in Hne as (x & HX & HY).
    destruct (Hdisjoint x HX HY).
Qed.

Lemma truthy_list_true {A : Type} (l : list A) : truthy_list l = true <-> l <> [].
Proof. destruct l; cbn; split; congruence. Qed.

Lemma truthy_set_false (X : gset string) : truthy_set X = false <-> X = ∅.
Proof.
  unfold truthy_set. rewrite negb_false_iff, bool_decide_eq_true. reflexivity.
Qed.

Lemma pytest_harness_verdict log :
  (should_skip_for_pytest_harness test_spec platform log).1 =
    String.eqb (harness test_spec) "pytest".
Proof.
  unfold should_skip_for_pytest_harness, _log_test_skip, emit, bind, ret.
  destruct (String.eqb _ _); reflexivity.
Qed.

Lemma any_true_in (bs : list bool) : true ∈ bs -> any bs = true.
Proof.
  unfold any. induction bs as [|b bs IH]; intros Hin.
  - inversion Hin.
  - apply elem_of_cons in Hin as [<-|Hin]; cbn; [reflexivity|].
    rewrite (IH Hin). apply orb_true_r.
Qed.

(** The harness ["pytest"] is handled by pytest itself: such a scenario is
    skipped on every platform, whatever its other fields say, and the
    harness predicate skips nothing else. *)
Theorem pytest_harness_is_always_skipped (log : Log) :
  ((should_skip_for_pytest_harness test_spec platform log).1 = true <->
     harness test_spec = "pytest")
  /\ (harness test_spec = "pytest" ->
        (should_be_skip test_spec platform log).1 = true).
Proof.
  split.
  - rewrite pytest_harness_verdict. apply String.eqb_eq.
  - intros Hharness. rewrite should_be_skip_unfold. cbn [fst].
    apply any_true_in. unfold verdicts, predicates. cbn [map].
    rewrite (pytest_harness_verdict []), Hharness.
    do 5 apply list_elem_of_further. apply list_elem_of_here.
Qed.

(** The platform-identity predicate skips exactly when [platform_allow]
    is non-empty and lacks the platform's identifier, or
    [platform_exclude] has it. *)
Theorem platform_identity_predicate (log : Log) :
  (should_skip_for_platform test_spec platform log).1 = true <->
    (platform_allow test_spec ≠ ∅
     /\ identifier platform ∉ platform_allow test_spec)
    \/ identifier platform ∈ platform_exclude test_spec.
Proof.
  rewrite platform_verdict, orb_true_iff, andb_true_iff, negb_true_iff.
  rewrite truthy_set_true, contains_true.
  unfold contains. rewrite bool_decide_eq_false. reflexivity.
Qed.

(** The platform-type predicate skips exactly when [platform_type] is
    non-empty and the platform's type is not in it. *)
Theorem platform_type_predicate (log : Log) :
  (should_skip_for_platform_type test_spec platform log).1 = true <->
    platform_type test_spec ≠ ∅ /\ type platform ∉ platform_type test_spec.
Proof.
  rewrite platform_type_verdict, andb_true_iff, negb_true_iff.
  rewrite truthy_set_true. unfold contains. rewrite bool_decide_eq_false.
  reflexivity.
Qed.

(** The toolchain predicate never skips a platform that declares no
    toolchain. Otherwise it skips exactly when [toolchain_allow] is
    non-empty and holds none of the platform's toolchains, or
    [toolchain_exclude] holds one of them. *)
Theorem toolchain_predicate (log : Log) :
  (should_skip_for_toolchain test_spec platform log).1 = true <->
    toolchain platform <> []
    /\ ((toolchain_allow test_spec ≠ ∅
         /\ forall t, t ∈ toolchain platform -> t ∉ toolchain_allow test_spec)
        \/ exists t, t ∈ toolchain platform /\ t ∈ toolchain_exclude test_spec).
Proof.
  rewrite toolchain_verdict, andb_true_iff, orb_true_iff, andb_true_iff,
    negb_true_iff.
  rewrite truthy_list_true, !truthy_set_true, truthy_set_false.
  rewrite empty_intersection, nonempty_intersection. unfold set_of.
  split.
  - intros [Hl [[Hallow Hnone]|(t & Hex & Hin)]]; (split; [exact Hl|]).
    + left. split; [exact Hallow|]. intros t Ht Hin.
      apply (Hnone t Hin). apply elem_of_list_to_set. exact Ht.
    + right. exists t. split; [apply elem_of_list_to_set in Hin|]; assumption.
  - intros [Hl [[Hallow Hnone]|(t & Hin & Hex)]]; (split; [exact Hl|]).
    + left. split; [exact Hallow|]. intros t Hin Ht.
      apply elem_of_list_to_set in Ht. apply (Hnone t Ht Hin).
    + right. exists t. split; [exact Hex | apply elem_of_list_to_set; exact Hin].
Qed.

(** The tag predicate skips exactly when the platform's [only_tags] is
    non-empty and holds none of the scenario's tags, or its [ignore_tags]
    holds one of them. *)
Theorem tag_predicate (log : Log) :
  (should_skip_for_tag test_spec platform log).1 = true <->
    (only_tags platform <> []
     /\ forall t, t ∈ only_tags platform -> t ∉ tags test_spec)
    \/ exists t, t ∈ ignore_tags platform /\ t ∈ tags test_spec.
Proof.
  rewrite tag_verdict, orb_true_iff, andb_true_iff, negb_true_iff.
  rewrite truthy_list_true, truthy_set_true, truthy_set_false.
  rewrite empty_intersection, nonempty_intersection. unfold set_of.
  split.
  - intros [[Hl Hnone]|(t & Hin & Ht)].
    + left. split; [exact Hl|]. intros t Hin. apply Hnone.
      apply elem_of_list_to_set. exact Hin.
    + right. exists t. split; [apply elem_of_list_to_set in Hin|]; assumption.
  - intros [[Hl Hnone]|(t & Hin & Ht)].
    + left. split; [exact Hl|]. intros t Hin. apply Hnone.
      apply elem_of_list_to_set in Hin. exact Hin.
    + right. exists t. split; [apply elem_of_list_to_set|]; assumption.
Qed.

End PredicateFacts.

(** [pytest_harness_is_always_skipped] on a scenario that has nothing but
    the harness against it. *)
Lemma pytest_harness_example :
  (Eligibility.should_be_skip Samples.pytest_harness_scenario Samples.qemu_arm []).1
    = true.
Proof.
  destruct (pytest_harness_is_always_skipped Samples.pytest_harness_scenario
              Samples.qemu_arm []) as [_ Hskip].
  apply Hskip. reflexivity.
Defined.

(** ** The skip log *)

Section SkipLogFacts.

Import Eligibility.

Variable test_spec : YamlTestSpecification.
Variable platform : PlatformSpecification.

Ltac split_conditions :=
  repeat match goal with
         | |- context [if ?c then _ else _] =>
             lazymatch c with
             | context [if _ then _ else _] => fail
             | _ => destruct c; cbn
             end
         end.

Ltac known_reason :=
  unfold skip_reasons;
  repeat first [apply list_elem_of_here | apply list_elem_of_further].

Ltac solve_known_records f :=
  unfold known_skip_record, f, _log_test_skip, emit, bind, ret; split_conditions;
  repeat first
    [ apply List.Forall_nil
    | apply List.Forall_cons;
      [eexists; split; [|unfold skip_record; reflexivity]; known_reason|] ].

Lemma nothing_logged_iff_not_skipped :
  any (verdicts test_spec platform) = false <-> reasons test_spec platform = [].
Proof.
  pose proof (reasons_count_verdicts _ (predicates_one_reason test_spec platform))
    as Hcount.
  pose proof (any_true_count (verdicts test_spec platform)) as Hany.
  unfold reasons, verdicts in *. rewrite <- Hcount in Hany.
  destruct (concat _) as [|r rs]; cbn [length] in Hany.
  - split; [reflexivity|]. intros _. apply not_true_is_false.
    intros Htrue. apply Hany in Htrue. lia.
  - split; [|discriminate]. intros Hfalse.
    assert (Htrue : any (map (fun p : State Log bool => (p []).1)
                            (predicates test_spec platform)) = true)
      by (apply Hany; lia).
    rewrite Htrue in Hfalse. discriminate.
Qed.

Lemma not_skipped_log_unchanged (log : Log) :
  (should_be_skip test_spec platform log).1 = false ->
  should_be_skip test_spec platform log = (false, log).
Proof.
  rewrite should_be_skip_unfold. cbn [fst]. intros Hfalse. rewrite Hfalse.
  apply nothing_logged_iff_not_skipped in Hfalse. rewrite Hfalse, app_nil_r.
  reflexivity.
Qed.

Lemma arch_known_records :
  Forall (known_skip_record test_spec platform) (should_skip_for_arch test_spec platform []).2.
Proof. solve_known_records should_skip_for_arch. Qed.

Lemma min_flash_known_records :
  Forall (known_skip_record test_spec platform) (should_skip_for_min_flash test_spec platform []).2.
Proof. solve_known_records should_skip_for_min_flash. Qed.

Lemma min_ram_known_records :
  Forall (known_skip_record test_spec platform) (should_skip_for_min_ram test_spec platform []).2.
Proof. solve_known_records should_skip_for_min_ram. Qed.

Lemma platform_known_records :
  Forall (known_skip_record test_spec platform) (should_skip_for_platform test_spec platform []).2.
Proof. solve_known_records should_skip_for_platform. Qed.

Lemma platform_type_known_records :
  Forall (known_skip_record test_spec platform) (should_skip_for_platform_type test_spec platform []).2.
Proof. solve_known_records should_skip_for_platform_type. Qed.

Lemma pytest_harness_known_records :
  Forall (known_skip_record test_spec platform) (should_skip_for_pytest_harness test_spec platform []).2.
Proof. solve_known_records should_skip_for_pytest_harness. Qed.

Lemma tag_known_records :
  Forall (known_skip_record test_spec platform) (should_skip_for_tag test_spec platform []).2.
Proof. solve_known_records should_skip_for_tag. Qed.

Lemma toolchain_known_records :
  Forall (known_skip_record test_spec platform) (should_skip_for_toolchain test_spec platform []).2.
Proof. solve_known_records should_skip_for_toolchain. Qed.

(** [should_be_skip] only appends to the log, and only skip records: each
    new record goes to the logger [testcases] at level INFO and reads
    "Skipped test <original name> for platform <identifier> - <reason>"
    with one of the twelve reasons of the predicates. A pair that is not
    skipped leaves the log as it was. *)
Theorem should_be_skip_appends_skip_records (log : Log) :
  exists appended : list LogRecord,
    (should_be_skip test_spec platform log).2 = log ++ appended
    /\ Forall (fun r => exists reason,
                 reason ∈ skip_reasons
                 /\ r = skip_record test_spec platform reason) appended
    /\ ((should_be_skip test_spec platform log).1 = false <-> appended = []).
Proof.
  exists (reasons test_spec platform).
  rewrite should_be_skip_unfold. cbn [fst snd].
  split; [reflexivity|]. split.
  - unfold reasons, predicates. cbn [map concat].
    repeat (apply Forall_app; split); try apply List.Forall_nil.
    + apply arch_known_records.
    + apply min_flash_known_records.
    + apply min_ram_known_records.
    + apply platform_known_records.
    + apply platform_type_known_records.
    + apply pytest_harness_known_records.
    + apply tag_known_records.
    + apply toolchain_known_records.
  - apply nothing_logged_iff_not_skipped.
Qed.

(** Inside the architecture predicate the allow-list is tested first: an
    arch missing from a non-empty [arch_allow] is logged with that reason
    alone, also when [arch_exclude] names it too; the reason of
    [arch_exclude] is logged only when the allow-list lets the arch
    through. *)
Theorem arch_reason_logged (log : Log) :
  (arch_allow test_spec ≠ ∅ -> arch platform ∉ arch_allow test_spec ->
     should_skip_for_arch test_spec platform log =
       (true, log ++ [skip_record test_spec platform
                        "platform.arch not in testcase.arch_allow"]))
  /\ (arch_allow test_spec = ∅ \/ arch platform ∈ arch_allow test_spec ->
        arch platform ∈ arch_exclude test_spec ->
        should_skip_for_arch test_spec platform log =
          (true, log ++ [skip_record test_spec platform
                           "platform.arch in testcase.arch_exclude"])).
Proof.
  unfold should_skip_for_arch, _log_test_skip, emit, bind, ret, skip_record.
  split.
  - intros Hallow Hnotin.
    assert (truthy_set (arch_allow test_spec) = true) as ->
      by (apply truthy_set_true; exact Hallow).
    assert (contains (arch_allow test_spec) (arch platform) = false) as ->
      by (apply bool_decide_eq_false; exact Hnotin).
    reflexivity.
  - intros Hpass Hin.
    assert (truthy_set (arch_allow test_spec)
            && negb (contains (arch_allow test_spec) (arch platform)) = false) as ->.
    { destruct Hpass as [Hempty|Hallowed].
      - rewrite Hempty. reflexivity.
      - apply andb_false_iff. right. apply negb_false_iff.
        apply contains_true. exact Hallowed. }
    assert (truthy_set (arch_exclude test_spec) = true) as ->.
    { apply truthy_set_true. intros Hempty. rewrite Hempty in Hin. inversion Hin. }
    assert (contains (arch_exclude test_spec) (arch platform) = true) as ->
      by (apply contains_true; exact Hin).
    reflexivity.
Qed.

End SkipLogFacts.

(** [arch_reason_logged] on an arm platform and a scenario that allows
    x86 only and excludes arm: the reason is the allow-list. *)
Lemma arch_reason_example :
  map message (Eligibility.should_skip_for_arch Samples.x86_only Samples.qemu_arm []).2
    = ["Skipped test arch.x86 for platform qemu_cortex_m3 - "
         +:+ "platform.arch not in testcase.arch_allow"]
  /\ Eligibility.should_skip_for_arch Samples.unconstrained Samples.qemu_arm []
     = (false, [])
  /\ map message
       (Eligibility.should_skip_for_arch Samples.arm_excluded Samples.qemu_arm []).2
     = ["Skipped test arch.no_arm for platform qemu_cortex_m3 - "
          +:+ "platform.arch in testcase.arch_exclude"].
Proof.
  destruct (arch_reason_logged Samples.x86_only Samples.qemu_arm []) as [Hallow _].
  destruct (arch_reason_logged Samples.arm_excluded Samples.qemu_arm [])
    as [_ Hexclude].
  rewrite Hallow, Hexclude.
  - repeat split.
  - left. reflexivity.
  - vm_compute. reflexivity.
  - vm_compute. discriminate.
  - vm_compute. intros H. discriminate H.
Defined.

(** ** Joining strings, and the other merge rules *)

Section MergeRules.

Import Merge.

Lemma append_empty_r (s : string) : s +:+ "" = s.
Proof.
  induction s as [|c s IH]; [reflexivity|].
  change (String c (s +:+ "") = String c s). rewrite IH. reflexivity.
Qed.

(** [_join_strings] drops the empty strings and puts one space between
    the others: two non-empty strings are joined by a space, a string
    joined with the empty one comes back unchanged, with no space added. *)
Theorem join_strings_drops_empty (a b : string) :
  a <> "" -> b <> "" ->
  _join_strings [VStr a; VStr b] = Ok (a +:+ " " +:+ b)
  /\ _join_strings [VStr a; VStr ""] = Ok a
  /\ _join_strings [VStr ""; VStr b] = Ok b
  /\ _join_strings [VStr ""; VStr ""] = Ok "".
Proof.
  intros Ha Hb. unfold _join_strings. cbn [assert_all_str rbind List.filter].
  rewrite (truthy_str_true _ Ha), (truthy_str_true _ Hb).
  repeat split.
Qed.

Lemma assert_all_str_ok (args : list Value) (strs : list string) :
  assert_all_str args = Ok strs <-> args = map VStr strs.
Proof.
  revert strs. induction args as [|v args IH]; intros strs; cbn.
  - split.
    + intros [= <-]. reflexivity.
    + destruct strs; [reflexivity | discriminate].
  - destruct v as [| b | n | s | l | p];
      try (split; [discriminate | destruct strs; discriminate]).
    destruct (assert_all_str args) as [l|e] eqn:Hrest; cbn [rbind].
    + split.
      * intros [= <-]. cbn. f_equal. apply IH. reflexivity.
      * destruct strs as [|s' strs]; [discriminate|]. cbn.
        intros [= -> Hargs]. apply IH in Hargs. congruence.
    + split; [discriminate|].
      destruct strs as [|s' strs]; [discriminate|]. cbn.
      intros [= -> Hargs]. apply IH in Hargs. discriminate.
Qed.

Lemma assert_all_str_raises (args : list Value) (e : Exception) :
  assert_all_str args = Raise e ->
  e = AssertionError /\ exists v, v ∈ args /\ forall s, v <> VStr s.
Proof.
  induction args as [|v args IH]; cbn; [discriminate|].
  destruct v as [| b | n | s | l | p];
    try (intros [= <-]; split; [reflexivity|];
         eexists; split; [apply list_elem_of_here | discriminate]).
  destruct (assert_all_str args) as [l|e'] eqn:Hrest; cbn [rbind]; [discriminate|].
  intros [= <-]. destruct (IH eq_refl) as (-> & v & Hin & Hv).
  split; [reflexivity|]. exists v. split; [apply list_elem_of_further|]; assumption.
Qed.

(** Both joins insist on strings: they end in [AssertionError] exactly
    when some argument is not a string, and raise nothing else. *)
Theorem joins_assert_strings (args : list Value) :
  (_join_filters args = Raise AssertionError <->
     exists v, v ∈ args /\ forall s, v <> VStr s)
  /\ (_join_strings args = Raise AssertionError <->
        exists v, v ∈ args /\ forall s, v <> VStr s)
  /\ (forall e, _join_filters args = Raise e -> e = AssertionError)
  /\ (forall e, _join_strings args = Raise e -> e = AssertionError).
Proof.
  assert (Hbad : (exists v, v ∈ args /\ forall s, v <> VStr s) ->
                 assert_all_str args = Raise AssertionError).
  { intros (v & Hin & Hv).
    destruct (assert_all_str args) as [strs|e] eqn:Hassert.
    - apply assert_all_str_ok in Hassert. subst args.
      apply list_elem_of_fmap in Hin as (s & -> & _). destruct (Hv s eq_refl).
    - apply assert_all_str_raises in Hassert as [-> _]. reflexivity. }
  unfold _join_filters, _join_strings.
  destruct (assert_all_str args) as [strs|e] eqn:Hassert; cbn [rbind].
  - repeat split; try discriminate.
    + destruct strs as [|? [|]]; discriminate.
    + intros Hex. specialize (Hbad Hex). discriminate.
    + intros Hex. specialize (Hbad Hex). discriminate.
    + intros e. destruct strs as [|? [|]]; discriminate.
  - destruct (assert_all_str_raises _ _ Hassert) as [-> Hex].
    repeat split; try (intros; assumption); try reflexivity.
    + intros e [= <-]. reflexivity.
    + intros e [= <-]. reflexivity.
Qed.

Lemma scenarios_loop_no_common (common : option loc) (items acc : PyDict.t loc)
    (h : Heap.t) :
  common_items common h = [] ->
  NoDup (PyDict.keys (acc ++ items)) ->
  scenarios_loop common items acc h = (Ok (acc ++ items), h).
Proof.
  intros Hempty. revert acc. induction items as [|[name l] rest IH]; intros acc Hnames.
  - rewrite app_nil_r. reflexivity.
  - cbn [scenarios_loop]. rewrite Hempty. cbn [for_in ret].
    assert (Hfresh : acc !! name = None).
    { apply dict_lookup_None. unfold PyDict.keys in Hnames |- *.
      rewrite map_app in Hnames. apply NoDup_app in Hnames as (_ & Hdisjoint & _).
      intros Hin. apply (Hdisjoint _ Hin). apply list_elem_of_here. }
    rewrite (dict_insert_fresh _ _ _ Hfresh).
    assert (Hnames' : NoDup (PyDict.keys ((acc ++ [(name, l)]) ++ rest)))
      by (rewrite <- app_assoc; exact Hnames).
    rewrite (IH _ Hnames'), <- app_assoc. reflexivity.
Qed.

(** [extract_tests] validates first: an error of the validation is
    passed on, and a declaration without [tests] ends in [KeyError];
    in both cases nothing is merged. A valid declaration with no common
    block, or an empty one, comes back with its scenarios as they were
    declared: the same names, in the same order, with the same dict
    objects, and no dict is changed. *)
Theorem extract_tests_without_common (validate : Validator) (raw_spec : RawSpec)
    (h : Heap.t) :
  (forall e, validate raw_spec h = Raise e ->
     extract_tests validate raw_spec h = (Raise e, h))
  /\ (validate raw_spec h = Ok tt -> raw_tests raw_spec = None ->
        extract_tests validate raw_spec h = (Raise KeyError, h))
  /\ (forall items,
        validate raw_spec h = Ok tt -> raw_tests raw_spec = Some items ->
        NoDup (PyDict.keys items) ->
        raw_common raw_spec = None
        \/ (exists c, raw_common raw_spec = Some c /\ Heap.deref h c = []) ->
        extract_tests validate raw_spec h = (Ok items, h)).
Proof.
  unfold extract_tests. split; [|split].
  - intros e ->. reflexivity.
  - intros -> ->. reflexivity.
  - intros items -> -> Hnames Hcommon.
    apply (scenarios_loop_no_common _ items []); [|exact Hnames].
    destruct Hcommon as [-> | (c & -> & Hempty)]; [reflexivity | exact Hempty].
Qed.

End MergeRules.

(** [join_strings_drops_empty] on two compiler flags. *)
Lemma join_strings_example :
  Merge._join_strings [VStr "-DOWN=1"; VStr "-DCOMMON=1"] = Ok "-DOWN=1 -DCOMMON=1"
  /\ Merge._join_strings [VStr "-DOWN=1"; VStr ""] = Ok "-DOWN=1".
Proof.
  destruct (join_strings_drops_empty "-DCOMMON=1" "-DOWN=1"
              ltac:(discriminate) ltac:(discriminate)) as (_ & _ & _ & _).
  destruct (join_strings_drops_empty "-DOWN=1" "-DCOMMON=1"
              ltac:(discriminate) ltac:(discriminate)) as (Hboth & Hright & _).
  split; [exact Hboth | exact Hright].
Defined.

(** [extract_tests_without_common] on a declaration that has scenarios
    only. *)
Lemma extract_tests_without_common_example :
  Merge.extract_tests Samples.accept_all
    {| Merge.raw_common := None;
       Merge.raw_tests := Some [("sample.one", 2%positive)] |}
    Samples.tagged_heap
  = (Ok [("sample.one", 2%positive)], Samples.tagged_heap).
Proof.
  destruct (extract_tests_without_common Samples.accept_all
              {| Merge.raw_common := None;
                 Merge.raw_tests := Some [("sample.one", 2%positive)] |}
              Samples.tagged_heap) as (_ & _ & Hplain).
  apply Hplain.
  - reflexivity.
  - reflexivity.
  - compute_done.
  - left. reflexivity.
Defined.

Section MergedEntries.

Import Merge.

Variable validate : Validator.
Variable raw_spec : RawSpec.
Variables (h h' : Heap.t) (common : loc) (items tests : PyDict.t loc).

Hypothesis common_block : raw_common raw_spec = Some common.
Hypothesis scenarios : raw_tests raw_spec = Some items.
Hypothesis names_once : NoDup (PyDict.keys items).
Hypothesis common_keys_once : NoDup (PyDict.keys (Heap.deref h common)).
Hypothesis no_dict_shared : unshared common items.
Hypothesis extracted : extract_tests validate raw_spec h = (Ok tests, h').

Lemma extracted_loop : scenarios_loop (Some common) items [] h = (Ok tests, h').
Proof.
  destruct (extract_tests_ok _ _ _ _ _ extracted) as (items' & Hitems' & Hloop).
  rewrite scenarios in Hitems'. injection Hitems' as <-.
  rewrite common_block in Hloop. exact Hloop.
Qed.

Lemma merged_scenario_lookup (test_name : string) (l : loc) :
  items !! test_name = Some l ->
  tests !! test_name = Some l
  /\ forall k,
       match Heap.deref h common !! k with
       | None => Heap.deref h' l !! k = Heap.deref h l !! k
       | Some c =>
           exists v, merge_entry k (Heap.deref h l !! k) c = Ok v
                     /\ Heap.deref h' l !! k = Some v
       end.
Proof.
  intros Hl. pose proof extracted_loop as Hloop.
  rewrite (scenarios_loop_tests _ items [] _ _ _ names_once Hloop).
  split; [exact Hl|].
  exact (scenarios_loop_entries _ _ _ _ _ _ no_dict_shared common_keys_once Hloop l
           (dict_lookup_Some_values _ _ _ Hl)).
Qed.

Lemma common_block_unchanged : Heap.deref h' common = Heap.deref h common.
Proof.
  apply deref_lookup_eq.
  apply (scenarios_loop_frame _ _ _ _ _ _ extracted_loop).
  pose proof no_dict_shared as Hunshared. unfold unshared in Hunshared.
  apply NoDup_cons in Hunshared as [Hnot _]. exact Hnot.
Qed.

(** In a declaration where no dict is shared, a scenario inherits what
    it does not declare, and keeps what only it declares: a key of the
    common block that the scenario lacks arrives with the common value, a
    key outside the common block keeps the scenario's entry, and where
    both have a value that is neither a filter, a string nor a list, the
    scenario's own value stays. The scenario keeps its dict object, and
    the common block is not changed. *)
Theorem scenario_inherits_and_overrides (test_name : string) (l : loc) :
  items !! test_name = Some l ->
  tests !! test_name = Some l
  /\ Heap.deref h' common = Heap.deref h common
  /\ (forall k c,
        Heap.deref h common !! k = Some c -> Heap.deref h l !! k = None ->
        Heap.deref h' l !! k = Some c)
  /\ (forall k,
        Heap.deref h common !! k = None ->
        Heap.deref h' l !! k = Heap.deref h l !! k)
  /\ (forall k c own,
        k <> "filter" -> Heap.deref h common !! k = Some c ->
        Heap.deref h l !! k = Some own ->
        (forall s, c <> VStr s) -> (forall cl, c <> VList cl) ->
        Heap.deref h' l !! k = Some own).
Proof.
  intros Hl. destruct (merged_scenario_lookup _ _ Hl) as (Hlook & Hentries).
  split; [exact Hlook|]. split; [exact common_block_unchanged|]. split; [|split].
  - intros k c Hc Hnone. specialize (Hentries k). rewrite Hc, Hnone in Hentries.
    destruct Hentries as (v & [= <-] & Hv). exact Hv.
  - intros k Hnone. specialize (Hentries k). rewrite Hnone in Hentries.
    exact Hentries.
  - intros k c own Hk Hc Hown Hnostr Hnolist.
    specialize (Hentries k). rewrite Hc, Hown in Hentries.
    destruct Hentries as (v & Hv & Hmerged). unfold merge_entry in Hv.
    apply String.eqb_neq in Hk. rewrite Hk in Hv.
    destruct c as [| b | n | s | cl | p]; try (injection Hv as <-; exact Hmerged).
    + destruct (Hnostr s eq_refl).
    + destruct (Hnolist cl eq_refl).
Qed.

(** In a declaration where no dict is shared: where scenario and common
    block both have a list, the common entries are appended after the
    scenario's; where both have a string (under a key other than
    [filter]), the two are joined by [_join_strings], the scenario's
    first. *)
Theorem lists_and_strings_are_concatenated (test_name : string) (l : loc) :
  items !! test_name = Some l ->
  (forall k own cl,
     k <> "filter" -> Heap.deref h common !! k = Some (VList cl) ->
     Heap.deref h l !! k = Some (VList own) ->
     Heap.deref h' l !! k = Some (VList (own ++ cl)))
  /\ (forall k a b,
        k <> "filter" -> Heap.deref h common !! k = Some (VStr a) ->
        Heap.deref h l !! k = Some (VStr b) ->
        exists s, _join_strings [VStr b; VStr a] = Ok s
                  /\ Heap.deref h' l !! k = Some (VStr s)).
Proof.
  intros Hl. destruct (merged_scenario_lookup _ _ Hl) as (_ & Hentries). split.
  - intros k own cl Hk Hc Hown. specialize (Hentries k). rewrite Hc, Hown in Hentries.
    destruct Hentries as (v & Hv & Hmerged). unfold merge_entry in Hv.
    apply String.eqb_neq in Hk. rewrite Hk in Hv. injection Hv as <-. exact Hmerged.
  - intros k a b Hk Hc Hown. specialize (Hentries k). rewrite Hc, Hown in Hentries.
    destruct Hentries as (v & Hv & Hmerged). unfold merge_entry in Hv.
    apply String.eqb_neq in Hk. rewrite Hk in Hv.
    destruct (_join_strings [VStr b; VStr a]) as [s|e]; [|discriminate].
    injection Hv as <-. exists s. split; [reflexivity | exact Hmerged].
Qed.

End MergedEntries.

Section Mismatch.

Import Merge.

Lemma cannot_combine_raises (k : string) (own c : Value) :
  cannot_combine k own c -> exists e, merge_entry k (Some own) c = Raise e.
Proof.
  unfold merge_entry. intros [(Hk & (cl & ->) & Hnolist) | (-> & Hnostr)].
  - apply String.eqb_neq in Hk. rewrite Hk.
    destruct own as [| b | n | s | l | p]; try (eexists; reflexivity).
    destruct (Hnolist l eq_refl).
  - cbn [String.eqb Ascii.eqb Bool.eqb].
    destruct (_join_filters [own; c]) as [s|e] eqn:Hjoin; [|eexists; reflexivity].
    exfalso. unfold _join_filters in Hjoin.
    destruct (assert_all_str [own; c]) as [strs|e] eqn:Hassert; [|discriminate].
    apply assert_all_str_ok in Hassert.
    destruct strs as [|s1 [|s2 [|]]]; try discriminate.
    injection Hassert as -> ->.
    destruct Hnostr as [Hnostr|Hnostr]; [destruct (Hnostr s2 eq_refl)
                                        | destruct (Hnostr s1 eq_refl)].
Qed.

(** The loop over the common items ends in an exception when it meets a
    key whose values cannot be combined. *)
Lemma merge_loop_raises (items : dict) (l : loc) (h : Heap.t) (k : string)
    (own c : Value) :
  items !! k = Some c -> Heap.deref h l !! k = Some own -> cannot_combine k own c ->
  exists e h', for_in items (merge_common_item l) h = (Raise e, h').
Proof.
  intros Hc Hown Hmismatch. revert h Hc Hown.
  induction items as [|[key cv] rest IH]; intros h Hc Hown; [discriminate|].
  cbn [for_in]. rewrite merge_common_item_eq. rewrite dict_lookup_cons in Hc.
  destruct (String.eqb key k) eqn:Hkey.
  - apply String.eqb_eq in Hkey. subst key. injection Hc as ->. rewrite Hown.
    destruct (cannot_combine_raises _ _ _ Hmismatch) as [e ->]. eauto.
  - apply String.eqb_neq in Hkey.
    destruct (merge_entry key (Heap.deref h l !! key) cv) as [v|e]; [|eauto].
    apply IH; [exact Hc|].
    rewrite deref_setitem_eq, dict_lookup_insert_ne by exact Hkey. exact Hown.
Qed.

(** The loop over the common items removes no key. *)
Lemma merge_loop_keeps_keys (items : dict) (l : loc) (h h' : Heap.t) (u : unit)
    (k : string) :
  for_in items (merge_common_item l) h = (Ok u, h') ->
  is_Some (Heap.deref h l !! k) -> is_Some (Heap.deref h' l !! k).
Proof.
  revert h. induction items as [|[key cv] rest IH]; intros h.
  - intros [= <- <-] Hk. exact Hk.
  - cbn [for_in]. rewrite merge_common_item_eq.
    destruct (merge_entry key (Heap.deref h l !! key) cv) as [v|e]; [|discriminate].
    intros Hrest Hk. apply (IH _ Hrest). rewrite deref_setitem_eq.
    destruct (decide (key = k)) as [->|Hne].
    + rewrite dict_lookup_insert_eq. eexists. reflexivity.
    + rewrite dict_lookup_insert_ne by exact Hne. exact Hk.
Qed.

(** Under a key other than [filter], a list stays a list. *)
Lemma merge_loop_keeps_lists (items : dict) (l : loc) (h h' : Heap.t) (u : unit)
    (k : string) :
  k <> "filter" ->
  for_in items (merge_common_item l) h = (Ok u, h') ->
  (exists cl, Heap.deref h l !! k = Some (VList cl)) ->
  exists cl, Heap.deref h' l !! k = Some (VList cl).
Proof.
  intros Hk. revert h. induction items as [|[key cv] rest IH]; intros h.
  - intros [= <- <-] Hlist. exact Hlist.
  - cbn [for_in]. rewrite merge_common_item_eq.
    destruct (merge_entry key (Heap.deref h l !! key) cv) as [v|e] eqn:Hentry;
      [|discriminate].
    intros Hrest [cl Hlist]. apply (IH _ Hrest). rewrite deref_setitem_eq.
    destruct (decide (key = k)) as [->|Hne].
    + rewrite dict_lookup_insert_eq. rewrite Hlist in Hentry.
      unfold merge_entry in Hentry. apply String.eqb_neq in Hk. rewrite Hk in Hentry.
      destruct cv as [| b | n | s | cl' | p];
        try (injection Hentry as <-; eexists; reflexivity).
      destruct (_join_strings [VList cl; VStr s]) eqn:Hjoin; discriminate.
    + rewrite dict_lookup_insert_ne by exact Hne. exists cl. exact Hlist.
Qed.

(** The loop over the scenarios ends in an exception when the dict of
    one of them holds a value that cannot be combined with the common
    one, whatever dicts are shared. *)
Lemma scenarios_loop_raises (c : loc) (items acc : PyDict.t loc) (h : Heap.t)
    (test_name : string) (l : loc) (k : string) :
  items !! test_name = Some l ->
  (exists own cv, Heap.deref h l !! k = Some own /\ Heap.deref h c !! k = Some cv
                  /\ cannot_combine k own cv) ->
  exists e h', scenarios_loop (Some c) items acc h = (Raise e, h').
Proof.
  revert acc h. induction items as [|[name1 l1] rest IH]; intros acc h Hl Hmismatch;
    [discriminate|].
  cbn [scenarios_loop common_items].
  destruct (for_in (Heap.deref h c) (merge_common_item l1) h)
    as [[u|e] h1] eqn:Hinner; [|eauto].
  destruct Hmismatch as (own & cv & Hown & Hcv & Hmismatch).
  assert (Hother : l1 <> l).
  { intros ->.
    destruct (merge_loop_raises _ _ h _ _ _ Hcv Hown Hmismatch) as (e & h2 & Hraise).
    congruence. }
  rewrite dict_lookup_cons in Hl. destruct (String.eqb name1 test_name).
  { injection Hl as ->. destruct (Hother eq_refl). }
  apply (IH _ h1 Hl).
  assert (Hown1 : Heap.deref h1 l !! k = Some own).
  { rewrite (deref_lookup_eq h h1 l (merge_loop_frame _ _ _ _ _ Hinner l
                                       ltac:(congruence))).
    exact Hown. }
  destruct (decide (l1 = c)) as [->|Hne].
  - destruct Hmismatch as [(Hk & (cl & ->) & Hnolist) | (-> & [Hnostr|Hnostr])].
    + destruct (merge_loop_keeps_lists _ _ _ _ _ _ Hk Hinner
                  ltac:(eexists; exact Hcv)) as [cl' Hcv'].
      exists own, (VList cl'). split; [exact Hown1|]. split; [exact Hcv'|].
      left. split; [exact Hk|]. split; [eexists; reflexivity | exact Hnolist].
    + destruct (merge_loop_raises (Heap.deref h c) c h "filter" cv cv Hcv Hcv)
        as (e & h2 & Hraise); [|congruence].
      right. split; [reflexivity|]. left. exact Hnostr.
    + destruct (merge_loop_keeps_keys _ _ _ _ _ "filter" Hinner
                  ltac:(eexists; exact Hcv)) as [cv' Hcv'].
      exists own, cv'. split; [exact Hown1|]. split; [exact Hcv'|].
      right. split; [reflexivity|]. right. exact Hnostr.
  - exists own, cv. split; [exact Hown1|]. split; [|exact Hmismatch].
    rewrite (deref_lookup_eq h h1 c (merge_loop_frame _ _ _ _ _ Hinner c
                                       ltac:(congruence))).
    exact Hcv.
Qed.

(** A scenario whose value cannot be combined with the common one makes
    the whole extraction fail: a common list against a scenario value
    that is no list, or a [filter] that is not a string on either side. *)
Theorem extract_tests_rejects_mismatch (validate : Validator) (raw_spec : RawSpec)
    (h : Heap.t) (common : loc) (items : PyDict.t loc) (test_name : string)
    (l : loc) (k : string) (c own : Value) :
  raw_common raw_spec = Some common ->
  raw_tests raw_spec = Some items ->
  items !! test_name = Some l ->
  Heap.deref h common !! k = Some c -> Heap.deref h l !! k = Some own ->
  (k <> "filter" /\ (exists cl, c = VList cl) /\ (forall l, own <> VList l))
  \/ (k = "filter" /\ ((forall s, c <> VStr s) \/ (forall s, own <> VStr s))) ->
  exists e, (extract_tests validate raw_spec h).1 = Raise e.
Proof.
  intros Hcommon Hitems Hl Hc Hown Hmismatch. unfold extract_tests.
  destruct (validate raw_spec h) as [u|e]; [|exists e; reflexivity].
  rewrite Hcommon, Hitems.
  destruct (scenarios_loop_raises common items [] h test_name l k Hl)
    as (e & h1 & ->).
  - exists own, c. split; [exact Hown|]. split; [exact Hc | exact Hmismatch].
  - exists e. reflexivity.
Qed.

End Mismatch.

(** [scenario_inherits_and_overrides] on the sample declaration: the
    harness is inherited, [min_ram] is the scenario's alone, and the
    scenario's timeout wins over the common one. *)
Lemma inherit_and_override_example :
  Heap.deref Samples.tagged_heap_merged 2%positive !! "harness"
    = Some (VStr "console")
  /\ Heap.deref Samples.tagged_heap_merged 2%positive !! "min_ram"
     = Some (VNum (PyInt 16))
  /\ Heap.deref Samples.tagged_heap_merged 2%positive !! "timeout"
     = Some (VNum (PyInt 5)).
Proof.
  destruct (scenario_inherits_and_overrides Samples.accept_all
              Samples.tagged_declaration Samples.tagged_heap
              Samples.tagged_heap_merged 1%positive
              [("sample.one", 2%positive)] [("sample.one", 2%positive)]
              eq_refl eq_refl ltac:(compute_done) ltac:(compute_done)
              ltac:(compute_done) ltac:(vm_compute; reflexivity)
              "sample.one" 2%positive ltac:(vm_compute; reflexivity))
    as (_ & _ & Hinherit & Hown & Hscalar).
  split; [|split].
  - apply Hinherit; vm_compute; reflexivity.
  - rewrite Hown; vm_compute; reflexivity.
  - apply (Hscalar "timeout" (VNum (PyInt 60))).
    + discriminate.
    + vm_compute. reflexivity.
    + vm_compute. reflexivity.
    + discriminate.
    + discriminate.
Defined.

(** [lists_and_strings_are_concatenated] on the sample declaration:
    tags [y] and common tags [x] give [y; x]. *)
Lemma concatenation_example :
  Heap.deref Samples.tagged_heap_merged 2%positive !! "tags"
    = Some (VList [VStr "y"; VStr "x"])
  /\ Heap.deref Samples.tagged_heap_merged 2%positive !! "extra_args"
     = Some (VStr "-DOWN=1 -DCOMMON=1").
Proof.
  destruct (lists_and_strings_are_concatenated Samples.accept_all
              Samples.tagged_declaration Samples.tagged_heap
              Samples.tagged_heap_merged 1%positive
              [("sample.one", 2%positive)] [("sample.one", 2%positive)]
              eq_refl eq_refl ltac:(compute_done) ltac:(compute_done)
              ltac:(compute_done) ltac:(vm_compute; reflexivity)
              "sample.one" 2%positive ltac:(vm_compute; reflexivity))
    as (Hlists & Hstrings).
  split.
  - apply (Hlists "tags" [VStr "y"] [VStr "x"]).
    + discriminate.
    + vm_compute. reflexivity.
    + vm_compute. reflexivity.
  - destruct (Hstrings "extra_args" "-DCOMMON=1" "-DOWN=1"
                ltac:(discriminate) ltac:(vm_compute; reflexivity)
                ltac:(vm_compute; reflexivity)) as (s & Hjoin & Hmerged).
    rewrite Hmerged. injection Hjoin as <-. reflexivity.
Defined.

(** [extract_tests_rejects_mismatch] on a declaration whose common tags
    are a list and whose scenario tags are a string. *)
Lemma mismatch_example :
  exists e,
    (Merge.extract_tests Samples.accept_all Samples.mistyped_declaration
       Samples.mistyped_heap).1 = Raise e.
Proof.
  apply (extract_tests_rejects_mismatch Samples.accept_all
           Samples.mistyped_declaration Samples.mistyped_heap 1%positive
           [("sample.one", 2%positive)] "sample.one" 2%positive "tags"
           (VList [VStr "x"]) (VStr "y")).
  - reflexivity.
  - reflexivity.
  - vm_compute. reflexivity.
  - vm_compute. reflexivity.
  - vm_compute. reflexivity.
  - left. split; [discriminate|]. split; [eexists; reflexivity | discriminate].
Defined.

(** ** What [prepare_spec_dict] returns *)

Section PreparedDictFacts.

Lemma relative_to_ok (p base rel : Path) :
  relative_to p base = Ok rel
  <-> p = base ++ rel /\ (base = [] -> is_absolute p = false).
Proof.
  unfold relative_to. destruct base as [|part base].
  - destruct (is_absolute p); split.
    + discriminate.
    + intros [_ Habs]. discriminate (Habs eq_refl).
    + intros [= <-]. split; reflexivity.
    + intros [-> _]. reflexivity.
  - split.
    + destruct (bool_decide _) eqn:Hprefix; [|discriminate].
      apply bool_decide_eq_true in Hprefix. intros [= <-]. split; [|discriminate].
      transitivity (take (length (part :: base)) p ++ drop (length (part :: base)) p).
      * symmetry. apply take_drop.
      * rewrite Hprefix. reflexivity.
    + intros [-> _]. rewrite take_app_length, drop_app_length.
      rewrite bool_decide_eq_true_2 by reflexivity. reflexivity.
Qed.

Lemma relative_to_raises (p base : Path) (e : Exception) :
  relative_to p base = Raise e
  <-> e = ValueError
      /\ ((forall rel, p <> base ++ rel) \/ (base = [] /\ is_absolute p = true)).
Proof.
  split.
  - intros Hraise. split; [exact (relative_to_raises_ValueError _ _ _ Hraise)|].
    destruct base as [|part base].
    + right. split; [reflexivity|]. unfold relative_to in Hraise.
      destruct (is_absolute p); [reflexivity | discriminate].
    + left. intros rel Hp.
      assert (Hok : relative_to p (part :: base) = Ok rel)
        by (apply relative_to_ok; split; [exact Hp | discriminate]).
      congruence.
  - intros [-> Hnot]. destruct (relative_to p base) as [rel|e] eqn:Hrel.
    + apply relative_to_ok in Hrel as [Hp Habs].
      destruct Hnot as [Hnot | [Hbase Htrue]]; [destruct (Hnot rel Hp)|].
      rewrite (Habs Hbase) in Htrue. discriminate.
    + rewrite (relative_to_raises_ValueError _ _ _ Hrel). reflexivity.
Qed.

(** For a declared scenario the YAML-file processor always returns a
    dictionary, logs nothing, and sets in it: [name] to
    "<scenario>[<platform identifier>]", [original_name] to the scenario,
    [platform] to the identifier and [source_dir] to the directory of the
    file. Every other key except [rel_to_base_path] is as declared. *)
Theorem yaml_prepared_dict_entries
    (self : YamlSpecificationProcessor.t) (platform : PlatformSpecification)
    (scenario : string) (log : Log) (l : loc) :
  YamlSpecificationProcessor.tests self !! scenario = Some l ->
  exists d',
    YamlSpecificationProcessor.prepare_spec_dict platform scenario (self, log)
      = (Ok d', ((YamlSpecificationProcessor.prepare_spec_dict platform scenario
                    (self, log)).2.1, log))
    /\ d' !! "name" = Some (VStr (scenario +:+ "[" +:+ identifier platform +:+ "]"))
    /\ d' !! "original_name" = Some (VStr scenario)
    /\ d' !! "platform" = Some (VStr (identifier platform))
    /\ d' !! "source_dir"
       = Some (VPath (YamlSpecificationProcessor.test_directory_path self))
    /\ (forall k,
          k ∉ ["name"; "original_name"; "platform"; "source_dir";
               "rel_to_base_path"] ->
          d' !! k = Heap.deref (YamlSpecificationProcessor.heap self) l !! k).
Proof.
  intros Hl. rewrite (prepare_spec_dict_present _ platform _ log _ Hl).
  eexists. split; [reflexivity|].
  unfold YamlSpecificationProcessor.written.
  rewrite !(dict_lookup_insert_ne _ "rel_to_base_path" "name") by discriminate.
  rewrite !(dict_lookup_insert_ne _ "rel_to_base_path" "original_name") by discriminate.
  rewrite !(dict_lookup_insert_ne _ "rel_to_base_path" "platform") by discriminate.
  rewrite !(dict_lookup_insert_ne _ "rel_to_base_path" "source_dir") by discriminate.
  rewrite !(dict_lookup_insert_ne _ "source_dir" "name") by discriminate.
  rewrite !(dict_lookup_insert_ne _ "source_dir" "original_name") by discriminate.
  rewrite !(dict_lookup_insert_ne _ "source_dir" "platform") by discriminate.
  rewrite !(dict_lookup_insert_ne _ "platform" "name") by discriminate.
  rewrite !(dict_lookup_insert_ne _ "platform" "original_name") by discriminate.
  rewrite !(dict_lookup_insert_ne _ "original_name" "name") by discriminate.
  rewrite !dict_lookup_insert_eq.
  split; [reflexivity|]. split; [reflexivity|]. split; [reflexivity|].
  split; [reflexivity|].
  intros k Hk. rewrite !not_elem_of_cons in Hk.
  destruct Hk as (? & ? & ? & ? & ? & _).
  rewrite !dict_lookup_insert_ne by congruence. reflexivity.
Qed.


(** The processor for collected items, for a declared scenario: under
    the root path it returns the dictionary with [name] and
    [original_name] taken from the item, [build_name] set to the scenario
    and [rel_to_base_path] to the rest of the directory's parts. Outside
    the root path it ends in [ValueError], and the stored dictionary
    keeps the five entries written before the failure, with its
    [rel_to_base_path] untouched. *)
Theorem regular_prepared_dict_entries
    (self : RegularSpecificationProcessor.t) (platform : PlatformSpecification)
    (scenario : string) (log : Log) (l : loc) :
  RegularSpecificationProcessor.tests self !! scenario = Some l ->
  let r := RegularSpecificationProcessor.prepare_spec_dict platform scenario
             (self, log) in
  let stored := RegularSpecificationProcessor.getitem r.2.1 scenario in
  let directory := RegularSpecificationProcessor.test_directory_path self in
  let root := RegularSpecificationProcessor.rootpath self in
  stored !! "name" = Some (VStr (item_name (RegularSpecificationProcessor.item self)))
  /\ stored !! "original_name"
     = Some (VStr (item_originalname (RegularSpecificationProcessor.item self)))
  /\ stored !! "platform" = Some (VStr (identifier platform))
  /\ stored !! "build_name" = Some (VStr scenario)
  /\ stored !! "source_dir" = Some (VPath directory)
  /\ ((exists rel,
         directory = root ++ rel
         /\ (root = [] -> is_absolute directory = false)
         /\ r.1 = Ok stored
         /\ stored !! "rel_to_base_path" = Some (VPath rel))
      \/ (((forall rel, directory <> root ++ rel)
           \/ (root = [] /\ is_absolute directory = true))
          /\ r.1 = Raise ValueError
          /\ stored !! "rel_to_base_path"
             = Heap.deref (RegularSpecificationProcessor.heap self) l
                 !! "rel_to_base_path")).
Proof.
  intros Hl. cbv zeta.
  assert (Hstored : forall h',
    RegularSpecificationProcessor.getitem
      (RegularSpecificationProcessor.set_heap self h') scenario
    = Heap.deref h' l).
  { intros h'. unfold RegularSpecificationProcessor.getitem.
    cbn [RegularSpecificationProcessor.set_heap RegularSpecificationProcessor.tests
           RegularSpecificationProcessor.heap].
    rewrite Hl. reflexivity. }
  destruct (relative_to (RegularSpecificationProcessor.test_directory_path self)
              (RegularSpecificationProcessor.rootpath self)) as [rel|e] eqn:Hrel.
  - rewrite (regular_prepare_spec_dict_under_root _ platform _ log _ _ Hl Hrel).
    cbn [fst snd]. rewrite Hstored, deref_insert_eq.
    unfold RegularSpecificationProcessor.written_before_relative_to.
    rewrite !(dict_lookup_insert_ne _ "rel_to_base_path" "name") by discriminate.
    rewrite !(dict_lookup_insert_ne _ "rel_to_base_path" "original_name")
      by discriminate.
    rewrite !(dict_lookup_insert_ne _ "rel_to_base_path" "platform") by discriminate.
    rewrite !(dict_lookup_insert_ne _ "rel_to_base_path" "build_name") by discriminate.
    rewrite !(dict_lookup_insert_ne _ "rel_to_base_path" "source_dir") by discriminate.
    rewrite !(dict_lookup_insert_ne _ "build_name" "name") by discriminate.
    rewrite !(dict_lookup_insert_ne _ "build_name" "original_name") by discriminate.
    rewrite !(dict_lookup_insert_ne _ "build_name" "source_dir") by discriminate.
    rewrite !(dict_lookup_insert_ne _ "build_name" "platform") by discriminate.
    rewrite !(dict_lookup_insert_ne _ "platform" "name") by discriminate.
    rewrite !(dict_lookup_insert_ne _ "platform" "original_name") by discriminate.
    rewrite !(dict_lookup_insert_ne _ "platform" "source_dir") by discriminate.
    rewrite !(dict_lookup_insert_ne _ "source_dir" "name") by discriminate.
    rewrite !(dict_lookup_insert_ne _ "source_dir" "original_name") by discriminate.
    rewrite !(dict_lookup_insert_ne _ "original_name" "name") by discriminate.
    rewrite !dict_lookup_insert_eq.
    split; [reflexivity|]. split; [reflexivity|]. split; [reflexivity|].
    split; [reflexivity|]. split; [reflexivity|].
    left. exists rel. apply relative_to_ok in Hrel as [Hp Habs].
    split; [exact Hp|]. split; [exact Habs|]. split; reflexivity.
  - rewrite (regular_prepare_spec_dict_outside_root _ platform _ log _ _ Hl Hrel).
    cbn [fst snd]. rewrite Hstored, deref_insert_eq.
    unfold RegularSpecificationProcessor.written_before_relative_to.
    rewrite !(dict_lookup_insert_ne _ "build_name" "rel_to_base_path") by discriminate.
    rewrite !(dict_lookup_insert_ne _ "platform" "rel_to_base_path") by discriminate.
    rewrite !(dict_lookup_insert_ne _ "source_dir" "rel_to_base_path") by discriminate.
    rewrite !(dict_lookup_insert_ne _ "original_name" "rel_to_base_path")
      by discriminate.
    rewrite !(dict_lookup_insert_ne _ "name" "rel_to_base_path") by discriminate.
    rewrite !(dict_lookup_insert_ne _ "build_name" "name") by discriminate.
    rewrite !(dict_lookup_insert_ne _ "build_name" "original_name") by discriminate.
    rewrite !(dict_lookup_insert_ne _ "build_name" "source_dir") by discriminate.
    rewrite !(dict_lookup_insert_ne _ "build_name" "platform") by discriminate.
    rewrite !(dict_lookup_insert_ne _ "platform" "name") by discriminate.
    rewrite !(dict_lookup_insert_ne _ "platform" "original_name") by discriminate.
    rewrite !(dict_lookup_insert_ne _ "platform" "source_dir") by discriminate.
    rewrite !(dict_lookup_insert_ne _ "source_dir" "name") by discriminate.
    rewrite !(dict_lookup_insert_ne _ "source_dir" "original_name") by discriminate.
    rewrite !(dict_lookup_insert_ne _ "original_name" "name") by discriminate.
    rewrite !dict_lookup_insert_eq.
    split; [reflexivity|]. split; [reflexivity|]. split; [reflexivity|].
    split; [reflexivity|]. split; [reflexivity|].
    right. apply relative_to_raises in Hrel as [-> Hnot].
    split; [exact Hnot|]. split; reflexivity.
Qed.

End PreparedDictFacts.

(** [yaml_prepared_dict_entries] on the sample processor: the name carries
    the platform, the declared timeout is still there. *)
Lemma yaml_prepared_dict_example :
  exists d',
    (YamlSpecificationProcessor.prepare_spec_dict Samples.qemu_arm "kernel.common"
       (Samples.kernel_processor, [])).1 = Ok d'
    /\ d' !! "name" = Some (VStr "kernel.common[qemu_cortex_m3]")
    /\ d' !! "timeout" = Some (VNum (PyInt 5)).
Proof.
  destruct (yaml_prepared_dict_entries Samples.kernel_processor Samples.qemu_arm
              "kernel.common" [] 1%positive ltac:(vm_compute; reflexivity))
    as (d' & Hrun & Hname & _ & _ & _ & Hother).
  exists d'. split; [exact (f_equal fst Hrun)|]. split; [exact Hname|].
  rewrite Hother; [vm_compute; reflexivity|].
  rewrite !not_elem_of_cons. repeat split; try discriminate. apply not_elem_of_nil.
Defined.


(** [regular_prepared_dict_entries] on an item under the root path. *)
Lemma regular_prepared_dict_example :
  let r := RegularSpecificationProcessor.prepare_spec_dict Samples.qemu_arm "build.a"
             (Samples.inside_root_processor, []) in
  RegularSpecificationProcessor.getitem r.2.1 "build.a" !! "build_name"
    = Some (VStr "build.a")
  /\ RegularSpecificationProcessor.getitem r.2.1 "build.a" !! "name"
     = Some (VStr "test_build[qemu_cortex_m3]").
Proof.
  destruct (regular_prepared_dict_entries Samples.inside_root_processor
              Samples.qemu_arm "build.a" [] 1%positive
              ltac:(vm_compute; reflexivity))
    as (Hname & _ & _ & Hbuild & _).
  split; [exact Hbuild | exact Hname].
Defined.

(** ** What [process] returns *)

Section ProcessFacts.

Variable YamlTestSpecification_of_dict : Constructor.
Variable add_markers_from_specification : Item -> YamlTestSpecification -> Item.

(** The YAML-file processor yields a specification exactly for the pairs
    that are not skipped: for a skipped pair it returns [None] and the log
    gains the skip records only; otherwise it returns the specification
    built from the prepared dictionary and the log gains one DEBUG record
    "Generated test <scenario> for platform <identifier>". An error of the
    construction leaves [process] as it is. *)
Theorem yaml_process_outcome
    (self : YamlSpecificationProcessor.t) (platform : PlatformSpecification)
    (scenario : string) (log : Log) (d' : dict) :
  (YamlSpecificationProcessor.prepare_spec_dict platform scenario (self, log)).1
    = Ok d' ->
  let r := YamlSpecificationProcessor.process YamlTestSpecification_of_dict
             platform scenario (self, log) in
  match SpecificationProcessor.create_spec_from_dict
          YamlTestSpecification_of_dict d' platform with
  | Raise e => r.1 = Raise e /\ r.2.2 = log
  | Ok test_spec =>
      if (Eligibility.should_be_skip test_spec platform log).1
      then r.1 = Ok None
           /\ r.2.2 = (Eligibility.should_be_skip test_spec platform log).2
      else r.1 = Ok (Some test_spec)
           /\ r.2.2 = log ++ [mkLogRecord module_logger DEBUG
                                ("Generated test " +:+ scenario +:+ " for platform "
                                   +:+ identifier platform)]
  end.
Proof.
  intros Hprepare. cbv zeta. unfold YamlSpecificationProcessor.process.
  destruct (YamlSpecificationProcessor.tests self !! scenario) as [l|] eqn:Hl.
  - rewrite (prepare_spec_dict_present _ platform _ log _ Hl) in Hprepare |- *.
    cbn [fst] in Hprepare. injection Hprepare as <-.
    destruct (SpecificationProcessor.create_spec_from_dict _ _ _) as [ts|e];
      [|split; reflexivity].
    destruct (Eligibility.should_be_skip ts platform log) as [skip log'] eqn:Hskip.
    cbn [fst snd]. destruct skip; cbn [negb fst snd]; [split; reflexivity|].
    assert (Hfalse : (Eligibility.should_be_skip ts platform log).1 = false)
      by (rewrite Hskip; reflexivity).
    rewrite (not_skipped_log_unchanged _ _ _ Hfalse) in Hskip.
    injection Hskip as <-. split; reflexivity.
  - rewrite (prepare_spec_dict_missing _ platform _ log Hl) in Hprepare.
    discriminate.
Qed.

(** The processor for collected items returns the specification also for
    a skipped pair. The item ends up with the markers of the
    specification and, exactly when the pair is skipped, the marker
    [skip('Does not match requirements')] after them. *)
Theorem regular_process_outcome
    (self : RegularSpecificationProcessor.t) (platform : PlatformSpecification)
    (scenario : string) (log : Log) (d' : dict) (test_spec : YamlTestSpecification) :
  (RegularSpecificationProcessor.prepare_spec_dict platform scenario (self, log)).1
    = Ok d' ->
  SpecificationProcessor.create_spec_from_dict YamlTestSpecification_of_dict
    d' platform = Ok test_spec ->
  let r := RegularSpecificationProcessor.process YamlTestSpecification_of_dict
             add_markers_from_specification platform scenario (self, log) in
  r.1 = Ok test_spec
  /\ item_markers (RegularSpecificationProcessor.item r.2.1) =
       item_markers (add_markers_from_specification
                       (RegularSpecificationProcessor.item self) test_spec)
       ++ (if (Eligibility.should_be_skip test_spec platform log).1
           then ["skip('Does not match requirements')"] else [])
  /\ r.2.2 = (Eligibility.should_be_skip test_spec platform log).2.
Proof.
  intros Hprepare Hcreate. cbv zeta. unfold RegularSpecificationProcessor.process.
  destruct (RegularSpecificationProcessor.tests self !! scenario) as [l|] eqn:Hl.
  - destruct (relative_to (RegularSpecificationProcessor.test_directory_path self)
                (RegularSpecificationProcessor.rootpath self)) as [rel|e] eqn:Hrel.
    + rewrite (regular_prepare_spec_dict_under_root _ platform _ log _ _ Hl Hrel)
        in Hprepare |- *.
      cbn [fst] in Hprepare. injection Hprepare as <-. rewrite Hcreate.
      destruct (Eligibility.should_be_skip test_spec platform log) as [[] log'];
        cbn; rewrite ?app_nil_r; repeat split.
    + rewrite (regular_prepare_spec_dict_outside_root _ platform _ log _ _ Hl Hrel)
        in Hprepare.
      discriminate.
  - rewrite (regular_prepare_spec_dict_missing _ platform _ log Hl) in Hprepare.
    discriminate.
Qed.

End ProcessFacts.

(** [yaml_process_outcome] on the sample processor: a scenario that needs
    more memory than the platform has gives [None]; one that fits gives
    its specification, with the timeout 5 scaled by 1.5 to 8. *)
Lemma yaml_process_example :
  (YamlSpecificationProcessor.process Samples.always_memory_hungry Samples.qemu_arm
     "kernel.common" (Samples.kernel_processor, [])).1 = Ok None
  /\ exists test_spec,
       (YamlSpecificationProcessor.process Samples.always_unconstrained
          Samples.qemu_arm "kernel.common" (Samples.kernel_processor, [])).1
         = Ok (Some test_spec)
       /\ timeout test_spec = PyInt 8.
Proof.
  pose (d' := YamlSpecificationProcessor.written Samples.kernel_processor
                Samples.qemu_arm "kernel.common" Samples.declared_timeout).
  split.
  - pose proof (yaml_process_outcome Samples.always_memory_hungry
                  Samples.kernel_processor Samples.qemu_arm "kernel.common" [] d'
                  ltac:(vm_compute; reflexivity)) as Houtcome.
    cbv zeta in Houtcome.
    change (SpecificationProcessor.create_spec_from_dict
              Samples.always_memory_hungry d' Samples.qemu_arm)
      with (Ok Samples.memory_hungry_resolved) in Houtcome.
    cbv iota in Houtcome.
    assert (Hskip : (Eligibility.should_be_skip Samples.memory_hungry_resolved
                       Samples.qemu_arm []).1 = true)
      by (vm_compute; reflexivity).
    rewrite Hskip in Houtcome. exact (proj1 Houtcome).
  - pose proof (yaml_process_outcome Samples.always_unconstrained
                  Samples.kernel_processor Samples.qemu_arm "kernel.common" [] d'
                  ltac:(vm_compute; reflexivity)) as Houtcome.
    cbv zeta in Houtcome.
    change (SpecificationProcessor.create_spec_from_dict
              Samples.always_unconstrained d' Samples.qemu_arm)
      with (Ok Samples.unconstrained_resolved) in Houtcome.
    cbv iota in Houtcome.
    assert (Hskip : (Eligibility.should_be_skip Samples.unconstrained_resolved
                       Samples.qemu_arm []).1 = false)
      by (vm_compute; reflexivity).
    rewrite Hskip in Houtcome.
    exists Samples.unconstrained_resolved. split; [exact (proj1 Houtcome) | reflexivity].
Defined.

(** [regular_process_outcome] on a skipped pair: the specification is
    returned all the same, and the item carries the skip marker last. *)
Lemma regular_process_example :
  let r := RegularSpecificationProcessor.process Samples.always_memory_hungry
             Samples.mark_original_name Samples.qemu_arm "build.a"
             (Samples.inside_root_processor, []) in
  (exists test_spec, r.1 = Ok test_spec)
  /\ item_markers (RegularSpecificationProcessor.item r.2.1)
     = ["kernel.common"; "skip('Does not match requirements')"].
Proof.
  cbv zeta.
  destruct (regular_process_outcome Samples.always_memory_hungry
              Samples.mark_original_name Samples.inside_root_processor
              Samples.qemu_arm "build.a" []
              Samples.inside_root_prepared
              Samples.memory_hungry_resolved
              ltac:(vm_compute; reflexivity) ltac:(vm_compute; reflexivity))
    as (Hresult & Hmarkers & _).
  split; [exists Samples.memory_hungry_resolved; exact Hresult|].
  etransitivity; [exact Hmarkers | vm_compute; reflexivity].
Defined.

(** ** Edges of the timeout and of the names *)

Section ResolutionEdges.

Import PyNum SpecificationProcessor.

Variable YamlTestSpecification_of_dict : Constructor.

Lemma float_mul_nan_r (f : spec_float) : float_mul f S754_nan = S754_nan.
Proof. destruct f; reflexivity. Qed.

Lemma float_mul_infinity_r (f : spec_float) (s : bool) :
  float_mul f (S754_infinity s) = S754_nan
  \/ exists s', float_mul f (S754_infinity s) = S754_infinity s'.
Proof. destruct f; cbn; eauto. Qed.

Lemma ceil_not_finite (f : spec_float) :
  f = S754_nan \/ (exists s, f = S754_infinity s) ->
  ceil (PyFloat f) = Raise ValueError \/ ceil (PyFloat f) = Raise OverflowError.
Proof. intros [-> | [s ->]]; cbn; auto. Qed.

Lemma mul_by_non_finite (t : number) (g : spec_float) :
  g = S754_nan \/ (exists s, g = S754_infinity s) ->
  mul t (PyFloat g) = Raise OverflowError
  \/ exists f, mul t (PyFloat g) = Ok (PyFloat f)
               /\ (f = S754_nan \/ exists s, f = S754_infinity s).
Proof.
  intros Hg.
  assert (Hproduct :
    forall f, float_mul f g = S754_nan \/ exists s, float_mul f g = S754_infinity s).
  { intros f. destruct Hg as [-> | [s ->]].
    - left. apply float_mul_nan_r.
    - apply float_mul_infinity_r. }
  destruct t as [t|f]; cbn [mul].
  - unfold float_of_int.
    destruct (binary_normalize prec emax t 0 false) as [s|s| |s m e];
      cbn [rbind]; auto; right; eexists; (split; [reflexivity | apply Hproduct]).
  - right. eexists. split; [reflexivity | apply Hproduct].
Qed.

(** A multiplier that is NaN or infinite never yields a specification:
    [create_spec_from_dict] ends in [ValueError] or [OverflowError],
    whatever the declared timeout. *)
Theorem non_finite_multiplier_fails (test_spec_dict : dict)
    (platform : PlatformSpecification) (test_spec : YamlTestSpecification) :
  YamlTestSpecification_of_dict test_spec_dict = Ok test_spec ->
  timeout_multiplier (testing platform) = PyFloat S754_nan
  \/ (exists s, timeout_multiplier (testing platform) = PyFloat (S754_infinity s)) ->
  create_spec_from_dict YamlTestSpecification_of_dict test_spec_dict platform
    = Raise ValueError
  \/ create_spec_from_dict YamlTestSpecification_of_dict test_spec_dict platform
     = Raise OverflowError.
Proof.
  intros Hnew Hmultiplier. unfold create_spec_from_dict. rewrite Hnew. cbn [rbind].
  assert (Hfloat : exists g, timeout_multiplier (testing platform) = PyFloat g
                             /\ (g = S754_nan \/ exists s, g = S754_infinity s)).
  { destruct Hmultiplier as [-> | [s ->]]; eexists; eauto. }
  destruct Hfloat as (g & -> & Hg).
  destruct (mul_by_non_finite (timeout test_spec) g Hg)
    as [-> | (f & -> & Hf)]; cbn [rbind]; [auto|].
  destruct (ceil_not_finite f Hf) as [-> | ->]; auto.
Qed.

(** A resolved specification is the constructed one with a new timeout,
    and that timeout is an [int]: nothing else is touched. *)
Theorem resolved_spec_differs_in_timeout_only (test_spec_dict : dict)
    (platform : PlatformSpecification) (resolved : YamlTestSpecification) :
  create_spec_from_dict YamlTestSpecification_of_dict test_spec_dict platform
    = Ok resolved ->
  exists (test_spec : YamlTestSpecification) (n : Z),
    YamlTestSpecification_of_dict test_spec_dict = Ok test_spec
    /\ timeout resolved = PyInt n
    /\ original_name resolved = original_name test_spec
    /\ tags resolved = tags test_spec
    /\ arch_allow resolved = arch_allow test_spec
    /\ arch_exclude resolved = arch_exclude test_spec
    /\ platform_allow resolved = platform_allow test_spec
    /\ platform_exclude resolved = platform_exclude test_spec
    /\ platform_type resolved = platform_type test_spec
    /\ toolchain_allow resolved = toolchain_allow test_spec
    /\ toolchain_exclude resolved = toolchain_exclude test_spec
    /\ min_ram resolved = min_ram test_spec
    /\ min_flash resolved = min_flash test_spec
    /\ harness resolved = harness test_spec.
Proof.
  unfold create_spec_from_dict.
  destruct (YamlTestSpecification_of_dict test_spec_dict) as [ts|e]; [|discriminate].
  cbn [rbind]. destruct (mul _ _) as [product|e]; [|discriminate].
  cbn [rbind]. destruct (ceil product) as [n|e]; [|discriminate].
  cbn [rbind]. intros [= <-]. exists ts, n. repeat split.
Qed.

Lemma string_length_append (s t : string) :
  String.length (s +:+ t) = (String.length s + String.length t)%nat.
Proof.
  induction s as [|c s IH]; [reflexivity|].
  change (S (String.length (s +:+ t)) = S (String.length s + String.length t)).
  rewrite IH. reflexivity.
Qed.

Lemma append_cancel_r (t s1 s2 : string) : s1 +:+ t = s2 +:+ t -> s1 = s2.
Proof.
  revert s2. induction s1 as [|c1 s1 IH]; intros [|c2 s2] Heq.
  - reflexivity.
  - apply (f_equal String.length) in Heq.
    change (String.length t = S (String.length (s2 +:+ t))) in Heq.
    rewrite string_length_append in Heq. lia.
  - apply (f_equal String.length) in Heq.
    change (S (String.length (s1 +:+ t)) = String.length t) in Heq.
    rewrite string_length_append in Heq. lia.
  - change (String c1 (s1 +:+ t) = String c2 (s2 +:+ t)) in Heq.
    injection Heq as -> Heq. rewrite (IH _ Heq). reflexivity.
Qed.

(** The YAML-file processor names one scenario differently on different
    platforms: two resolutions that give the same [name] were made for
    the same platform identifier. *)
Theorem yaml_names_tell_platforms_apart
    (self : YamlSpecificationProcessor.t) (platform platform' : PlatformSpecification)
    (scenario : string) (log log' : Log) (d1 d2 : dict) :
  (YamlSpecificationProcessor.prepare_spec_dict platform scenario (self, log)).1
    = Ok d1 ->
  (YamlSpecificationProcessor.prepare_spec_dict platform' scenario (self, log')).1
    = Ok d2 ->
  d1 !! "name" = d2 !! "name" ->
  identifier platform = identifier platform'.
Proof.
  destruct (YamlSpecificationProcessor.tests self !! scenario) as [l|] eqn:Hl.
  - rewrite (prepare_spec_dict_present _ platform _ log _ Hl).
    rewrite (prepare_spec_dict_present _ platform' _ log' _ Hl).
    cbn [fst]. intros [= <-] [= <-].
    unfold YamlSpecificationProcessor.written.
    rewrite !(dict_lookup_insert_ne _ "rel_to_base_path" "name") by discriminate.
    rewrite !(dict_lookup_insert_ne _ "source_dir" "name") by discriminate.
    rewrite !(dict_lookup_insert_ne _ "platform" "name") by discriminate.
    rewrite !(dict_lookup_insert_ne _ "original_name" "name") by discriminate.
    rewrite !dict_lookup_insert_eq. intros [= Hname].
    apply String.app_inj in Hname. apply String.app_inj in Hname.
    exact (append_cancel_r _ _ _ Hname).
  - rewrite (prepare_spec_dict_missing _ platform _ log Hl). discriminate.
Qed.

End ResolutionEdges.

(** [non_finite_multiplier_fails] on a platform whose multiplier is NaN. *)
Lemma nan_multiplier_example :
  SpecificationProcessor.create_spec_from_dict Samples.always_unconstrained []
    Samples.nan_multiplier_platform = Raise ValueError.
Proof.
  destruct (non_finite_multiplier_fails Samples.always_unconstrained []
              Samples.nan_multiplier_platform Samples.unconstrained eq_refl
              (or_introl eq_refl)) as [Hvalue | Hoverflow].
  - exact Hvalue.
  - vm_compute in Hoverflow. discriminate Hoverflow.
Defined.

(** [resolved_spec_differs_in_timeout_only] on the sample scenario. *)
Lemma resolved_spec_example :
  exists resolved,
    SpecificationProcessor.create_spec_from_dict Samples.always_unconstrained []
      Samples.qemu_arm = Ok resolved
    /\ harness resolved = harness Samples.unconstrained
    /\ min_ram resolved = 32.
Proof.
  eexists. split; [vm_compute; reflexivity|].
  destruct (resolved_spec_differs_in_timeout_only Samples.always_unconstrained []
              Samples.qemu_arm _ ltac:(vm_compute; reflexivity))
    as (ts & n & Hnew & _ & _ & _ & _ & _ & _ & _ & _ & _ & _ & Hram & _ & Hharness).
  injection Hnew as <-. split; [exact Hharness | exact Hram].
Defined.

(** [yaml_names_tell_platforms_apart] on two platform descriptions that
    give the same name: they carry the same identifier. *)
Lemma yaml_names_example :
  identifier Samples.qemu_arm = identifier Samples.qemu_arm_low_memory.
Proof.
  apply (yaml_names_tell_platforms_apart Samples.kernel_processor
           Samples.qemu_arm Samples.qemu_arm_low_memory "kernel.common" [] []
           (YamlSpecificationProcessor.written Samples.kernel_processor
              Samples.qemu_arm "kernel.common" Samples.declared_timeout)
           (YamlSpecificationProcessor.written Samples.kernel_processor
              Samples.qemu_arm_low_memory "kernel.common" Samples.declared_timeout)).
  - vm_compute. reflexivity.
  - vm_compute. reflexivity.
  - vm_compute. reflexivity.
Defined.

(** ** Registering filters, and what the hook makes of them *)

Section RegistryFacts.

Import FilterRegistry.

Context {F : Type} `{EqDecision F}.

Implicit Types (f g : F) (fs : list F).

Lemma add_filter_registers_once_prefix f fs :
  exists tail, add_filter f fs = fs ++ tail.
Proof.
  unfold add_filter. destruct (bool_decide (f ∈ fs)).
  - exists []. rewrite app_nil_r. reflexivity.
  - exists [f]. reflexivity.
Qed.

(** [add_filter] registers a filter once: the filter is registered
    afterwards, the filters registered before stay where they were, a
    second registration changes nothing, and a list without duplicates
    stays without duplicates. *)
Theorem add_filter_registers_once f fs :
  f ∈ add_filter f fs
  /\ (exists tail, add_filter f fs = fs ++ tail)
  /\ (forall g, g ∈ add_filter f fs <-> g = f \/ g ∈ fs)
  /\ add_filter f (add_filter f fs) = add_filter f fs
  /\ (NoDup fs -> NoDup (add_filter f fs)).
Proof.
  unfold add_filter. destruct (bool_decide (f ∈ fs)) eqn:Hin.
  - apply bool_decide_eq_true in Hin.
    split; [exact Hin|]. split; [exists []; rewrite app_nil_r; reflexivity|].
    split; [|split].
    + intros g. split; [auto|]. intros [-> | Hg]; assumption.
    + rewrite bool_decide_eq_true_2 by exact Hin. reflexivity.
    + auto.
  - apply bool_decide_eq_false in Hin.
    assert (Hnew : f ∈ fs ++ [f])
      by (apply elem_of_app; right; apply list_elem_of_here).
    split; [exact Hnew|]. split; [exists [f]; reflexivity|].
    split; [|split].
    + intros g. rewrite elem_of_app, list_elem_of_singleton. tauto.
    + rewrite bool_decide_eq_true_2 by exact Hnew. reflexivity.
    + intros Hnodup. apply NoDup_app. split; [exact Hnodup|].
      split; [|apply NoDup_singleton].
      intros g Hg Hgf. apply list_elem_of_singleton in Hgf. subst g. exact (Hin Hg).
Qed.

End RegistryFacts.

Section RegistryHookFacts.

Import FilterPlugin FilterRegistry.

Context {T F : Type} `{EqDecision F}.

Variable filter_method : F -> @FilterInterface T.

Implicit Types (f g : F) (fs : list F) (items : list T).

(** Once a filter is registered, as [__init__] does with the slow-test
    filter, registering further filters never changes what the hook does:
    the hook consults the first registered filter only. *)
Theorem added_filters_do_not_reach_the_hook f fs items :
  fs <> [] ->
  collection_modifyitems filter_method (add_filter f fs) items =
  collection_modifyitems filter_method fs items.
Proof.
  intros Hne. destruct (add_filter_registers_once_prefix f fs) as [tail ->].
  unfold collection_modifyitems.
  destruct fs as [|first rest]; [congruence|].
  cbn [map app].
  rewrite (only_first_filter_consulted (filter_method first)
             (map filter_method (rest ++ tail))).
  rewrite (only_first_filter_consulted (filter_method first)
             (map filter_method rest)).
  reflexivity.
Qed.

End RegistryHookFacts.

(** [add_filter_registers_once] on the list [__init__] builds. *)
Lemma add_filter_example :
  NoDup (FilterRegistry.add_filter 1%nat (FilterRegistry.__init__ 0%nat))
  /\ FilterRegistry.add_filter 0%nat (FilterRegistry.__init__ 0%nat)
     = FilterRegistry.__init__ 0%nat.
Proof.
  destruct (add_filter_registers_once 1%nat (FilterRegistry.__init__ 0%nat))
    as (_ & _ & _ & _ & Hnodup).
  split; [apply Hnodup; apply NoDup_singleton | reflexivity].
Defined.

(** [added_filters_do_not_reach_the_hook] with a filter that would drop
    every item, added after the slow-test filter: only the slow test is
    dropped. *)
Lemma added_filter_example :
  FilterRegistry.collection_modifyitems Samples.numbered_filter
    (FilterRegistry.add_filter 1%nat (FilterRegistry.__init__ 0%nat))
    ["slow_a"; "fast_b"]
  = {| FilterPlugin.items_after := ["fast_b"];
       FilterPlugin.pytest_deselected_calls := [["slow_a"]] |}.
Proof.
  rewrite (added_filters_do_not_reach_the_hook Samples.numbered_filter 1%nat
             (FilterRegistry.__init__ 0%nat) ["slow_a"; "fast_b"]).
  - vm_compute. reflexivity.
  - discriminate.
Defined.

Section HookOutcome.

Import FilterPlugin.

Context {T : Type}.

Implicit Types (items : list T) (f : @FilterInterface T).

Lemma items_loop_first_filter f items (selected deselected : list T) :
  for_each (fun item s => (for_each (consult item) [f] s, Continue)) items
    (selected, deselected)
  = (selected ++ List.filter (fun item => negb (f item)) items,
     deselected ++ List.filter f items).
Proof.
  revert selected deselected.
  induction items as [|item items IH]; intros selected deselected; cbn.
  - rewrite !app_nil_r. reflexivity.
  - destruct (f item); cbn; rewrite IH, <- app_assoc; reflexivity.
Qed.

(** With at least one filter registered the hook splits the collection
    by the first filter: the items it rejects are reported in one
    [pytest_deselected] call (none when there are none), the others stay,
    both in their original order, and no item is lost. *)
Theorem hook_splits_by_first_filter f (rest : list FilterInterface) items :
  let outcome := pytest_collection_modifyitems (f :: rest) items in
  items_after outcome = List.filter (fun item => negb (f item)) items
  /\ pytest_deselected_calls outcome =
       match List.filter f items with
       | [] => []
       | deselected => [deselected]
       end
  /\ (length (items_after outcome) + length (concat (pytest_deselected_calls outcome))
      = length items)%nat.
Proof.
  cbv zeta. rewrite only_first_filter_consulted.
  unfold pytest_collection_modifyitems. rewrite items_loop_first_filter.
  cbn [items_after pytest_deselected_calls app].
  split; [reflexivity|]. split.
  - destruct (List.filter f items); reflexivity.
  - assert (Hconcat : forall l : list T,
              concat (if truthy_list l then [l] else []) = l).
    { intros [|x l]; cbn; rewrite ?app_nil_r; reflexivity. }
    rewrite Hconcat. clear Hconcat.
    induction items as [|item items IH]; [reflexivity|].
    cbn. destruct (f item); cbn; lia.
Qed.

End HookOutcome.

(** ** The status of a subtest report *)

Section SubtestStatusFacts.

Import SubtestStatus.

(** The hook declines (returns [None]) exactly for a report that is not
    of the call phase, is no subtest report, carries [wasxfail], or is
    neither passed nor skipped nor of outcome ["failed"]. *)
Theorem subtest_status_declined (report : Report) (verbose : Z) :
  pytest_report_teststatus report verbose = None <->
    when report <> "call"
    \/ is_SubTestReport report = false
    \/ has_wasxfail report = true
    \/ (passed report = false /\ skipped report = false
        /\ outcome report <> "failed").
Proof.
  unfold pytest_report_teststatus.
  destruct (String.eqb_spec (when report) "call") as [Hwhen|Hwhen];
    [|split; [left; exact Hwhen | reflexivity]].
  destruct (is_SubTestReport report); cbn [negb orb];
    [|split; [right; left; reflexivity | reflexivity]].
  destruct (has_wasxfail report);
    [split; [right; right; left; reflexivity | reflexivity]|].
  destruct (passed report).
  - split.
    + destruct (verbose =? 1); discriminate.
    + intros [? | [? | [? | (? & _)]]]; congruence.
  - destruct (skipped report).
    + split; [discriminate|]. intros [? | [? | [? | (_ & ? & _)]]]; congruence.
    + destruct (String.eqb_spec (outcome report) "failed") as [Hfailed|Hfailed].
      * split; [discriminate|]. intros [? | [? | [? | (_ & _ & ?)]]]; congruence.
      * split; [|reflexivity]. intros _. right. right. right. auto.
Qed.

(** A status, when there is one, is decided by [passed] first, then
    [skipped], then the outcome ["failed"]. A passed subtest is reported
    in the category "subtests <outcome>", with letter [","] and word
    ["SUBPASS"], both left empty at verbosity 1; a skipped one under its
    outcome with ["-"] and ["SUBSKIP"]; a failed one with ["u"] and
    ["SUBFAIL"]. *)
Theorem subtest_status_shape (report : Report) (verbose : Z)
    (category letter word : string) :
  pytest_report_teststatus report verbose = Some (category, letter, word) ->
  (passed report = true ->
     category = "subtests " +:+ outcome report
     /\ ((verbose = 1 /\ letter = "" /\ word = "")
         \/ (verbose <> 1 /\ letter = "," /\ word = "SUBPASS")))
  /\ (passed report = false ->
        category = outcome report
        /\ ((skipped report = true /\ letter = "-" /\ word = "SUBSKIP")
            \/ (skipped report = false /\ outcome report = "failed"
                /\ letter = "u" /\ word = "SUBFAIL"))).
Proof.
  unfold pytest_report_teststatus.
  destruct (negb (String.eqb (when report) "call") || negb (is_SubTestReport report));
    [discriminate|].
  destruct (has_wasxfail report); [discriminate|].
  destruct (passed report).
  - destruct (Z.eqb_spec verbose 1) as [Hverbose|Hverbose]; intros [= <- <- <-];
      (split; [|discriminate]); intros _; (split; [reflexivity|]); auto.
  - destruct (skipped report).
    + intros [= <- <- <-]. split; [discriminate|]. intros _. auto.
    + destruct (String.eqb_spec (outcome report) "failed") as [Hfailed|Hfailed];
        [|discriminate].
      intros [= <- <- <-]. split; [discriminate|]. intros _. split; [reflexivity|].
      right. auto.
Qed.

End SubtestStatusFacts.

(** [subtest_status_shape] on a passed subtest at verbosity 1. *)
Lemma subtest_status_example :
  SubtestStatus.pytest_report_teststatus Samples.passed_subtest 1
    = Some ("subtests passed", "", "").
Proof.
  destruct (SubtestStatus.pytest_report_teststatus Samples.passed_subtest 1)
    as [[[category letter] word]|] eqn:Hstatus; [|discriminate Hstatus].
  destruct (subtest_status_shape Samples.passed_subtest 1 category letter word
              Hstatus) as [Hpassed _].
  destruct (Hpassed eq_refl) as (-> & [(_ & -> & ->) | (Hverbose & _)]).
  - reflexivity.
  - destruct (Hverbose eq_refl).
Defined.

(** [joins_assert_strings] on a number among the arguments. *)
Lemma joins_assert_strings_example :
  Merge._join_filters [VStr "A"; VNum (PyInt 1)] = Raise AssertionError
  /\ Merge._join_strings [VNone; VStr "a"] = Raise AssertionError.
Proof.
  destruct (joins_assert_strings [VStr "A"; VNum (PyInt 1)]) as (Hfilters & _).
  destruct (joins_assert_strings [VNone; VStr "a"]) as (_ & Hstrings & _).
  split.
  - apply Hfilters. exists (VNum (PyInt 1)). split; [|discriminate].
    apply list_elem_of_further, list_elem_of_here.
  - apply Hstrings. exists VNone. split; [apply list_elem_of_here | discriminate].
Defined.
